(** * inferCNV: scripts/matrix_to_ideogram_annots.py

    A shallow embedding of the script that converts a clustered gene
    expression matrix into Ideogram.js annotations, and the properties of
    its aggregation and assembly steps.

    Conventions of the embedding:
    - a Python [str] is a [string] holding its UTF-8 encoding, the
      encoding the files are read in; its characters are read back from
      the bytes ([code_point]), so that white space and decimal digits are
      those of Unicode, as in [str.split], [str.strip], [int] and [float];
    - a Python [int] is a [Z];
    - a Python [float] is an IEEE 754 binary64 value, [spec_float] with
      [prec = 53] and [emax = 1024];
    - a raised exception is the [Err] branch of [result];
    - a [dict] that is only looked up is a [gmap]; a [dict] whose iteration
      order reaches the output is an insertion-ordered association list
      ([odict]);
    - files live in a [world]: a finite map from paths to contents, together
      with the log of the [open] calls made so far.
    Progress messages written with [print] go to the standard output and are
    left out. *)

From Stdlib Require Import ZArith List String Ascii Bool Lia Permutation.
From Stdlib Require Import QArith Qcanon Qabs Qpower.
From Stdlib Require Import Floats.SpecFloat.
From stdpp Require Import base option list gmap strings pretty.

Import ListNotations.
Local Open Scope string_scope.
Local Open Scope list_scope.
Local Open Scope Z_scope.

(** ** Exceptions and the error monad *)

Inductive exn : Type :=
| ValueError (msg : string)
| StatisticsError (msg : string)       (* subclass of ValueError *)
| KeyError (key : string)              (* subclass of LookupError *)
| IndexError (msg : string)            (* subclass of LookupError *)
| OverflowError (msg : string)
| FileNotFoundError (path : string)    (* subclass of OSError *)
| PermissionError (path : string).     (* subclass of OSError *)

(** [isinstance(e, LookupError)] *)
Definition is_LookupError (e : exn) : bool :=
  match e with
  | KeyError _ | IndexError _ => true
  | _ => false
  end.

Inductive result (A : Type) : Type :=
| Ok (a : A)
| Err (e : exn).
Arguments Ok {A} a.
Arguments Err {A} e.

#[global] Instance result_ret : MRet result := fun A a => Ok a.
#[global] Instance result_bind : MBind result := fun A B f m =>
  match m with
  | Ok a => f a
  | Err e => Err e
  end.

(** A [for] loop whose body may raise: the accumulator is threaded through
    the elements in order and the first exception ends the loop. *)
Fixpoint foldM {A B : Type} (f : B -> A -> result B) (l : list A) (b : B)
  : result B :=
  match l with
  | [] => Ok b
  | x :: l' =>
      match f b x with
      | Ok b' => foldM f l' b'
      | Err e => Err e
      end
  end.

(** [list(map(f, l))] for an [f] that may raise. *)
Fixpoint map_result {A B : Type} (f : A -> result B) (l : list A)
  : result (list B) :=
  match l with
  | [] => Ok []
  | x :: l' =>
      match f x with
      | Ok y =>
          match map_result f l' with
          | Ok ys => Ok (y :: ys)
          | Err e => Err e
          end
      | Err e => Err e
      end
  end.

(** [enumerate(l)] *)
Definition enumerate {A : Type} (l : list A) : list (Z * A) :=
  combine (map Z.of_nat (seq 0 (length l))) l.

(** [l[i]] with Python's negative indices. *)
Definition list_getitem {A : Type} (l : list A) (i : Z) : result A :=
  let n := Z.of_nat (length l) in
  let j := if i <? 0 then i + n else i in
  if (j <? 0) || (n <=? j) then Err (IndexError "list index out of range")
  else match nth_error l (Z.to_nat j) with
       | Some x => Ok x
       | None => Err (IndexError "list index out of range")
       end.

(** [l[k:]] for a constant [k >= 0]. *)
Definition slice_from {A : Type} (k : nat) (l : list A) : list A := skipn k l.

(** ** Insertion-ordered dictionaries *)

Definition odict (V : Type) : Type := list (string * V).

Fixpoint od_get {V : Type} (k : string) (d : odict V) : option V :=
  match d with
  | [] => None
  | (k', v) :: d' => if String.eqb k k' then Some v else od_get k d'
  end.

(** [d[k] = v]: an existing key keeps its place, a new key goes last. *)
Fixpoint od_set {V : Type} (k : string) (v : V) (d : odict V) : odict V :=
  match d with
  | [] => [(k, v)]
  | (k', v') :: d' =>
      if String.eqb k k' then (k, v) :: d' else (k', v') :: od_set k v d'
  end.

Definition od_keys {V : Type} (d : odict V) : list string := map fst d.

(** [d[k]] *)
Definition od_getitem {V : Type} (d : odict V) (k : string) : result V :=
  match od_get k d with
  | Some v => Ok v
  | None => Err (KeyError k)
  end.

(** [d[k]] on a dictionary that is only looked up. *)
Definition dict_getitem {V : Type} (d : gmap string V) (k : string) : result V :=
  match d !! k with
  | Some v => Ok v
  | None => Err (KeyError k)
  end.

(** ** Strings *)

Definition tab : string := String "009"%char EmptyString.
Definition newline : string := String "010"%char EmptyString.
Definition dquote : string := String "034"%char EmptyString.

(** The character that starts [s], as its code point and the number of
    its bytes; the code point is [-1] for a byte that starts no character
    of a well-formed string (a stray or missing continuation byte, an
    encoding longer than the shortest one, a surrogate, a code point past
    U+10FFFF). *)
Definition continuation (c : ascii) : option Z :=
  let n := Z.of_nat (nat_of_ascii c) in
  if (128 <=? n) && (n <? 192) then Some (n - 128) else None.

Definition decode (s : string) : Z * nat :=
  match s with
  | EmptyString => (-1, O)
  | String c r =>
      let n := Z.of_nat (nat_of_ascii c) in
      if n <? 128 then (n, 1%nat)
      else
        match r with
        | String c1 r1 =>
            match continuation c1 with
            | Some x1 =>
                if (192 <=? n) && (n <? 224) then ((n - 192) * 64 + x1, 2%nat)
                else
                  match r1 with
                  | String c2 r2 =>
                      match continuation c2 with
                      | Some x2 =>
                          if (224 <=? n) && (n <? 240)
                          then ((n - 224) * 4096 + x1 * 64 + x2, 3%nat)
                          else
                            match r2 with
                            | String c3 _ =>
                                match continuation c3 with
                                | Some x3 =>
                                    if (240 <=? n) && (n <? 248)
                                    then ((n - 240) * 262144 + x1 * 4096
                                          + x2 * 64 + x3, 4%nat)
                                    else (-1, 1%nat)
                                | None => (-1, 1%nat)
                                end
                            | EmptyString => (-1, 1%nat)
                            end
                      | None => (-1, 1%nat)
                      end
                  | EmptyString => (-1, 1%nat)
                  end
            | None => (-1, 1%nat)
            end
        | EmptyString => (-1, 1%nat)
        end
  end.

Definition code_point (s : string) : Z * nat :=
  let '(cp, n) := decode s in
  let shortest :=
    match n with
    | 2%nat => 128 <=? cp
    | 3%nat => (2048 <=? cp) && negb ((55296 <=? cp) && (cp <=? 57343))
    | 4%nat => (65536 <=? cp) && (cp <=? 1114111)
    | _ => true
    end in
  if shortest then (cp, n) else (-1, 1%nat).

(** [str.isspace] on a character: U+0009-000D, U+001C-0020, U+0085,
    U+00A0, U+1680, U+2000-200A, U+2028, U+2029, U+202F, U+205F and
    U+3000. *)
Definition is_space (cp : Z) : bool :=
  (9 <=? cp) && (cp <=? 13) || (28 <=? cp) && (cp <=? 32)
  || (cp =? 133) || (cp =? 160) || (cp =? 5760)
  || (8192 <=? cp) && (cp <=? 8202)
  || (cp =? 8232) || (cp =? 8233) || (cp =? 8239) || (cp =? 8287)
  || (cp =? 12288).

(** The number of bytes of the white-space character that starts [s], 0
    when [s] does not start with one: what [str.strip()] and [str.split()]
    cut on. *)
Definition space_length (s : string) : nat :=
  let '(cp, n) := code_point s in
  if is_space cp then n else O.

(** The bytes of [s], each with the mark of the bytes of a white-space
    character; [skip] counts the bytes of a white-space character that has
    been met and is still to be passed over. *)
Fixpoint space_mask (skip : nat) (s : string) : list (bool * ascii) :=
  match s with
  | EmptyString => []
  | String c r =>
      match skip with
      | S k => (true, c) :: space_mask k r
      | O =>
          match space_length s with
          | O => (false, c) :: space_mask O r
          | S k => (true, c) :: space_mask k r
          end
      end
  end.

Fixpoint lstrip_mask (l : list (bool * ascii)) : list (bool * ascii) :=
  match l with
  | (true, _) :: l' => lstrip_mask l'
  | _ => l
  end.

Fixpoint rstrip_mask (l : list (bool * ascii)) : list (bool * ascii) :=
  match l with
  | [] => []
  | (b, c) :: l' =>
      match rstrip_mask l' with
      | [] => if b then [] else [(b, c)]
      | r => (b, c) :: r
      end
  end.

Definition string_of_bytes (l : list ascii) : string :=
  fold_right String EmptyString l.

(** [c in chars] *)
Fixpoint char_in (chars : string) (c : ascii) : bool :=
  match chars with
  | EmptyString => false
  | String c' chars' => Ascii.eqb c c' || char_in chars' c
  end.

Fixpoint lstrip_by (p : ascii -> bool) (s : string) : string :=
  match s with
  | EmptyString => EmptyString
  | String c s' => if p c then lstrip_by p s' else s
  end.

Fixpoint rstrip_by (p : ascii -> bool) (s : string) : string :=
  match s with
  | EmptyString => EmptyString
  | String c s' =>
      match rstrip_by p s' with
      | EmptyString => if p c then EmptyString else String c EmptyString
      | r => String c r
      end
  end.

(** [s.strip()] *)
Definition py_strip (s : string) : string :=
  string_of_bytes (map snd (rstrip_mask (lstrip_mask (space_mask O s)))).

(** [s.strip(chars)] *)
Definition py_strip_chars (chars : string) (s : string) : string :=
  rstrip_by (char_in chars) (lstrip_by (char_in chars) s).

Definition cons_nonempty (w : string) (ws : list string) : list string :=
  match w with
  | EmptyString => ws
  | _ => w :: ws
  end.

(** The word that starts the marked bytes [l] (up to the first white
    space) and the words after it. *)
Fixpoint words_aux (l : list (bool * ascii)) : string * list string :=
  match l with
  | [] => (EmptyString, [])
  | (b, c) :: l' =>
      let '(w, ws) := words_aux l' in
      if b then (EmptyString, cons_nonempty w ws)
      else (String c w, ws)
  end.

(** [s.split()]: the maximal runs of characters that are not white space. *)
Definition py_split_ws (s : string) : list string :=
  let '(w, ws) := words_aux (space_mask O s) in cons_nonempty w ws.

(** The piece that starts [s] (up to the next occurrence of [sep]) and the
    pieces after it; [skip] counts the characters of a separator that has
    been matched and is still to be passed over. *)
Fixpoint split_aux (sep : string) (skip : nat) (s : string) : string * list string :=
  match s with
  | EmptyString => (EmptyString, [])
  | String c s' =>
      match skip with
      | S k => split_aux sep k s'
      | O =>
          if String.prefix sep s then
            let '(w, ws) := split_aux sep (Nat.pred (String.length sep)) s' in
            (EmptyString, w :: ws)
          else
            let '(w, ws) := split_aux sep O s' in
            (String c w, ws)
      end
  end.

(** [s.split(sep)] *)
Definition py_split (sep : string) (s : string) : result (list string) :=
  match sep with
  | EmptyString => Err (ValueError "empty separator")
  | _ => let '(w, ws) := split_aux sep O s in Ok (w :: ws)
  end.

(** [s.replace(old, new)] for a non-empty [old]: the pieces between the
    occurrences of [old], joined by [new]. *)
Definition py_replace (old new : string) (s : string) : string :=
  let '(w, ws) := split_aux old O s in String.concat new (w :: ws).

(** The lines of a text file as [f.readlines()] returns them in text mode:
    every line keeps its end, and the ends CR LF and CR are read as LF. *)
Fixpoint readlines_aux (s : string) : string * list string :=
  match s with
  | EmptyString => (EmptyString, [])
  | String c s' =>
      if Ascii.eqb c "010"%char then
        let '(w, ws) := readlines_aux s' in (newline, cons_nonempty w ws)
      else if Ascii.eqb c "013"%char then
        match s' with
        | String "010"%char _ => readlines_aux s'
        | _ => let '(w, ws) := readlines_aux s' in (newline, cons_nonempty w ws)
        end
      else
        let '(w, ws) := readlines_aux s' in (String c w, ws)
  end.

Definition readlines (content : string) : list string :=
  let '(w, ws) := readlines_aux content in cons_nonempty w ws.

Definition to_lower (c : ascii) : ascii :=
  let n := nat_of_ascii c in
  if ((65 <=? n) && (n <=? 90))%nat then ascii_of_nat (n + 32) else c.

Fixpoint lower (s : string) : string :=
  match s with
  | EmptyString => EmptyString
  | String c s' => String (to_lower c) (lower s')
  end.

(** The code points of the digits zero of Unicode (14.0); the nine code
    points after each are its digits one to nine. A character is a decimal
    digit for [int] and [float] when it is one of these. *)
Definition decimal_zeros : list Z :=
  [48; 1632; 1776; 1984; 2406; 2534; 2662; 2790; 2918; 3046; 3174; 3302;
   3430; 3558; 3664; 3792; 3872; 4160; 4240; 6112; 6160; 6470; 6608; 6784;
   6800; 6992; 7088; 7232; 7248; 42528; 43216; 43264; 43472; 43504; 43600;
   44016; 65296; 66720; 68912; 69734; 69872; 69942; 70096; 70384; 70736;
   70864; 71248; 71360; 71472; 71904; 72016; 72784; 73040; 73120; 92768;
   92864; 93008; 120782; 120792; 120802; 120812; 120822; 123200; 123632;
   125264; 130032].

Definition decimal_digit (cp : Z) : option Z :=
  match List.find (fun z => (z <=? cp) && (cp <=? z + 9)) decimal_zeros with
  | Some z => Some (cp - z)
  | None => None
  end.

(** What [int] and [float] parse in place of a string: an ASCII character
    stands for itself, any other white-space character for a space, any
    other decimal digit for its ASCII digit and any other character for a
    question mark, which no number holds. *)
Definition number_char (c : ascii) (cp : Z) : ascii :=
  if (0 <=? cp) && (cp <? 128) then c
  else if is_space cp then " "%char
  else match decimal_digit cp with
       | Some d => ascii_of_nat (48 + Z.to_nat d)
       | None => "?"%char
       end.

Fixpoint number_ascii (skip : nat) (s : string) : string :=
  match s with
  | EmptyString => EmptyString
  | String c r =>
      match skip with
      | S k => number_ascii k r
      | O =>
          let '(cp, n) := code_point s in
          String (number_char c cp) (number_ascii (Nat.pred n) r)
      end
  end.

(** The white space that [int] and [float] skip at both ends of what they
    parse: the space and U+0009-000D. *)
Definition is_number_space (c : ascii) : bool :=
  let n := nat_of_ascii c in
  ((9 <=? n) && (n <=? 13) || (n =? 32))%nat.

Definition number_text (s : string) : string :=
  let t := number_ascii O s in
  rstrip_by is_number_space (lstrip_by is_number_space t).

Definition digit_of_ascii (c : ascii) : option Z :=
  let n := nat_of_ascii c in
  if ((48 <=? n) && (n <=? 57))%nat then Some (Z.of_nat (n - 48)) else None.

Definition starts_with_digit (s : string) : bool :=
  match s with
  | String c _ => match digit_of_ascii c with Some _ => true | None => false end
  | EmptyString => false
  end.

(** The longest prefix of [s] of the form [digit (["_"] digit)*]: its digits
    and what follows it. *)
Fixpoint digitpart (s : string) : list Z * string :=
  match s with
  | EmptyString => ([], s)
  | String c s' =>
      match digit_of_ascii c with
      | None => ([], s)
      | Some d =>
          match s' with
          | String "_" s'' =>
              if starts_with_digit s''
              then let '(ds, r) := digitpart s'' in (d :: ds, r)
              else ([d], s')
          | _ => let '(ds, r) := digitpart s' in (d :: ds, r)
          end
      end
  end.

(** ** Numbers *)

Definition digits_value (ds : list Z) : Z :=
  fold_left (fun acc d => 10 * acc + d) ds 0.

Definition split_sign (s : string) : bool * string :=
  match s with
  | String "-" r => (true, r)
  | String "+" r => (false, r)
  | _ => (false, s)
  end.

(** [int(s)] for a string [s] *)
Definition py_int (s : string) : result Z :=
  let '(neg, r) := split_sign (number_text s) in
  match digitpart r with
  | (d :: ds, EmptyString) =>
      let v := digits_value (d :: ds) in Ok (if neg then - v else v)
  | _ => Err (ValueError ("invalid literal for int() with base 10: '" +:+ s +:+ "'"))
  end.

(** Python's [float]: IEEE 754 binary64. *)
Definition float : Type := spec_float.

Definition prec : Z := 53.
Definition emax : Z := 1024.

Definition is_finite (x : float) : bool :=
  match x with
  | S754_zero _ | S754_finite _ _ _ => true
  | S754_infinity _ | S754_nan => false
  end.

(** The binary64 value nearest to [num / den] (ties to even), with the sign
    [neg]; an infinity when the quotient is out of range. *)
Definition float_of_ratio (neg : bool) (num den : positive) : float :=
  SFdiv prec emax (S754_finite neg num 0) (S754_finite false den 0).

(** [float(n)] for an [int] within range *)
Definition float_of_Z (n : Z) : float := binary_normalize prec emax n 0 false.

(** The binary64 value nearest to [d * 10^k], [d >= 0]. *)
Definition decimal_float (neg : bool) (d : Z) (k : Z) : float :=
  match d with
  | Zpos p =>
      if 0 <=? k then float_of_ratio neg (Z.to_pos (d * 10 ^ k)) 1
      else float_of_ratio neg p (Z.to_pos (10 ^ (- k)))
  | _ => S754_zero neg
  end.

Definition float_error (s : string) : exn :=
  ValueError ("could not convert string to float: '" +:+ s +:+ "'").

(** [float(s)] for a string [s]: optional sign, then [inf], [infinity],
    [nan] (in any case) or a decimal number with an optional exponent. *)
Definition py_float (s : string) : result float :=
  let '(neg, r) := split_sign (number_text s) in
  let lr := lower r in
  if String.eqb lr "inf" || String.eqb lr "infinity" then Ok (S754_infinity neg)
  else if String.eqb lr "nan" then Ok S754_nan
  else
    let '(ip, r1) := digitpart r in
    let '(fp, r2) := match r1 with
                     | String "." r' => digitpart r'
                     | _ => ([], r1)
                     end in
    match ip ++ fp with
    | [] => Err (float_error s)
    | ds =>
        let k := - Z.of_nat (length fp) in
        match r2 with
        | EmptyString => Ok (decimal_float neg (digits_value ds) k)
        | String c r3 =>
            if Ascii.eqb (to_lower c) "e" then
              let '(eneg, r4) := split_sign r3 in
              match digitpart r4 with
              | (e :: es, EmptyString) =>
                  let x := digits_value (e :: es) in
                  Ok (decimal_float neg (digits_value ds)
                        ((if eneg then - x else x) + k))
              | _ => Err (float_error s)
              end
            else Err (float_error s)
        end
    end.

(** [x.as_integer_ratio()] as a [Fraction]; [None] for an infinity or a
    nan, which have no ratio. *)
Definition exact_ratio (x : float) : option Qc :=
  match x with
  | S754_zero _ => Some (Q2Qc 0)
  | S754_finite s m e =>
      Some (Q2Qc (inject_Z (cond_Zopp s (Zpos m)) * Qpower (2 # 1) e))
  | S754_infinity _ | S754_nan => None
  end.

(** [statistics._sum]: the finite values are added as exact fractions; the
    infinities and nans are added as floats, in the order they come. *)
Definition sum_step (acc : Qc * option float) (x : float) : Qc * option float :=
  let '(total, special) := acc in
  match exact_ratio x with
  | Some q => ((total + q)%Qc, special)
  | None =>
      (total, Some match special with
                   | None => x
                   | Some t => SFadd prec emax t x
                   end)
  end.

Definition py_sum (data : list float) : Qc * option float :=
  fold_left sum_step data (Q2Qc 0, None).

(** [float(q)] for a [Fraction]: numerator over denominator, rounded once. *)
Definition float_of_fraction (q : Qc) : result float :=
  match Qnum q with
  | Z0 => Ok (S754_zero false)
  | Zpos p | Zneg p =>
      match float_of_ratio (Qnum q <? 0) p (Qden q) with
      | S754_infinity _ =>
          Err (OverflowError "integer division result too large for a float")
      | y => Ok y
      end
  end.

(** [statistics.mean] *)
Definition mean (data : list float) : result float :=
  let n := Z.of_nat (length data) in
  if n <? 1 then Err (StatisticsError "mean requires at least one data point")
  else
    match py_sum data with
    | (_, Some t) => Ok (SFdiv prec emax t (float_of_Z n))
    | (total, None) => float_of_fraction (total / Q2Qc (inject_Z n))%Qc
    end.

(** [num / den] rounded to the nearest integer, a tie to the even one. *)
Definition round_half_even (num den : Z) : Z :=
  let q := num / den in
  match (2 * (num mod den) ?= den) with
  | Lt => q
  | Gt => q + 1
  | Eq => if Z.even q then q else q + 1
  end.

(** [round(x, ndigits)]: the exact value of [x] is rounded to [ndigits]
    decimal places (a tie to the even digit), and the decimal obtained is
    read back as a binary64. *)
Definition py_round (x : float) (ndigits : Z) : result float :=
  match x with
  | S754_finite s m e =>
      if 323 <? ndigits then Ok x
      else if ndigits <? -308 then Ok (S754_zero s)
      else
        let up := 10 ^ Z.max ndigits 0 in
        let down := 10 ^ Z.max (- ndigits) 0 in
        let k := round_half_even (Zpos m * 2 ^ Z.max e 0 * up)
                                 (2 ^ Z.max (- e) 0 * down) in
        match k * down with
        | Zpos p =>
            match float_of_ratio s p (Z.to_pos up) with
            | S754_infinity _ =>
                Err (OverflowError "rounded value too large to represent")
            | y => Ok y
            end
        | _ => Ok (S754_zero s)
        end
  | _ => Ok x
  end.

(** ** Files *)

Inductive io_event : Type :=
| OpenRead (path : string)
| OpenWrite (path : string).

Record world : Type := World {
  files : gmap string string;     (* path -> content *)
  unwritable : gset string;       (* paths [open(_, 'w')] fails on *)
  io_log : list io_event          (* the [open] calls so far, oldest first *)
}.

Definition IO (A : Type) : Type := world -> result A * world.

#[global] Instance IO_ret : MRet IO := fun A a w => (Ok a, w).
#[global] Instance IO_bind : MBind IO := fun A B f m w =>
  match m w with
  | (Ok a, w') => f a w'
  | (Err e, w') => (Err e, w')
  end.

(** A computation that touches no file. *)
Definition lift {A : Type} (r : result A) : IO A := fun w => (r, w).

Definition log_event (ev : io_event) (w : world) : world :=
  World (files w) (unwritable w) (io_log w ++ [ev]).

(** [with open(path) as f: lines = f.readlines()] *)
Definition read_lines (path : string) : IO (list string) := fun w =>
  let w' := log_event (OpenRead path) w in
  match files w !! path with
  | Some content => (Ok (readlines content), w')
  | None => (Err (FileNotFoundError path), w')
  end.

(** [open(path, 'w')]: the file is created or emptied. *)
Definition open_w (path : string) : IO unit := fun w =>
  let w' := log_event (OpenWrite path) w in
  if decide (path ∈ unwritable w) then (Err (PermissionError path), w')
  else (Ok tt, World (<[path := EmptyString]> (files w')) (unwritable w') (io_log w')).

(** [f.write(data)] on the file opened at [path], up to its close; a write
    to a file that is open is taken to succeed. *)
Definition file_write (path : string) (data : string) : IO unit := fun w =>
  (Ok tt, World (<[path := data]> (files w)) (unwritable w) (io_log w)).

(** A [for] loop whose body reads files. *)
Fixpoint foldIO {A B : Type} (f : B -> A -> IO B) (l : list A) (b : B) : IO B :=
  match l with
  | [] => mret b
  | x :: l' => b' ← f b x; foldIO f l' b'
  end.

(** ** The data of the script *)

Inductive pyval : Type :=
| VStr (s : string)
| VInt (n : Z)
| VFloat (x : float).

(** A value of the [genes] dict of [get_genes]: the four columns of a line
    of the position file, all kept as strings. *)
Record gene : Type := Gene {
  gene_id : string;
  gene_chr : string;
  gene_start : string;
  gene_stop : string
}.

(** A value of the [clusters] dict: [{'path': ...}] after
    [get_clusters_meta], [{'path': ..., 'cells': ...}] after [get_clusters]. *)
Record cluster : Type := Cluster {
  cluster_path : string;
  cluster_cells : option (list string)
}.

(** [{'cells': cells_dict, 'genes': genes}] *)
Record em_dict : Type := EmDict {
  em_cells : gmap string Z;
  em_genes : odict (list float)
}.

(** [{'chr': chr, 'annots': annots}] *)
Record chr_annots : Type := ChrAnnots {
  chr : string;
  annots : list (list pyval)
}.

(** [{'keys': keys, 'annots': annots_list}] *)
Record ideogram_annots : Type := IdeogramAnnots {
  keys : list string;
  annots_list : list chr_annots
}.

(** The command-line arguments after [parse_args], every option given. *)
Record args : Type := Args {
  arg_infercnv_output : string;
  arg_infercnv_delimiter : string;
  arg_gen_pos_file : string;
  arg_cluster_names : list string;
  arg_cluster_paths : list string;
  arg_output_file : string
}.

(** The attributes of a [MatrixToIdeogramAnnots] object. *)
Record MatrixToIdeogramAnnots : Type := Self {
  infercnv_output : string;
  infercnv_delimiter : string;
  clusters : odict cluster;
  output_file : string;
  genomic_position_file_path : string;
  genes : gmap string gene
}.

(** ** The script *)

(** *** [get_clusters_meta] (lines 220-231) *)

Definition get_clusters_meta (names paths : list string) : result (odict cluster) :=
  if negb (length names =? length paths)%nat then
    Err (ValueError "Number of cluster names must equal length of cluster paths")
  else
    foldM (fun clusters_meta '(i, name) =>
             p ← list_getitem paths i;
             Ok (od_set name (Cluster p None) clusters_meta))
          (enumerate names) [].

(** *** [get_clusters] (lines 145-166) *)

(** [clusters[name]['cells'] = cells] *)
Definition set_cells (name : string) (cells : list string)
    (clusters : odict cluster) : result (odict cluster) :=
  c ← od_getitem clusters name;
  Ok (od_set name (Cluster (cluster_path c) (Some cells)) clusters).

(** The loop over [lines[3:]]. *)
Definition cells_of_lines (lines : list string) : result (list string) :=
  foldM (fun cells line =>
           cell ← list_getitem (py_split_ws line) 0;
           Ok (cells ++ [cell]))
        (slice_from 3 lines) [].

Definition get_clusters (clusters_meta : odict cluster) : IO (odict cluster) :=
  foldIO (fun clusters name =>
            clusters ← lift (set_cells name [] clusters);
            c ← lift (od_getitem clusters name);
            lines ← read_lines (cluster_path c);
            cells ← lift (cells_of_lines lines);
            lift (set_cells name cells clusters))
         (od_keys clusters_meta) clusters_meta.

(** *** [get_genes] (lines 94-112) *)

Definition unpack_error (n : nat) : exn :=
  if (n <? 4)%nat then
    ValueError ("not enough values to unpack (expected 4, got " +:+ pretty n +:+ ")")
  else ValueError "too many values to unpack (expected 4)".

Definition genes_of_lines (lines : list string) : result (gmap string gene) :=
  foldM (fun (genes : gmap string gene) line =>
           let columns := py_split_ws (py_strip line) in
           match columns with
           | [id; chr; start; stop] => Ok (<[id := Gene id chr start stop]> genes)
           | _ => Err (unpack_error (length columns))
           end)
        lines ∅.

Definition get_genes (genomic_position_file_path : string) : IO (gmap string gene) :=
  lines ← read_lines genomic_position_file_path;
  lift (genes_of_lines lines).

(** *** [get_expression_matrix_dict] (lines 114-143) *)

(** ["PREVIZ.AAACATACAAGGGC.1" -> AAACATACAAGGGC-1] (line 128) *)
Definition normalize_cell (cell : string) : result string :=
  parts ← py_split "PREVIZ." (py_strip_chars dquote cell);
  p ← list_getitem parts 1;
  Ok (py_replace "." "-" p).

(** The loop over [enumerate(cells_list)]. *)
Definition cells_dict_of (cells_list : list string) : result (gmap string Z) :=
  foldM (fun (cells_dict : gmap string Z) '(i, cell) =>
           cell ← normalize_cell cell;
           Ok (<[cell := i]> cells_dict))
        (enumerate cells_list) ∅.

(** The loop over [lines[1:]]. *)
Definition gene_rows_of (delimiter : string) (lines : list string)
  : result (odict (list float)) :=
  foldM (fun genes line =>
           columns ← py_split delimiter (py_strip line);
           c0 ← list_getitem columns 0;
           let gene := py_strip_chars dquote c0 in
           expression_by_cell ← map_result py_float (slice_from 1 columns);
           Ok (od_set gene expression_by_cell genes))
        (slice_from 1 lines) [].

Definition expression_matrix_of_lines (delimiter : string) (lines : list string)
  : result em_dict :=
  header ← list_getitem lines 0;
  cells_list ← py_split delimiter (py_strip header);
  cells_dict ← cells_dict_of cells_list;
  genes ← gene_rows_of delimiter lines;
  Ok (EmDict cells_dict genes).

Definition get_expression_matrix_dict (self : MatrixToIdeogramAnnots) : IO em_dict :=
  lines ← read_lines (infercnv_output self);
  lift (expression_matrix_of_lines (infercnv_delimiter self) lines).

(** *** [compute_gene_expression_means] (lines 169-217) *)

(** The loop over [cluster['cells']] (lines 198-207). *)
Definition cluster_expressions (cells : gmap string Z) (gene_exp_list : list float)
    (cluster_cells : list string) : result (list float) :=
  foldM (fun cluster_expressions cluster_cell =>
           i ← dict_getitem cells cluster_cell;
           let index_of_cell_in_matrix := i - 1 in
           gene_exp_in_cell ← list_getitem gene_exp_list index_of_cell_in_matrix;
           Ok (cluster_expressions ++ [gene_exp_in_cell]))
        cluster_cells [].

(** [round(mean(l), 3)] *)
Definition rounded_mean (l : list float) : result float :=
  m ← mean l; py_round m 3.

(** [cluster['cells']] *)
Definition cells_of (c : cluster) : result (list string) :=
  match cluster_cells c with
  | Some l => Ok l
  | None => Err (KeyError "cells")
  end.

(** One pass of the loop over [clusters] (lines 196-210). *)
Definition cluster_step (cells : gmap string Z) (clusters : odict cluster)
    (gene_exp_list : list float) (scores_list : list pyval) (name : string)
  : result (list pyval) :=
  cluster ← od_getitem clusters name;
  cluster_cells ← cells_of cluster;
  cluster_expressions ← cluster_expressions cells gene_exp_list cluster_cells;
  mean_cluster_expression ← rounded_mean cluster_expressions;
  Ok (scores_list ++ [VFloat mean_cluster_expression]).

(** One pass of the loop over the genes (lines 189-215). *)
Definition gene_scores (cells : gmap string Z) (clusters : odict cluster)
    (gene_expression_lists : odict (list float)) (gene : string)
  : result (list pyval) :=
  gene_exp_list ← od_getitem gene_expression_lists gene;
  mean_expression_all ← rounded_mean gene_exp_list;
  foldM (cluster_step cells clusters gene_exp_list)
        (od_keys clusters) [VStr gene; VFloat mean_expression_all].

(** The body of [compute_gene_expression_means] once the matrix is read. *)
Definition expression_means_of (clusters : odict cluster) (matrix : em_dict)
  : result (list (list pyval)) :=
  let cluster_names := od_keys clusters in
  let keys := map VStr (["name"; "all"] ++ cluster_names) in
  let cells := em_cells matrix in
  let gene_expression_lists := em_genes matrix in
  foldM (fun scores_lists gene =>
           scores_list ← gene_scores cells clusters gene_expression_lists gene;
           Ok (scores_lists ++ [scores_list]))
        (od_keys gene_expression_lists) [keys].

Definition compute_gene_expression_means (self : MatrixToIdeogramAnnots)
  : IO (list (list pyval)) :=
  matrix ← get_expression_matrix_dict self;
  lift (expression_means_of (clusters self) matrix).

(** *** [get_ideogram_annots] (lines 47-92) *)

(** [genes[gene_id]] for the first element of a score row; the rows that
    [compute_gene_expression_means] builds start with a string. *)
Definition row_gene_id (v : pyval) : result string :=
  match v with
  | VStr s => Ok s
  | VInt n => Err (KeyError (pretty n))
  | VFloat _ => Err (KeyError "<float>")
  end.

(** One pass of the loop over [expression_means[1:]] (lines 63-82). *)
Definition annot_step (genes : gmap string gene)
    (annots_by_chr : odict (list (list pyval))) (expression_mean : list pyval)
  : result (odict (list (list pyval))) :=
  v ← list_getitem expression_mean 0;
  gene_id ← row_gene_id v;
  gene ← dict_getitem genes gene_id;
  let chr := gene_chr gene in
  start ← py_int (gene_start gene);
  stop ← py_int (gene_stop gene);
  let length := stop - start in
  let annots_by_chr :=
    match od_get chr annots_by_chr with
    | None => od_set chr [] annots_by_chr
    | Some _ => annots_by_chr
    end in
  let annot := [VStr gene_id; VInt start; VInt length]
               ++ slice_from 1 expression_mean in
  bucket ← od_getitem annots_by_chr chr;
  Ok (od_set chr (bucket ++ [annot]) annots_by_chr).

(** The loop over [annots_by_chr] (lines 86-88). *)
Definition annots_list_of (annots_by_chr : odict (list (list pyval)))
  : result (list chr_annots) :=
  foldM (fun annots_list chr =>
           annots ← od_getitem annots_by_chr chr;
           Ok (annots_list ++ [ChrAnnots chr annots]))
        (od_keys annots_by_chr) [].

(** The body of [get_ideogram_annots] once the means are computed. *)
Definition ideogram_annots_of (genes : gmap string gene) (clusters : odict cluster)
    (expression_means : list (list pyval)) : result ideogram_annots :=
  let keys := ["name"; "start"; "length"] ++ (["all"] ++ od_keys clusters) in
  annots_by_chr ← foldM (annot_step genes) (slice_from 1 expression_means) [];
  annots_list ← annots_list_of annots_by_chr;
  Ok (IdeogramAnnots keys annots_list).

Definition get_ideogram_annots (self : MatrixToIdeogramAnnots) : IO ideogram_annots :=
  expression_means ← compute_gene_expression_means self;
  lift (ideogram_annots_of (genes self) (clusters self) expression_means).

Section Pipeline.

(** [json.dumps], of the standard library: the text of an annotation
    structure. No property below depends on the text it produces. *)
Variable json_dumps : ideogram_annots -> string.

(** *** [write_ideogram_annots] (lines 35-45) *)
Definition write_ideogram_annots (self : MatrixToIdeogramAnnots) : IO unit :=
  ideogram_annots ← get_ideogram_annots self;
  let ideogram_annots_json := json_dumps ideogram_annots in
  _ ← open_w (output_file self);
  file_write (output_file self) ideogram_annots_json.

(** *** [__init__] (lines 21-33) *)
Definition init (infercnv_output infercnv_delimiter gen_pos_file : string)
    (clusters_meta : odict cluster) (output_file : string)
  : IO MatrixToIdeogramAnnots :=
  clusters ← get_clusters clusters_meta;
  genes ← get_genes gen_pos_file;
  let self := Self infercnv_output infercnv_delimiter clusters output_file
                   gen_pos_file genes in
  _ ← write_ideogram_annots self;
  mret self.

(** *** The script body (lines 255-266) *)
Definition main (a : args) : IO MatrixToIdeogramAnnots :=
  clusters_meta ← lift (get_clusters_meta (arg_cluster_names a)
                                           (arg_cluster_paths a));
  init (arg_infercnv_output a) (arg_infercnv_delimiter a)
       (arg_gen_pos_file a) clusters_meta (arg_output_file a).

End Pipeline.

(** ** Constants of the scenarios *)

(** White-space characters and digits beyond ASCII, in UTF-8: the
    no-break space U+00A0, the em space U+2003, the ideographic space
    U+3000, the file separator U+001C and the Arabic-Indic digits one and
    two, U+0661 and U+0662. *)
Definition nbsp : string := String "194"%char (String "160"%char EmptyString).
Definition em_space : string :=
  String "226"%char (String "128"%char (String "131"%char EmptyString)).
Definition ideographic_space : string :=
  String "227"%char (String "128"%char (String "128"%char EmptyString)).
Definition file_separator : string := String "028"%char EmptyString.
Definition arabic_12 : string :=
  String "217"%char (String "161"%char
    (String "217"%char (String "162"%char EmptyString))).

(** [2.0], [3.0] and [4.0] as binary64 values. *)
Definition float_2 : float := S754_finite false 4503599627370496 (-51).
Definition float_3 : float := S754_finite false 6755399441055744 (-51).
Definition float_4 : float := S754_finite false 4503599627370496 (-50).
(** [3.333], the binary64 nearest to 3333/1000. *)
Definition float_3_333 : float := S754_finite false 7505248779012932 (-51).

(** The sum of the exact values of the finite elements of a list. *)
Definition exact_sum (l : list float) : Qc :=
  fold_right (fun x acc => match exact_ratio x with
                           | Some q => (q + acc)%Qc
                           | None => acc
                           end) (Q2Qc 0) l.

(** The mean that one pass of the loop over [clusters] appends to the
    score row: the body of [cluster_step] without the append. *)
Definition cluster_mean (cells : gmap string Z) (clusters : odict cluster)
    (gene_exp_list : list float) (name : string) : result float :=
  cluster ← od_getitem clusters name;
  members ← cells_of cluster;
  vs ← cluster_expressions cells gene_exp_list members;
  rounded_mean vs.


(** The header row of the score lists. *)
Definition scores_header (clusters : odict cluster) : list pyval :=
  map VStr (["name"; "all"] ++ od_keys clusters).

(** What the sum of a list is as a float once the list holds an infinity
    or a nan: a nan when it holds a nan or infinities of both signs, else
    the infinity it holds; [None] for a list of finite values. *)
Definition is_nan (x : float) : bool :=
  match x with
  | S754_nan => true
  | _ => false
  end.
Definition is_inf (s : bool) (x : float) : bool :=
  match x with
  | S754_infinity s' => Bool.eqb s s'
  | _ => false
  end.
Definition special_of (l : list float) : option float :=
  if existsb is_nan l then Some S754_nan
  else match existsb (is_inf false) l, existsb (is_inf true) l with
       | true, true => Some S754_nan
       | true, false => Some (S754_infinity false)
       | false, true => Some (S754_infinity true)
       | false, false => None
       end.

(** The float sum of two runs of infinities and nans. *)
Definition join_special (s1 s2 : option float) : option float :=
  match s1, s2 with
  | None, s | s, None => s
  | Some a, Some b => Some (SFadd prec emax a b)
  end.

(** The absolute value of a finite float, as a rational number. *)
Definition magnitude (x : float) : Q :=
  match x with
  | S754_finite _ m e => inject_Z (Zpos m) * Qpower (2 # 1) e
  | _ => 0
  end.

(** [k] thousandths is a decimal nearest to the absolute value of [x]:
    it is at most half a thousandth away, and [k] is even when it is exactly
    half a thousandth away. *)
Definition nearest_thousandth (x : float) (k : Z) : Prop :=
  let d := Qabs (magnitude x * inject_Z 1000 - inject_Z k) in
  (d <= 1 # 2)%Q /\ (d == 1 # 2 -> Z.even k = true)%Q.

(** [m] is [a] rounded to 3 decimal places: the binary64 nearest to the
    nearest number of thousandths, with the sign of [a]; a zero, an
    infinity and a nan are their own roundings. *)
Definition rounded_to_3_decimals (a m : float) : Prop :=
  match a with
  | S754_finite s _ _ =>
      exists k, nearest_thousandth a k /\ m = decimal_float s k (-3)
  | _ => m = a
  end.

(** [m] is the arithmetic mean of [vals] rounded to 3 decimal places: on
    finite values the exact sum over the count, rounded once to a binary64
    and then to 3 decimal places; on values with an infinity or a nan the
    float sum of these over the count, which no rounding changes. *)
Definition mean_rounded_to_3 (vals : list float) (m : float) : Prop :=
  vals <> []
  /\ match special_of vals with
     | Some t =>
         m = SFdiv prec emax t (float_of_Z (Z.of_nat (length vals)))
         /\ is_finite m = false
     | None =>
         exists a,
           float_of_fraction
             (exact_sum vals / Q2Qc (inject_Z (Z.of_nat (length vals))))%Qc = Ok a
           /\ rounded_to_3_decimals a m
     end.

(** [row] is a score row of [gene] whose second field is the mean of the
    whole expression list of the gene, rounded to 3 decimal places. *)
Definition mean_all_row (gene_expression_lists : odict (list float))
    (gene : string) (row : list pyval) : Prop :=
  exists vals m rest,
    od_get gene gene_expression_lists = Some vals
    /\ row = VStr gene :: VFloat m :: rest
    /\ rounded_mean vals = Ok m
    /\ mean_rounded_to_3 vals m.

(** The insertion-ordered dict of the scenarios: one gene, two cells. *)
Definition example_cells : gmap string Z := {["CELLA-1" := 0; "CELLB-1" := 1]}.
Definition example_rows : odict (list float) := [("G1", [float_2; float_4])].
Definition example_matrix : em_dict := EmDict example_cells example_rows.
Definition example_clusters : odict cluster :=
  [("clusterA", Cluster "a.txt" (Some ["CELLB-1"]))].

(** A matrix of one gene and three cells whose mean, 10/3, is not a number
    of thousandths. *)
Definition thirds_matrix : em_dict :=
  EmDict {["CELLA-1" := 0; "CELLB-1" := 1; "CELLC-1" := 2]}
         [("G1", [float_4; float_2; float_4])].

(** [c'] is [c] with its member list in another order. *)
Definition reordered_cluster (c c' : cluster) : Prop :=
  cluster_path c = cluster_path c'
  /\ match cluster_cells c, cluster_cells c' with
     | Some l, Some l' => Permutation l l'
     | None, None => True
     | _, _ => False
     end.

(** [clusters'] has the clusters of [clusters], under the same names and
    in the same order, each with its member list in another order. *)
Definition reordered (clusters clusters' : odict cluster) : Prop :=
  Forall2 (fun e e' => fst e = fst e' /\ reordered_cluster (snd e) (snd e'))
          clusters clusters'.

(** The world of the scenarios: a position file, a matrix file and a
    cluster file whose first three lines are its header. *)
Definition example_pos_file : string := "G1 chr1 100 200" +:+ newline.
Definition example_matrix_file : string :=
  dquote +:+ "PREVIZ.CELLA.1" +:+ dquote +:+ tab
  +:+ dquote +:+ "PREVIZ.CELLB.1" +:+ dquote +:+ newline
  +:+ dquote +:+ "G1" +:+ dquote +:+ tab +:+ "2.0" +:+ tab +:+ "4.0" +:+ newline.
Definition example_cluster_file : string :=
  "NAME X Y" +:+ newline +:+ "TYPE numeric numeric" +:+ newline
  +:+ "clusterA" +:+ newline +:+ "CELLA-1 0.5 1.5" +:+ newline.
Definition example_world : world :=
  World (<["gen_pos.txt" := example_pos_file]>
           (<["matrix.txt" := example_matrix_file]>
              (<["clusterA.txt" := example_cluster_file]> ∅)))
        ∅ [].
Definition example_args : args :=
  Args "matrix.txt" tab "gen_pos.txt" ["clusterA"] ["clusterA.txt"] "out.json".
Definition example_json (a : ideogram_annots) : string := "{}".

(** [annot] is the annotation of the score row [row] for the bucket of
    [chr]: the gene of the row is in the table on chromosome [chr], and the
    annotation is its name, its start, the difference of its stop and its
    start as integers, and the means of the row. *)
Definition annot_of_row (genes : gmap string gene) (chr : string)
    (row annot : list pyval) : Prop :=
  exists gene_id rest g start stop,
    row = VStr gene_id :: rest
    /\ genes !! gene_id = Some g
    /\ gene_chr g = chr
    /\ py_int (gene_start g) = Ok start
    /\ py_int (gene_stop g) = Ok stop
    /\ annot = VStr gene_id :: VInt start :: VInt (stop - start) :: rest.

Definition is_read (ev : io_event) : bool :=
  match ev with
  | OpenRead _ => true
  | OpenWrite _ => false
  end.

(** A computation that leaves every file as it is and opens files for
    reading only. *)
Definition reads_only {A : Type} (m : IO A) : Prop :=
  forall w,
    files (snd (m w)) = files w
    /\ unwritable (snd (m w)) = unwritable w
    /\ exists evs, io_log (snd (m w)) = io_log w ++ evs
                   /\ forallb is_read evs = true.

(** The score rows and the annotations expected in the scenario. *)
Definition example_scores : list (list pyval) :=
  [[VStr "name"; VStr "all"; VStr "clusterA"];
   [VStr "G1"; VFloat float_3; VFloat float_4]].
Definition example_annots : ideogram_annots :=
  IdeogramAnnots ["name"; "start"; "length"; "all"; "clusterA"]
    [ChrAnnots "chr1" [[VStr "G1"; VInt 100; VInt 100; VFloat float_3; VFloat float_4]]].

(** What the cell-index map built from the header tokens [cells_list]
    guarantees:
    - an index of the map is the zero-based position of a header token that
      normalizes to the cell, the last such token of the header;
    - a header token has its zero-based position as the index of its cell,
      when no later token normalizes to the same cell;
    - the cell of the first token, when no later token normalizes to it, has
      index 0, and on any row that is not empty its lookup yields the last
      value of the row;
    - the lookup of a cell of index [i] succeeds on any row that is not
      empty and has at least [i] values, with the value at position [i - 1]
      when [i] is positive;
    - on a row that is not empty and is at most one value shorter than the
      header, and so on a row with one value for each header token, the
      lookups succeed for all member lists of cells of the map, with one
      value for each member. *)
Definition cells_index_safe (cells_list : list string) (cells : gmap string Z) : Prop :=
  (forall c i,
      cells !! c = Some i ->
      0 <= i < Z.of_nat (length cells_list)
      /\ (exists tok, nth_error cells_list (Z.to_nat i) = Some tok
                      /\ normalize_cell tok = Ok c)
      /\ (forall j tok, (Z.to_nat i < j)%nat ->
                        nth_error cells_list j = Some tok ->
                        normalize_cell tok <> Ok c))
  /\ (forall j tok c,
         nth_error cells_list j = Some tok ->
         normalize_cell tok = Ok c ->
         (forall j' tok', (j < j')%nat -> nth_error cells_list j' = Some tok' ->
                          normalize_cell tok' <> Ok c) ->
         cells !! c = Some (Z.of_nat j))
  /\ (forall tok rest c,
         cells_list = tok :: rest ->
         normalize_cell tok = Ok c ->
         (forall t, In t rest -> normalize_cell t <> Ok c) ->
         cells !! c = Some 0
         /\ forall row,
              row <> [] ->
              exists front v,
                row = front ++ [v]
                /\ list_getitem row (0 - 1) = Ok v
                /\ cluster_expressions cells row [c] = Ok [v])
  /\ (forall c i row,
         cells !! c = Some i ->
         row <> [] ->
         i <= Z.of_nat (length row) ->
         exists v, list_getitem row (i - 1) = Ok v
                   /\ cluster_expressions cells row [c] = Ok [v]
                   /\ (0 < i -> nth_error row (Z.to_nat (i - 1)) = Some v))
  /\ (forall row members,
         row <> [] ->
         (length cells_list <= length row + 1)%nat ->
         Forall (fun c => is_Some (cells !! c)) members ->
         exists vs, cluster_expressions cells row members = Ok vs
                    /\ length vs = length members)
  /\ (forall row members,
         length row = length cells_list ->
         Forall (fun c => is_Some (cells !! c)) members ->
         exists vs, cluster_expressions cells row members = Ok vs
                    /\ length vs = length members).

(** A matrix whose header names the same cell twice. *)
Definition repeated_header_lines : list string :=
  ["PREVIZ.CELLA.1" +:+ tab +:+ "PREVIZ.CELLA.1" +:+ newline;
   "G1" +:+ tab +:+ "2.0" +:+ tab +:+ "4.0" +:+ newline].

(** A matrix whose only row is shorter than its header. *)
Definition ragged_matrix_lines : list string :=
  ["PREVIZ.CELLA.1" +:+ tab +:+ "PREVIZ.CELLB.1" +:+ tab +:+ "PREVIZ.CELLC.1" +:+ newline;
   "G1" +:+ tab +:+ "2.0" +:+ newline].

(** The entry [g] of the gene table is a line of the position file: its
    four fields are the four columns of the line. *)
Definition from_position_line (lines : list string) (g : gene) : Prop :=
  exists line,
    In line lines
    /\ py_split_ws (py_strip line)
       = [gene_id g; gene_chr g; gene_start g; gene_stop g].

(** ** Definitions for the further properties *)

(** The columns of a line of the position file (line 103). *)
Definition position_columns (line : string) : list string :=
  py_split_ws (py_strip line).

(** The first column of [line] is not [k]. *)
Definition not_about (k : string) (line : string) : Prop :=
  forall c rest, position_columns line = c :: rest -> c <> k.

(** The keys of a list in the order of their first occurrence. *)
Definition add_key (acc : list string) (k : string) : list string :=
  if existsb (String.eqb k) acc then acc else acc ++ [k].
Definition first_seen (l : list string) : list string :=
  fold_left add_key l [].

(** What one pass of the loop over [lines[1:]] reads from a line of the
    matrix (lines 135-137): the gene and its expression values. *)
Definition row_of_line (delimiter : string) (line : string)
  : result (string * list float) :=
  columns ← py_split delimiter (py_strip line);
  c0 ← list_getitem columns 0;
  expression_by_cell ← map_result py_float (slice_from 1 columns);
  Ok (py_strip_chars dquote c0, expression_by_cell).

(** What one pass of the loop over [expression_means[1:]] computes from a
    score row before it touches the buckets (lines 64-70, 75, 80): the
    chromosome of the gene and the annotation. *)
Definition row_annot (genes : gmap string gene) (expression_mean : list pyval)
  : result (string * list pyval) :=
  v ← list_getitem expression_mean 0;
  gene_id ← row_gene_id v;
  gene ← dict_getitem genes gene_id;
  start ← py_int (gene_start gene);
  stop ← py_int (gene_stop gene);
  Ok (gene_chr gene,
      [VStr gene_id; VInt start; VInt (stop - start)] ++ slice_from 1 expression_mean).

(** [d.setdefault(k, []).append(x)]: what lines 72-73 and 82 do together. *)
Definition od_append {V : Type} (k : string) (x : V) (d : odict (list V))
  : odict (list V) :=
  od_set k (default [] (od_get k d) ++ [x]) d.

(** The elements of [l] filed under the key [k], in order. *)
Definition filed_under {V : Type} (k : string) (l : list (string * V)) : list V :=
  map snd (List.filter (fun kv => String.eqb (fst kv) k) l).

(** The body of the loop of [get_clusters] (lines 152-164). *)
Definition cluster_loop_body (clusters : odict cluster) (name : string)
  : IO (odict cluster) :=
  clusters ← lift (set_cells name [] clusters);
  c ← lift (od_getitem clusters name);
  lines ← read_lines (cluster_path c);
  cells ← lift (cells_of_lines lines);
  lift (set_cells name cells clusters).

(** The entry [e'] is the entry [e] of the cluster arguments after its file
    has been read in the files [fs]: same name, same path, and for members
    the first tokens of the lines of the file after the third. *)
Definition cluster_loaded (fs : gmap string string) (e e' : string * cluster) : Prop :=
  fst e' = fst e
  /\ exists content cells,
       fs !! cluster_path (snd e) = Some content
       /\ cells_of_lines (readlines content) = Ok cells
       /\ snd e' = Cluster (cluster_path (snd e)) (Some cells).

(** The entries that [get_clusters_meta] sets, in the order of the
    arguments: each name with its path and no member list yet. *)
Definition meta_entries (names paths : list string) : list (string * cluster) :=
  map (fun np => (fst np, Cluster (snd np) None)) (combine names paths).

(** The object that the run of the scenario builds. *)
Definition example_self : MatrixToIdeogramAnnots :=
  Self "matrix.txt" tab [("clusterA", Cluster "clusterA.txt" (Some ["CELLA-1"]))]
       "out.json" "gen_pos.txt" {["G1" := Gene "G1" "chr1" "100" "200"]}.

(** * Properties *)

(** ** Loops that collect their results *)

Ltac simp_res :=
  repeat (progress (unfold mbind, mret, result_bind, result_ret in *; simpl in *)).

(** ** The model of the library on known values *)

Example py_float_2 : py_float "2.0" = Ok float_2.
Proof. reflexivity. Qed.

Example py_float_exponent : py_float " 1_0.2_5E+1 " = py_float "102.5".
Proof. reflexivity. Qed.

Example py_float_rejects_words : py_float "NA" = Err (float_error "NA").
Proof. reflexivity. Qed.

Example py_int_rejects_float : py_int "1e3" = Err (ValueError "invalid literal for int() with base 10: '1e3'").
Proof. reflexivity. Qed.

(** [mean([2.0, 4.0]) == 3.0] and [round(10/3, 3) == 3.333] *)
Example mean_2_4 : mean [float_2; float_4] = Ok float_3.
Proof. reflexivity. Qed.

Example rounded_mean_4_2_4 : rounded_mean [float_4; float_2; float_4] = Ok float_3_333.
Proof. vm_compute. reflexivity. Qed.

(** [round(0.0625, 3) == 0.062]: a tie goes to the even digit. *)
Example py_round_tie :
  (x ← py_float "0.0625"; py_round x 3) = py_float "0.062".
Proof. vm_compute. reflexivity. Qed.

(** [round(2.675, 2) == 2.67]: the binary value is below the decimal tie. *)
Example py_round_below_tie :
  (x ← py_float "2.675"; py_round x 2) = py_float "2.67".
Proof. vm_compute. reflexivity. Qed.

(** [mean([inf, 1.0]) == inf] and [mean([inf, -inf])] is a nan. *)
Example mean_infinity :
  mean [S754_infinity false; float_2] = Ok (S754_infinity false)
  /\ mean [S754_infinity false; S754_infinity true] = Ok S754_nan.
Proof. split; reflexivity. Qed.

(** [str.split()] and [str.strip()] cut on the white space of Unicode. *)
Example split_on_unicode_spaces :
  py_split_ws ("G1" +:+ nbsp +:+ "chr1" +:+ em_space +:+ "100 200")
  = ["G1"; "chr1"; "100"; "200"].
Proof. reflexivity. Qed.

Example split_of_a_no_break_space : py_split_ws nbsp = [].
Proof. reflexivity. Qed.

Example strip_unicode_spaces :
  py_strip (ideographic_space +:+ "G1 chr1" +:+ nbsp +:+ newline) = "G1 chr1".
Proof. reflexivity. Qed.

Example split_on_file_separator :
  py_split_ws ("a" +:+ file_separator +:+ "b") = ["a"; "b"].
Proof. reflexivity. Qed.

(** [int] and [float] read the decimal digits of Unicode and skip its
    white space, but not U+001C-001F, at both ends. *)
Example py_int_unicode :
  py_int (nbsp +:+ arabic_12 +:+ ideographic_space) = Ok 12
  /\ py_float (arabic_12 +:+ ".0") = py_float "12.0".
Proof. split; reflexivity. Qed.

Example py_float_file_separator :
  py_float (file_separator +:+ "2.0")
  = Err (float_error (file_separator +:+ "2.0")).
Proof. reflexivity. Qed.

Example split_keeps_empty_fields :
  py_split "," "a,,b," = Ok ["a"; EmptyString; "b"; EmptyString].
Proof. reflexivity. Qed.

Example normalize_cell_example :
  normalize_cell (dquote +:+ "PREVIZ.AAACATACAAGGGC.1" +:+ dquote)
  = Ok "AAACATACAAGGGC-1".
Proof. reflexivity. Qed.

Example normalize_cell_no_marker :
  normalize_cell "AAACATACAAGGGC.1" = Err (IndexError "list index out of range").
Proof. reflexivity. Qed.

Example list_getitem_wraps :
  list_getitem [float_2; float_3; float_4] (-1) = Ok float_4
  /\ list_getitem [float_2; float_3; float_4] (-4)
     = Err (IndexError "list index out of range").
Proof. split; reflexivity. Qed.

Lemma foldM_collect {A B : Type} (g : A -> result B) (l : list A) (acc : list B) :
  foldM (fun acc x => y ← g x; Ok (acc ++ [y])) l acc
  = (ys ← map_result g l; Ok (acc ++ ys)).
Proof.
  revert acc. induction l as [|x l IH]; intros acc; simp_res.
  - now rewrite app_nil_r.
  - destruct (g x) as [y|e]; [|reflexivity].
    rewrite IH. destruct (map_result g l) as [ys|e]; [|reflexivity].
    now rewrite <- app_assoc.
Qed.

Lemma map_result_Ok {A B : Type} (g : A -> result B) (l : list A) (ys : list B) :
  map_result g l = Ok ys <-> Forall2 (fun x y => g x = Ok y) l ys.
Proof.
  revert ys. induction l as [|x l IH]; intros ys; simp_res.
  - split; intros H; [injection H as <-; constructor | now inversion H].
  - destruct (g x) as [y|e] eqn:Hg.
    + destruct (map_result g l) as [zs|e] eqn:Hm.
      * split; intros H.
        -- injection H as <-. constructor; [assumption | now apply IH].
        -- inversion H as [|? y' ? zs' Hy Hzs]; subst.
           apply IH in Hzs. congruence.
      * split; intros H; [discriminate|].
        inversion H as [|? y' ? zs' Hy Hzs]; subst.
        apply IH in Hzs. discriminate.
    + split; intros H; [discriminate|].
      inversion H; subst. congruence.
Qed.

Lemma map_result_Err_In {A B : Type} (g : A -> result B) (l : list A) (x : A) (e : exn) :
  In x l -> g x = Err e -> exists e', map_result g l = Err e'.
Proof.
  induction l as [|y l IH]; intros Hin Hg; [destruct Hin|].
  simp_res. destruct Hin as [->|Hin].
  - rewrite Hg. eauto.
  - destruct (g y); [|eauto].
    destruct (IH Hin Hg) as [e' ->]. eauto.
Qed.

Lemma foldM_app {A B : Type} (f : B -> A -> result B) (l1 l2 : list A) (b : B) :
  foldM f (l1 ++ l2) b = (b' ← foldM f l1 b; foldM f l2 b').
Proof.
  revert b. induction l1 as [|x l1 IH]; intros b; simp_res; [reflexivity|].
  destruct (f b x); [apply IH | reflexivity].
Qed.

(** ** The shape of the aggregator's rows *)

Lemma foldM_ext {A B : Type} (f f' : B -> A -> result B) (l : list A) (b : B) :
  (forall b x, f b x = f' b x) -> foldM f l b = foldM f' l b.
Proof.
  intros Hf. revert b. induction l as [|x l IH]; intros b; simpl; [reflexivity|].
  rewrite Hf. destruct (f' b x); [apply IH | reflexivity].
Qed.

Lemma cluster_expressions_map cells gene_exp_list members :
  cluster_expressions cells gene_exp_list members
  = map_result (fun cell => i ← dict_getitem cells cell;
                            list_getitem gene_exp_list (i - 1)) members.
Proof.
  unfold cluster_expressions.
  set (g := fun cell => i ← dict_getitem cells cell;
                        list_getitem gene_exp_list (i - 1)).
  rewrite (foldM_ext _ (fun acc x => y ← g x; Ok (acc ++ [y]))).
  - rewrite foldM_collect. simp_res. now destruct (map_result g members).
  - intros b x. subst g. simp_res. now destruct (dict_getitem cells x).
Qed.

Lemma cluster_step_mean cells clusters gene_exp_list scores name :
  cluster_step cells clusters gene_exp_list scores name
  = (m ← cluster_mean cells clusters gene_exp_list name;
     Ok (scores ++ [VFloat m])).
Proof.
  unfold cluster_step, cluster_mean. simp_res.
  destruct (od_getitem clusters name) as [c|]; [|reflexivity].
  destruct (cells_of c) as [members|]; [|reflexivity].
  now destruct (cluster_expressions cells gene_exp_list members).
Qed.

Lemma cluster_loop_means cells clusters gene_exp_list names scores :
  foldM (cluster_step cells clusters gene_exp_list) names scores
  = (ms ← map_result (cluster_mean cells clusters gene_exp_list) names;
     Ok (scores ++ map VFloat ms)).
Proof.
  revert scores. induction names as [|name names IH]; intros scores; simp_res.
  - now rewrite app_nil_r.
  - rewrite cluster_step_mean. simp_res.
    destruct (cluster_mean cells clusters gene_exp_list name) as [m|]; [|reflexivity].
    rewrite IH. simp_res.
    destruct (map_result _ names) as [ms|]; [|reflexivity].
    now rewrite <- app_assoc.
Qed.

Lemma gene_scores_Ok cells clusters gene_expression_lists gene row :
  gene_scores cells clusters gene_expression_lists gene = Ok row <->
  exists gene_exp_list mean_all ms,
    od_get gene gene_expression_lists = Some gene_exp_list
    /\ rounded_mean gene_exp_list = Ok mean_all
    /\ map_result (cluster_mean cells clusters gene_exp_list) (od_keys clusters) = Ok ms
    /\ row = VStr gene :: VFloat mean_all :: map VFloat ms.
Proof.
  unfold gene_scores, od_getitem. simp_res.
  destruct (od_get gene gene_expression_lists) as [gene_exp_list|].
  - destruct (rounded_mean gene_exp_list) as [mean_all|] eqn:Hall.
    + rewrite cluster_loop_means. simp_res.
      destruct (map_result _ (od_keys clusters)) as [ms|] eqn:Hms.
      * split.
        -- intros [= <-]. now exists gene_exp_list, mean_all, ms.
        -- intros (l & a & ms' & [= <-] & Ha & Hm & ->).
           rewrite Hall in Ha. injection Ha as <-.
           rewrite Hms in Hm. now injection Hm as <-.
      * split; [discriminate|].
        intros (l & a & ms' & [= <-] & Ha & Hm & ->).
        rewrite Hms in Hm. discriminate.
    + split; [discriminate|].
      intros (l & a & ms' & [= <-] & Ha & _). congruence.
  - split; [discriminate|]. intros (l & a & ms' & [=] & _).
Qed.

Lemma expression_means_of_Ok clusters matrix rows :
  expression_means_of clusters matrix = Ok rows <->
  exists data,
    map_result (gene_scores (em_cells matrix) clusters (em_genes matrix))
               (od_keys (em_genes matrix)) = Ok data
    /\ rows = scores_header clusters :: data.
Proof.
  unfold expression_means_of.
  rewrite (foldM_collect (gene_scores (em_cells matrix) clusters (em_genes matrix))).
  simp_res. fold (scores_header clusters).
  destruct (map_result _ (od_keys (em_genes matrix))) as [data|].
  - split.
    + intros [= <-]. now exists data.
    + intros (d & [= <-] & ->). reflexivity.
  - split; [discriminate|]. intros (d & [=] & _).
Qed.

Lemma od_get_In_keys {V : Type} (k : string) (d : odict V) (v : V) :
  od_get k d = Some v -> In k (od_keys d).
Proof.
  induction d as [|[k' v'] d IH]; simpl; [discriminate|].
  destruct (String.eqb k k') eqn:Hk.
  - apply String.eqb_eq in Hk. now left.
  - intros H. right. now apply IH.
Qed.


(** ** The claims *)



Lemma cluster_expressions_nil cells gene_exp_list members :
  cluster_expressions cells gene_exp_list members = Ok [] -> members = [].
Proof.
  rewrite cluster_expressions_map. intros H.
  apply map_result_Ok in H. now inversion H.
Qed.

Lemma rounded_mean_nil :
  rounded_mean [] = Err (StatisticsError "mean requires at least one data point").
Proof. reflexivity. Qed.





(** The same on a cluster with no member: the mean of no value raises. *)
Example empty_cluster_raises :
  cluster_step ({["CELLA-1" := 0]} : gmap string Z)
               [("clusterA", Cluster "a.txt" (Some []))] [float_2]
               [VStr "G1"; VFloat float_2] "clusterA"
  = Err (StatisticsError "mean requires at least one data point").
Proof. reflexivity. Qed.


(** ** The mean does not depend on the order of the data *)

Lemma fold_left_Permutation {A B : Type} (f : B -> A -> B) (l1 l2 : list A) :
  (forall b x y, f (f b x) y = f (f b y) x) ->
  Permutation l1 l2 -> forall b, fold_left f l1 b = fold_left f l2 b.
Proof.
  intros Hf Hp. induction Hp as [|x l1 l2 _ IH|x y l|l1 l2 l3 _ IH1 _ IH2];
    intros b; simpl.
  - reflexivity.
  - apply IH.
  - now rewrite Hf.
  - now rewrite IH1.
Qed.

Lemma SFadd_special_comm (t x y : float) :
  is_finite x = false -> is_finite y = false ->
  SFadd prec emax (SFadd prec emax t x) y = SFadd prec emax (SFadd prec emax t y) x.
Proof.
  destruct x as [sx|[|]| |sx mx ex]; try discriminate;
    destruct y as [sy|[|]| |sy my ey]; try discriminate;
    intros _ _; destruct t as [st|[|]| |st mt et]; reflexivity.
Qed.

Lemma SFadd_special_comm0 (x y : float) :
  is_finite x = false -> is_finite y = false ->
  SFadd prec emax x y = SFadd prec emax y x.
Proof.
  destruct x as [sx|[|]| |sx mx ex]; try discriminate;
    destruct y as [sy|[|]| |sy my ey]; try discriminate; reflexivity.
Qed.

Lemma exact_ratio_None (x : float) : exact_ratio x = None -> is_finite x = false.
Proof. now destruct x. Qed.

Lemma sum_step_comm (acc : Qc * option float) (x y : float) :
  sum_step (sum_step acc x) y = sum_step (sum_step acc y) x.
Proof.
  destruct acc as [total special]. unfold sum_step.
  destruct (exact_ratio x) as [qx|] eqn:Hx; destruct (exact_ratio y) as [qy|] eqn:Hy;
    rewrite ?Hx, ?Hy; try reflexivity.
  - f_equal. ring.
  - apply exact_ratio_None in Hx. apply exact_ratio_None in Hy.
    f_equal. f_equal. destruct special as [t|].
    + now apply SFadd_special_comm.
    + now apply SFadd_special_comm0.
Qed.

Lemma py_sum_Permutation (l1 l2 : list float) :
  Permutation l1 l2 -> py_sum l1 = py_sum l2.
Proof.
  intros Hp. unfold py_sum.
  apply fold_left_Permutation; [apply sum_step_comm | exact Hp].
Qed.

Lemma mean_Permutation (l1 l2 : list float) :
  Permutation l1 l2 -> mean l1 = mean l2.
Proof.
  intros Hp. unfold mean.
  now rewrite (Permutation_length Hp), (py_sum_Permutation _ _ Hp).
Qed.

Lemma rounded_mean_Permutation (l1 l2 : list float) :
  Permutation l1 l2 -> rounded_mean l1 = rounded_mean l2.
Proof. intros Hp. unfold rounded_mean. now rewrite (mean_Permutation _ _ Hp). Qed.

(** On finite data the sum is the exact sum of the values. *)
Lemma py_sum_finite (l : list float) :
  Forall (fun x => is_finite x = true) l -> py_sum l = (exact_sum l, None).
Proof.
  unfold py_sum.
  assert (H : forall total special,
             Forall (fun x => is_finite x = true) l ->
             fold_left sum_step l (total, special)
             = ((total + exact_sum l)%Qc, special)).
  { induction l as [|x l IH]; intros total special Hl; simpl.
    - f_equal. ring.
    - inversion Hl as [|? ? Hx Hl']; subst.
      destruct (exact_ratio x) as [q|] eqn:Hq.
      + rewrite IH by assumption. f_equal. ring.
      + apply exact_ratio_None in Hq. congruence. }
  intros Hl. rewrite H by assumption. f_equal. ring.
Qed.

Lemma mean_finite (l : list float) :
  l <> [] ->
  Forall (fun x => is_finite x = true) l ->
  mean l = float_of_fraction
             (exact_sum l / Q2Qc (inject_Z (Z.of_nat (length l))))%Qc.
Proof.
  intros Hne Hl. unfold mean. rewrite (py_sum_finite l Hl).
  destruct l as [|x l]; [congruence|].
  destruct (Z.ltb_spec (Z.of_nat (length (x :: l))) 1) as [Hlt|_]; [|reflexivity].
  simpl length in Hlt. lia.
Qed.

(** ** The overall mean *)

Lemma rounded_mean_Ok (l : list float) (m : float) :
  rounded_mean l = Ok m -> exists a, mean l = Ok a /\ py_round a 3 = Ok m.
Proof.
  unfold rounded_mean, mbind, result_bind.
  destruct (mean l) as [a|]; [eauto | discriminate].
Qed.

Lemma mean_Ok_nonempty (l : list float) (a : float) : mean l = Ok a -> l <> [].
Proof. intros H ->. discriminate. Qed.

(** The sum of any data: the exact sum of the finite values and the float
    sum of the others. *)
Lemma special_step (s : option float) (x : float) :
  is_finite x = false ->
  is_finite match s with None => x | Some t => SFadd prec emax t x end = false.
Proof.
  destruct x as [sx|sx| |sx mx ex]; try discriminate; intros _;
    destruct s as [[st|[|]| |st mt et]|]; try reflexivity; now destruct sx.
Qed.

Lemma sum_step_spec (l : list float) :
  forall total s,
    match s with Some t => is_finite t = false | None => True end ->
    fold_left sum_step l (total, s)
    = ((total + exact_sum l)%Qc, join_special s (special_of l)).
Proof.
  induction l as [|x l IH]; intros total s Hs.
  - simpl. f_equal; [ring | now destruct s].
  - cbn [fold_left]. destruct x as [sx|sx| |sx mx ex].
    + unfold sum_step at 2. cbn [exact_ratio]. rewrite IH by exact Hs.
      f_equal. cbn [exact_sum fold_right exact_ratio]. fold (exact_sum l). ring.
    + unfold sum_step at 2. cbn [exact_ratio]. rewrite IH by now apply special_step.
      f_equal. unfold special_of. cbn [existsb is_nan is_inf orb].
      destruct (existsb is_nan l), (existsb (is_inf false) l), (existsb (is_inf true) l), sx;
        destruct s as [[ | [] | | ]|]; try discriminate; reflexivity.
    + unfold sum_step at 2. cbn [exact_ratio]. rewrite IH by now apply special_step.
      f_equal. unfold special_of. cbn [existsb is_nan is_inf orb].
      destruct (existsb is_nan l), (existsb (is_inf false) l), (existsb (is_inf true) l);
        destruct s as [[ | [] | | ]|]; try discriminate; reflexivity.
    + unfold sum_step at 2. cbn [exact_ratio]. rewrite IH by exact Hs.
      f_equal. cbn [exact_sum fold_right exact_ratio]. fold (exact_sum l). ring.
Qed.

Lemma py_sum_spec (l : list float) : py_sum l = (exact_sum l, special_of l).
Proof.
  unfold py_sum. rewrite sum_step_spec by exact I.
  f_equal. ring.
Qed.

Lemma special_of_not_finite (l : list float) (t : float) :
  special_of l = Some t -> is_finite t = false.
Proof.
  unfold special_of.
  destruct (existsb is_nan l), (existsb (is_inf false) l), (existsb (is_inf true) l);
    intros [= <-]; reflexivity.
Qed.

Lemma SFdiv_not_finite (t y : float) :
  is_finite t = false -> is_finite (SFdiv prec emax t y) = false.
Proof.
  destruct t as [st|st| |st mt et]; try discriminate; intros _;
    destruct y as [sy|sy| |sy my ey]; reflexivity.
Qed.

Lemma mean_spec (l : list float) :
  l <> [] ->
  mean l = match special_of l with
           | Some t => Ok (SFdiv prec emax t (float_of_Z (Z.of_nat (length l))))
           | None => float_of_fraction
                       (exact_sum l / Q2Qc (inject_Z (Z.of_nat (length l))))%Qc
           end.
Proof.
  intros Hne. unfold mean. rewrite py_sum_spec.
  destruct (Z.ltb_spec (Z.of_nat (length l)) 1) as [Hlt|_]; [|reflexivity].
  destruct l; [congruence | simpl length in Hlt; lia].
Qed.

Lemma round_half_even_nearest (num den : Z) :
  0 < den ->
  let k := round_half_even num den in
  2 * Z.abs (num - k * den) <= den
  /\ (2 * Z.abs (num - k * den) = den -> Z.even k = true).
Proof.
  intros Hden. unfold round_half_even.
  pose proof (Z.div_mod num den ltac:(lia)) as Hdm.
  pose proof (Z.mod_pos_bound num den Hden) as Hr.
  set (q := num / den) in *. set (r := num mod den) in *.
  destruct (Z.compare_spec (2 * r) den) as [He|Hl|Hg]; cbv zeta.
  - destruct (Z.even q) eqn:Hq.
    + split; [nia | intros _; exact Hq].
    + split; [nia|]. intros _.
      replace (q + 1) with (Z.succ q) by lia.
      rewrite Z.even_succ, <- Z.negb_even, Hq. reflexivity.
  - split; [nia | intros H; exfalso; nia].
  - split; [nia | intros H; exfalso; nia].
Qed.

Lemma thousandths_ratio (m : positive) (e : Z) :
  (inject_Z (Zpos m) * Qpower (2 # 1) e * inject_Z 1000
   == (Zpos m * 2 ^ Z.max e 0 * 1000) # Z.to_pos (2 ^ Z.max (- e) 0))%Q.
Proof.
  destruct e as [|p|p].
  - change (Z.max 0 0) with 0. change (Z.max (- 0) 0) with 0.
    change (2 ^ 0) with 1. change (Qpower (2 # 1) 0) with 1%Q.
    unfold Qeq, inject_Z, Qmult. simpl Qnum. simpl Qden. simpl Z.to_pos. lia.
  - rewrite Z.max_l by lia. rewrite Z.max_r by lia.
    change (2 # 1)%Q with (inject_Z 2).
    rewrite <- Zpower_Qpower by lia.
    change (2 ^ 0) with 1. unfold Qeq, inject_Z, Qmult. simpl Qnum. simpl Qden.
    simpl Z.to_pos. lia.
  - rewrite Z.max_r by lia. rewrite Z.max_l by lia.
    change (- Z.neg p) with (Z.pos p).
    change (Qpower (2 # 1) (Z.neg p)) with (/ Qpower (inject_Z 2) (Z.pos p))%Q.
    rewrite <- Zpower_Qpower by lia.
    pose proof (Z.pow_pos_nonneg 2 (Z.pos p) ltac:(lia) ltac:(lia)) as Hp.
    destruct (2 ^ Z.pos p) as [|d|d] eqn:Hd; try lia.
    change (2 ^ 0) with 1. unfold Qeq, inject_Z, Qmult, Qinv. simpl Qnum. simpl Qden.
    simpl Z.to_pos. lia.
Qed.

Lemma Qabs_half (x : Z) (d : positive) :
  ((Qabs (x # d) <= 1 # 2)%Q <-> 2 * Z.abs x <= Zpos d)
  /\ ((Qabs (x # d) == 1 # 2)%Q <-> 2 * Z.abs x = Zpos d).
Proof.
  unfold Qabs, Qle, Qeq. simpl Qnum. simpl Qden. split; split; lia.
Qed.

Lemma round_half_even_thousandth (s : bool) (m : positive) (e : Z) :
  nearest_thousandth (S754_finite s m e)
    (round_half_even (Zpos m * 2 ^ Z.max e 0 * 1000) (2 ^ Z.max (- e) 0)).
Proof.
  unfold nearest_thousandth, magnitude.
  set (num := Zpos m * 2 ^ Z.max e 0 * 1000).
  set (den := 2 ^ Z.max (- e) 0).
  assert (Hden : 0 < den) by (apply Z.pow_pos_nonneg; lia).
  set (k := round_half_even num den).
  assert (Hd : (inject_Z (Zpos m) * Qpower (2 # 1) e * inject_Z 1000 - inject_Z k
                == (num - k * den) # Z.to_pos den)%Q).
  { rewrite thousandths_ratio. fold num den.
    unfold Qeq, Qminus, Qplus, Qopp, inject_Z. simpl Qnum. simpl Qden.
    rewrite !Z2Pos.id by lia. rewrite Pos.mul_1_r, Z2Pos.id by lia. ring. }
  cbv zeta. rewrite Hd.
  destruct (Qabs_half (num - k * den) (Z.to_pos den)) as [H1 H2].
  rewrite H1, H2, Z2Pos.id by lia.
  apply round_half_even_nearest. exact Hden.
Qed.

(** The nearest number of thousandths is unique: the specification
    determines the rounded value. *)
Lemma nearest_thousandth_unique (x : float) (k1 k2 : Z) :
  nearest_thousandth x k1 -> nearest_thousandth x k2 -> k1 = k2.
Proof.
  assert (HZ : forall num den k1 k2 : Z,
             0 < den ->
             2 * Z.abs (num - k1 * den) <= den ->
             (2 * Z.abs (num - k1 * den) = den -> Z.even k1 = true) ->
             2 * Z.abs (num - k2 * den) <= den ->
             (2 * Z.abs (num - k2 * den) = den -> Z.even k2 = true) ->
             k1 < k2 -> False).
  { intros num den a b Hden Ha Hea Hb Heb Hlt.
    assert (Hb1 : b = a + 1) by nia. subst b.
    assert (E1 : 2 * Z.abs (num - a * den) = den) by nia.
    assert (E2 : 2 * Z.abs (num - (a + 1) * den) = den) by nia.
    specialize (Hea E1). specialize (Heb E2).
    replace (a + 1) with (Z.succ a) in Heb by lia.
    rewrite Z.even_succ, <- Z.negb_even, Hea in Heb. discriminate. }
  assert (HQ : forall (q : Q) k1 k2,
             (let d := Qabs (q * inject_Z 1000 - inject_Z k1) in
              (d <= 1 # 2)%Q /\ ((d == 1 # 2)%Q -> Z.even k1 = true)) ->
             (let d := Qabs (q * inject_Z 1000 - inject_Z k2) in
              (d <= 1 # 2)%Q /\ ((d == 1 # 2)%Q -> Z.even k2 = true)) ->
             k1 < k2 -> False).
  { intros q a b. cbv zeta.
    set (t := (q * inject_Z 1000)%Q).
    assert (Ht : forall k, (t - inject_Z k
                            == (Qnum t - k * Zpos (Qden t)) # Qden t)%Q).
    { intros k. destruct t as [tn td]. unfold Qeq, Qminus, Qplus, Qopp, inject_Z.
      simpl Qnum. simpl Qden. rewrite Pos.mul_1_r. ring. }
    rewrite !Ht.
    destruct (Qabs_half (Qnum t - a * Zpos (Qden t)) (Qden t)) as [A1 A2].
    destruct (Qabs_half (Qnum t - b * Zpos (Qden t)) (Qden t)) as [B1 B2].
    rewrite A1, A2, B1, B2. intros [Ha Hea] [Hb Heb] Hlt.
    exact (HZ (Qnum t) (Zpos (Qden t)) a b ltac:(lia) Ha Hea Hb Heb Hlt). }
  unfold nearest_thousandth. intros H1 H2.
  destruct (Z.lt_trichotomy k1 k2) as [Hlt|[Heq|Hgt]]; [|exact Heq|].
  - exfalso. exact (HQ _ _ _ H1 H2 Hlt).
  - exfalso. exact (HQ _ _ _ H2 H1 Hgt).
Qed.

Lemma py_round_3 (a m : float) :
  py_round a 3 = Ok m -> rounded_to_3_decimals a m.
Proof.
  destruct a as [sa|sa| |sa ma ea]; try (intros [= <-]; reflexivity).
  unfold py_round, rounded_to_3_decimals.
  change (323 <? 3) with false. change (3 <? -308) with false. cbv iota zeta.
  change (10 ^ Z.max 3 0) with 1000. change (10 ^ Z.max (- (3)) 0) with 1.
  rewrite !Z.mul_1_r.
  pose proof (round_half_even_thousandth sa ma ea) as Hk.
  set (k := round_half_even _ _) in *.
  intros H. exists k. split; [exact Hk|].
  destruct k as [|p|p].
  - now injection H as <-.
  - unfold decimal_float. change (0 <=? -3) with false. cbv iota.
    change (Z.to_pos (10 ^ (- -3))) with (Z.to_pos 1000).
    destruct (float_of_ratio sa p (Z.to_pos 1000)); congruence.
  - now injection H as <-.
Qed.

Lemma py_round_not_finite (a : float) (n : Z) :
  is_finite a = false -> py_round a n = Ok a.
Proof. now destruct a. Qed.

Lemma rounded_mean_spec (vals : list float) (m : float) :
  rounded_mean vals = Ok m -> mean_rounded_to_3 vals m.
Proof.
  intros Hm. apply rounded_mean_Ok in Hm as (a & Ha & Hr).
  pose proof (mean_Ok_nonempty _ _ Ha) as Hne.
  split; [exact Hne|].
  rewrite (mean_spec vals Hne) in Ha.
  destruct (special_of vals) as [t|] eqn:Ht.
  - injection Ha as <-.
    pose proof (SFdiv_not_finite t (float_of_Z (Z.of_nat (length vals)))
                  (special_of_not_finite _ _ Ht)) as Hnf.
    rewrite (py_round_not_finite _ _ Hnf) in Hr. injection Hr as <-.
    split; [reflexivity | exact Hnf].
  - exists a. split; [exact Ha | now apply py_round_3].
Qed.

Lemma gene_scores_mean_all cells clusters gene_expression_lists gene row :
  gene_scores cells clusters gene_expression_lists gene = Ok row ->
  mean_all_row gene_expression_lists gene row.
Proof.
  intros H. apply gene_scores_Ok in H as (vals & m & ms & Hv & Hm & _ & ->).
  exists vals, m, (map VFloat ms).
  split; [exact Hv|]. split; [reflexivity|]. split; [exact Hm|].
  now apply rounded_mean_spec.
Qed.

(** C5. In every score row the second field, [mean_all], is the arithmetic
    mean of the gene's whole expression list rounded to 3 decimal places:
    on finite values, the exact sum over the count, converted once to a
    binary64, and then the number of thousandths nearest to it (a tie to the
    even one) read back as a binary64; on values with an infinity or a nan,
    the non-finite quotient of their float sum by the count.  It is the same
    whatever cluster definitions the run is given. *)
Theorem C5_mean_all_is_rounded_mean_of_row :
  forall clusters matrix rows,
    expression_means_of clusters matrix = Ok rows ->
    Forall2 (mean_all_row (em_genes matrix))
            (od_keys (em_genes matrix)) (slice_from 1 rows)
    /\ (forall clusters' rows',
           expression_means_of clusters' matrix = Ok rows' ->
           map (firstn 2) (slice_from 1 rows') = map (firstn 2) (slice_from 1 rows)).
Proof.
  intros clusters matrix rows H.
  apply expression_means_of_Ok in H as (data & Hdata & ->).
  apply map_result_Ok in Hdata. simpl. split.
  - eapply Forall2_impl; [exact Hdata|].
    intros gene row. apply gene_scores_mean_all.
  - intros clusters' rows' H'.
    apply expression_means_of_Ok in H' as (data' & Hdata' & ->).
    apply map_result_Ok in Hdata'. simpl.
    revert data data' Hdata Hdata'.
    induction (od_keys (em_genes matrix)) as [|gene l IH]; intros data data' Hd Hd'.
    + inversion Hd; inversion Hd'; reflexivity.
    + inversion Hd as [|? row ? d Hrow Hrest]; subst.
      inversion Hd' as [|? row' ? d' Hrow' Hrest']; subst.
      simpl. f_equal; [|now apply IH].
      apply gene_scores_Ok in Hrow as (v & m & ms & Hv & Hm & _ & ->).
      apply gene_scores_Ok in Hrow' as (v' & m' & ms' & Hv' & Hm' & _ & ->).
      assert (m' = m) as -> by congruence. reflexivity.
Qed.

Lemma C5_witness :
  Forall2 (mean_all_row (em_genes thirds_matrix))
          (od_keys (em_genes thirds_matrix))
          (slice_from 1 [scores_header example_clusters;
                         [VStr "G1"; VFloat float_3_333; VFloat float_4]])
  /\ (forall clusters' rows',
         expression_means_of clusters' thirds_matrix = Ok rows' ->
         map (firstn 2) (slice_from 1 rows')
         = map (firstn 2)
               (slice_from 1 [scores_header example_clusters;
                              [VStr "G1"; VFloat float_3_333; VFloat float_4]])).
Proof.
  apply (C5_mean_all_is_rounded_mean_of_row example_clusters thirds_matrix).
  vm_compute. reflexivity.
Defined.

(** ** Reordering the member lists *)

Lemma map_result_Permutation {A B : Type} (g : A -> result B) (l1 l2 : list A) :
  Permutation l1 l2 ->
  forall ys, map_result g l1 = Ok ys ->
             exists ys', map_result g l2 = Ok ys' /\ Permutation ys ys'.
Proof.
  intros Hp. induction Hp as [|x l1 l2 _ IH|x y l|l1 l2 l3 _ IH1 _ IH2]; intros ys H.
  - exists ys. split; [assumption | reflexivity].
  - simpl in *. destruct (g x) as [v|]; [|discriminate].
    destruct (map_result g l1) as [vs|]; [|discriminate].
    injection H as <-. destruct (IH vs eq_refl) as (vs' & -> & Hvs).
    exists (v :: vs'). split; [reflexivity | now constructor].
  - simpl in *. destruct (g y) as [vy|]; [|discriminate].
    destruct (g x) as [vx|]; [|discriminate].
    destruct (map_result g l) as [vs|]; [|discriminate].
    injection H as <-. exists (vx :: vy :: vs). split; [reflexivity | constructor].
  - destruct (IH1 ys H) as (ys1 & H1 & Hp1).
    destruct (IH2 ys1 H1) as (ys2 & H2 & Hp2).
    exists ys2. split; [assumption | now transitivity ys1].
Qed.

Lemma map_result_ext_Ok {A B : Type} (g g' : A -> result B) (l : list A) (ys : list B) :
  (forall x y, In x l -> g x = Ok y -> g' x = Ok y) ->
  map_result g l = Ok ys -> map_result g' l = Ok ys.
Proof.
  intros Hg H. apply map_result_Ok in H. apply map_result_Ok.
  induction H as [|x y l ys Hx _ IH]; constructor.
  - apply Hg; [now left | assumption].
  - apply IH. intros x' y' Hin. apply Hg. now right.
Qed.

Lemma reordered_keys clusters clusters' :
  reordered clusters clusters' -> od_keys clusters' = od_keys clusters.
Proof.
  induction 1 as [|[n c] [n' c'] cl cl' [Hn _] _ IH]; simpl in *; congruence.
Qed.

Lemma reordered_get clusters clusters' name c :
  reordered clusters clusters' ->
  od_get name clusters = Some c ->
  exists c', od_get name clusters' = Some c' /\ reordered_cluster c c'.
Proof.
  induction 1 as [|[n c0] [n' c0'] cl cl' [Hn Hc] _ IH]; simpl in *; [discriminate|].
  subst n'. destruct (String.eqb name n).
  - intros [= <-]. eauto.
  - exact IH.
Qed.

Lemma cluster_expressions_Permutation cells gene_exp_list l1 l2 vs :
  Permutation l1 l2 ->
  cluster_expressions cells gene_exp_list l1 = Ok vs ->
  exists vs', cluster_expressions cells gene_exp_list l2 = Ok vs'
              /\ Permutation vs vs'.
Proof.
  rewrite !cluster_expressions_map. intros Hp H.
  exact (map_result_Permutation _ _ _ Hp vs H).
Qed.

Lemma cluster_mean_reordered cells clusters clusters' gene_exp_list name m :
  reordered clusters clusters' ->
  cluster_mean cells clusters gene_exp_list name = Ok m ->
  cluster_mean cells clusters' gene_exp_list name = Ok m.
Proof.
  intros Hr. unfold cluster_mean, od_getitem, cells_of, mbind, result_bind.
  destruct (od_get name clusters) as [c|] eqn:Hc; [|discriminate].
  destruct (reordered_get _ _ _ _ Hr Hc) as (c' & -> & _ & Hcells).
  destruct (cluster_cells c) as [l|]; [|discriminate].
  destruct (cluster_cells c') as [l'|]; [|contradiction].
  destruct (cluster_expressions cells gene_exp_list l) as [vs|] eqn:Hvs; [|discriminate].
  destruct (cluster_expressions_Permutation _ _ _ _ _ Hcells Hvs) as (vs' & -> & Hp).
  now rewrite (rounded_mean_Permutation _ _ Hp).
Qed.

Lemma gene_scores_reordered cells clusters clusters' gene_expression_lists gene row :
  reordered clusters clusters' ->
  gene_scores cells clusters gene_expression_lists gene = Ok row ->
  gene_scores cells clusters' gene_expression_lists gene = Ok row.
Proof.
  intros Hr H. apply gene_scores_Ok in H as (l & a & ms & Hl & Ha & Hms & ->).
  apply gene_scores_Ok. exists l, a, ms. repeat split; try assumption.
  rewrite (reordered_keys _ _ Hr).
  eapply map_result_ext_Ok; [|exact Hms].
  intros name m _. now apply cluster_mean_reordered.
Qed.

(** C10. The cluster means do not depend on the order of the cells in a
    membership list (duplicates kept): a run on clusters whose member lists
    are reordered returns the very same score rows. Which cells a cluster
    holds does matter: two different memberships give different rows. *)
Theorem C10_cluster_mean_invariant_under_reordering :
  (forall clusters clusters' matrix rows,
      reordered clusters clusters' ->
      expression_means_of clusters matrix = Ok rows ->
      expression_means_of clusters' matrix = Ok rows)
  /\ (exists rows rows',
         expression_means_of [("clusterA", Cluster "a.txt" (Some ["CELLA-1"]))]
                             example_matrix = Ok rows
         /\ expression_means_of [("clusterA", Cluster "a.txt" (Some ["CELLB-1"]))]
                                example_matrix = Ok rows'
         /\ rows <> rows').
Proof.
  split.
  - intros clusters clusters' matrix rows Hr H.
    apply expression_means_of_Ok in H as (data & Hdata & ->).
    apply expression_means_of_Ok. exists data. split.
    + eapply map_result_ext_Ok; [|exact Hdata].
      intros gene row _. now apply gene_scores_reordered.
    + unfold scores_header. now rewrite (reordered_keys _ _ Hr).
  - eexists. eexists. split; [vm_compute; reflexivity|].
    split; [vm_compute; reflexivity|]. discriminate.
Qed.

Lemma C10_witness :
  expression_means_of
    [("clusterA", Cluster "a.txt" (Some ["CELLA-1"; "CELLA-1"; "CELLB-1"]))]
    example_matrix
  = Ok [scores_header example_clusters;
        [VStr "G1"; VFloat float_3; VFloat float_3_333]].
Proof.
  apply (proj1 C10_cluster_mean_invariant_under_reordering
               [("clusterA", Cluster "a.txt" (Some ["CELLA-1"; "CELLB-1"; "CELLA-1"]))]
               [("clusterA", Cluster "a.txt" (Some ["CELLA-1"; "CELLA-1"; "CELLB-1"]))]
               example_matrix).
  - constructor; [|constructor]. split; [reflexivity|]. split; [reflexivity|].
    simpl. apply perm_skip. apply perm_swap.
  - vm_compute. reflexivity.
Defined.

(** ** The check of the cluster arguments *)

(** C7. When the number of cluster names differs from the number of
    cluster paths the run fails with the [ValueError] of
    [get_clusters_meta], and the world is left as it was: no file has been
    opened, read or written. *)
Theorem C7_mismatch_fails_before_any_io :
  forall (json_dumps : ideogram_annots -> string) (a : args) (w : world),
    length (arg_cluster_names a) <> length (arg_cluster_paths a) ->
    main json_dumps a w
    = (Err (ValueError "Number of cluster names must equal length of cluster paths"),
       w).
Proof.
  intros json_dumps a w Hlen. unfold main, get_clusters_meta, lift, mbind, IO_bind.
  destruct (Nat.eqb_spec (length (arg_cluster_names a)) (length (arg_cluster_paths a)))
    as [Heq|_]; [contradiction | reflexivity].
Qed.

Lemma C7_witness :
  main example_json
       (Args "matrix.txt" tab "gen_pos.txt" ["clusterA"; "clusterB"]
             ["clusterA.txt"] "out.json")
       example_world
  = (Err (ValueError "Number of cluster names must equal length of cluster paths"),
     example_world).
Proof.
  apply (C7_mismatch_fails_before_any_io example_json
           (Args "matrix.txt" tab "gen_pos.txt" ["clusterA"; "clusterB"]
                 ["clusterA.txt"] "out.json")
           example_world).
  simpl. lia.
Defined.

(** ** Genes missing from the position table *)

Lemma foldM_Err_In {A B : Type} (f : B -> A -> result B) (l : list A) (x : A) :
  In x l -> (forall b, exists e, f b x = Err e) ->
  forall b, exists e, foldM f l b = Err e.
Proof.
  induction l as [|y l IH]; intros Hin Hx b; [destruct Hin|].
  simpl. destruct Hin as [->|Hin].
  - destruct (Hx b) as [e ->]. eauto.
  - destruct (f b y) as [b'|e]; [now apply IH | eauto].
Qed.

Lemma annot_step_missing genes annots_by_chr gene_id rest :
  genes !! gene_id = None ->
  annot_step genes annots_by_chr (VStr gene_id :: rest) = Err (KeyError gene_id).
Proof.
  intros Hg. unfold annot_step, dict_getitem. simp_res. now rewrite Hg.
Qed.

(** C8. A score row whose gene identifier is not in the gene table makes
    the assembly raise [KeyError] (a [LookupError]) at that row; the row is
    never skipped, so an assembly over rows that contain it returns no
    annotations, and when the rows before it were assembled the error of
    the whole assembly is that [KeyError]. *)
Theorem C8_missing_gene_raises_LookupError :
  forall genes gene_id rest,
    genes !! gene_id = None ->
    (forall annots_by_chr,
        annot_step genes annots_by_chr (VStr gene_id :: rest)
        = Err (KeyError gene_id))
    /\ is_LookupError (KeyError gene_id) = true
    /\ (forall clusters expression_means,
           In (VStr gene_id :: rest) (slice_from 1 expression_means) ->
           exists e, ideogram_annots_of genes clusters expression_means = Err e)
    /\ (forall clusters header before after annots_by_chr,
           foldM (annot_step genes) before [] = Ok annots_by_chr ->
           ideogram_annots_of genes clusters
             (header :: before ++ (VStr gene_id :: rest) :: after)
           = Err (KeyError gene_id)).
Proof.
  intros genes gene_id rest Hg.
  split; [intros; now apply annot_step_missing|].
  split; [reflexivity|]. split.
  - intros clusters rows Hin. unfold ideogram_annots_of, mbind, result_bind.
    destruct (foldM_Err_In (annot_step genes) _ _ Hin
                (fun b => ex_intro _ _ (annot_step_missing genes b gene_id rest Hg)) [])
      as [e ->].
    eauto.
  - intros clusters header before after abc Hbefore.
    unfold ideogram_annots_of.
    change (slice_from 1 (header :: before ++ (VStr gene_id :: rest) :: after))
      with (before ++ (VStr gene_id :: rest) :: after).
    rewrite foldM_app. unfold mbind, result_bind. rewrite Hbefore.
    simpl foldM. now rewrite annot_step_missing.
Qed.

Lemma C8_witness :
  (forall annots_by_chr,
      annot_step ({["G1" := Gene "G1" "chr1" "100" "200"]} : gmap string gene)
                 annots_by_chr [VStr "G2"; VFloat float_3]
      = Err (KeyError "G2"))
  /\ is_LookupError (KeyError "G2") = true
  /\ (forall clusters expression_means,
         In [VStr "G2"; VFloat float_3] (slice_from 1 expression_means) ->
         exists e,
           ideogram_annots_of {["G1" := Gene "G1" "chr1" "100" "200"]}
                              clusters expression_means = Err e)
  /\ (forall clusters header before after annots_by_chr,
         foldM (annot_step {["G1" := Gene "G1" "chr1" "100" "200"]}) before []
         = Ok annots_by_chr ->
         ideogram_annots_of {["G1" := Gene "G1" "chr1" "100" "200"]} clusters
           (header :: before ++ [VStr "G2"; VFloat float_3] :: after)
         = Err (KeyError "G2")).
Proof.
  apply (C8_missing_gene_raises_LookupError
           {["G1" := Gene "G1" "chr1" "100" "200"]} "G2" [VFloat float_3]).
  vm_compute. reflexivity.
Defined.

(** ** The annotations *)

Lemma od_get_set {V : Type} (k k' : string) (v : V) (d : odict V) :
  od_get k (od_set k' v d) = if String.eqb k k' then Some v else od_get k d.
Proof.
  induction d as [|[k0 v0] d IH]; simpl; [reflexivity|].
  destruct (String.eqb k' k0) eqn:H0; simpl.
  - apply String.eqb_eq in H0. subst k0. now destruct (String.eqb k k').
  - rewrite IH. destruct (String.eqb k k') eqn:Hk; [|reflexivity].
    apply String.eqb_eq in Hk. subst k'. now rewrite H0.
Qed.

Lemma Forall2_In_l {A B : Type} (P : A -> B -> Prop) (l1 : list A) (l2 : list B) (x : A) :
  Forall2 P l1 l2 -> In x l1 -> exists y, In y l2 /\ P x y.
Proof.
  induction 1 as [|a b l1 l2 Hab _ IH]; intros Hin; [destruct Hin|].
  destruct Hin as [->|Hin].
  - exists b. split; [now left | assumption].
  - destruct (IH Hin) as (y & Hy & Hxy). exists y. split; [now right | assumption].
Qed.

Lemma Forall2_In_r {A B : Type} (P : A -> B -> Prop) (l1 : list A) (l2 : list B) (y : B) :
  Forall2 P l1 l2 -> In y l2 -> exists x, In x l1 /\ P x y.
Proof.
  induction 1 as [|a b l1 l2 Hab _ IH]; intros Hin; [destruct Hin|].
  destruct Hin as [->|Hin].
  - exists a. split; [now left | assumption].
  - destruct (IH Hin) as (x & Hx & Hxy). exists x. split; [now right | assumption].
Qed.

Lemma annots_list_of_Ok annots_by_chr lst :
  annots_list_of annots_by_chr = Ok lst ->
  Forall2 (fun k bucket => exists b, od_get k annots_by_chr = Some b
                                     /\ bucket = ChrAnnots k b)
          (od_keys annots_by_chr) lst.
Proof.
  unfold annots_list_of.
  set (g := fun k => annots ← od_getitem annots_by_chr k; Ok (ChrAnnots k annots)).
  rewrite (foldM_ext _ (fun acc x => y ← g x; Ok (acc ++ [y]))).
  - rewrite foldM_collect. unfold mbind, result_bind.
    destruct (map_result g (od_keys annots_by_chr)) as [ys|] eqn:Hys; [|discriminate].
    intros [= <-]. apply map_result_Ok in Hys.
    eapply Forall2_impl; [exact Hys|].
    intros k bucket. subst g. unfold od_getitem, mbind, result_bind. simpl.
    destruct (od_get k annots_by_chr) as [b|]; [|discriminate].
    intros [= <-]. eauto.
  - intros b x. subst g. unfold mbind, result_bind.
    now destruct (od_getitem annots_by_chr x).
Qed.

Lemma annot_step_Ok genes annots_by_chr row annots_by_chr' :
  annot_step genes annots_by_chr row = Ok annots_by_chr' ->
  exists chr annot,
    annot_of_row genes chr row annot
    /\ forall k, od_get k annots_by_chr'
                 = if String.eqb k chr
                   then Some (default [] (od_get chr annots_by_chr) ++ [annot])
                   else od_get k annots_by_chr.
Proof.
  unfold annot_step. destruct row as [|v rest]; [discriminate|].
  simp_res. destruct v as [gene_id|n|x]; simpl; try discriminate.
  unfold dict_getitem. destruct (genes !! gene_id) as [g|] eqn:Hg; [|discriminate].
  destruct (py_int (gene_start g)) as [start|] eqn:Hstart; [|discriminate].
  destruct (py_int (gene_stop g)) as [stop|] eqn:Hstop; [|discriminate].
  unfold od_getitem.
  assert (Hrow : annot_of_row genes (gene_chr g) (VStr gene_id :: rest)
                   (VStr gene_id :: VInt start :: VInt (stop - start) :: rest)).
  { exists gene_id, rest, g, start, stop. now repeat split. }
  destruct (od_get (gene_chr g) annots_by_chr) as [b|] eqn:Hb.
  - rewrite Hb. intros [= <-].
    exists (gene_chr g), (VStr gene_id :: VInt start :: VInt (stop - start) :: rest).
    split; [exact Hrow|]. intros k. now rewrite od_get_set, Hb.
  - rewrite od_get_set, String.eqb_refl. intros [= <-].
    exists (gene_chr g), (VStr gene_id :: VInt start :: VInt (stop - start) :: rest).
    split; [exact Hrow|]. intros k. rewrite !od_get_set, Hb.
    now destruct (String.eqb k (gene_chr g)).
Qed.

(** What the loop over the score rows keeps true of the buckets: every
    annotation of a bucket comes from a row, and every row has its
    annotation in a bucket. *)
Lemma annot_loop_invariant genes rows :
  forall seen annots_by_chr annots_by_chr',
    foldM (annot_step genes) rows annots_by_chr = Ok annots_by_chr' ->
    ((forall k b annot, od_get k annots_by_chr = Some b -> In annot b ->
                        exists row, In row seen /\ annot_of_row genes k row annot)
     /\ (forall row, In row seen ->
                     exists k b annot, od_get k annots_by_chr = Some b /\ In annot b
                                       /\ annot_of_row genes k row annot)) ->
    ((forall k b annot, od_get k annots_by_chr' = Some b -> In annot b ->
                        exists row, In row (seen ++ rows)
                                    /\ annot_of_row genes k row annot)
     /\ (forall row, In row (seen ++ rows) ->
                     exists k b annot, od_get k annots_by_chr' = Some b /\ In annot b
                                       /\ annot_of_row genes k row annot)).
Proof.
  induction rows as [|row rows IH]; intros seen abc abc' H Hinv; simpl in H.
  - injection H as <-. now rewrite app_nil_r.
  - destruct (annot_step genes abc row) as [abc1|] eqn:Hstep; [|discriminate].
    apply annot_step_Ok in Hstep as (chr & annot & Hannot & Hget).
    replace (seen ++ row :: rows) with ((seen ++ [row]) ++ rows)
      by now rewrite <- app_assoc.
    apply (IH (seen ++ [row]) abc1 abc' H).
    destruct Hinv as [Hfrom Hto]. split.
    + intros k b a Hk Ha. rewrite Hget in Hk.
      destruct (String.eqb k chr) eqn:Hkc.
      * apply String.eqb_eq in Hkc. subst k. injection Hk as <-.
        apply in_app_or in Ha. destruct Ha as [Ha|[<-|[]]].
        -- destruct (od_get chr abc) as [b0|] eqn:Hb0; [|destruct Ha].
           destruct (Hfrom chr b0 a Hb0 Ha) as (r & Hr & Hra).
           exists r. split; [apply in_or_app; now left | assumption].
        -- exists row. split; [apply in_or_app; right; now left | assumption].
      * destruct (Hfrom k b a Hk Ha) as (r & Hr & Hra).
        exists r. split; [apply in_or_app; now left | assumption].
    + intros r Hr. apply in_app_or in Hr. destruct Hr as [Hr|[<-|[]]].
      * destruct (Hto r Hr) as (k & b & a & Hk & Ha & Hra).
        destruct (String.eqb k chr) eqn:Hkc.
        -- apply String.eqb_eq in Hkc. subst k.
           exists chr, (b ++ [annot]), a. rewrite Hget, String.eqb_refl, Hk.
           split; [reflexivity|]. split; [apply in_or_app; now left | assumption].
        -- exists k, b, a. rewrite Hget, Hkc. now repeat split.
      * exists chr, (default [] (od_get chr abc) ++ [annot]), annot.
        rewrite Hget, String.eqb_refl.
        split; [reflexivity|]. split; [apply in_or_app; right; now left | assumption].
Qed.

Lemma genes_loop_spec (all_lines lines : list string) :
  (forall line, In line lines -> In line all_lines) ->
  forall (acc genes : gmap string gene),
    foldM (fun (genes : gmap string gene) line =>
             let columns := py_split_ws (py_strip line) in
             match columns with
             | [id; chr; start; stop] => Ok (<[id := Gene id chr start stop]> genes)
             | _ => Err (unpack_error (length columns))
             end) lines acc = Ok genes ->
    (forall k g, acc !! k = Some g ->
                 gene_id g = k /\ from_position_line all_lines g) ->
    forall k g, genes !! k = Some g ->
                gene_id g = k /\ from_position_line all_lines g.
Proof.
  induction lines as [|line lines IH]; intros Hincl acc genes H Hacc; simpl in H.
  - now injection H as <-.
  - destruct (py_split_ws (py_strip line))
      as [|id [|chr [|start [|stop [|extra columns]]]]] eqn:Hcols;
      try discriminate.
    apply (IH (fun l Hl => Hincl l (or_intror Hl)) _ genes H).
    intros k g Hk. destruct (decide (id = k)) as [->|Hne].
    + rewrite lookup_insert_eq in Hk. injection Hk as <-.
      split; [reflexivity|]. exists line. split; [apply Hincl; now left | exact Hcols].
    + rewrite lookup_insert_ne in Hk by assumption. now apply Hacc.
Qed.

Lemma genes_of_lines_lookup lines genes k g :
  genes_of_lines lines = Ok genes -> genes !! k = Some g ->
  gene_id g = k /\ from_position_line lines g.
Proof.
  intros H. apply (genes_loop_spec lines lines (fun _ Hl => Hl) ∅ genes H).
  intros k' g' Hk'. rewrite lookup_empty in Hk'. discriminate.
Qed.

(** C6. The length field of every emitted annotation is the gene's stop
    minus its start, both read from the gene's line of the position file
    with [int] and subtracted as integers: every annotation of every bucket
    comes from a score row in this way, every score row (every gene of the
    matrix, which the table then holds) has such an annotation in the bucket
    of its chromosome, and the start and stop of a gene of the table are the
    third and fourth columns of a line of the position file. *)
Theorem C6_length_is_stop_minus_start :
  forall lines genes clusters expression_means result,
    genes_of_lines lines = Ok genes ->
    ideogram_annots_of genes clusters expression_means = Ok result ->
    (forall bucket annot,
        In bucket (annots_list result) -> In annot (annots bucket) ->
        exists row, In row (slice_from 1 expression_means)
                    /\ annot_of_row genes (chr bucket) row annot)
    /\ (forall row,
           In row (slice_from 1 expression_means) ->
           exists bucket annot,
             In bucket (annots_list result) /\ In annot (annots bucket)
             /\ annot_of_row genes (chr bucket) row annot)
    /\ (forall k g, genes !! k = Some g ->
                    gene_id g = k /\ from_position_line lines g).
Proof.
  intros lines genes clusters rows result Hgenes.
  unfold ideogram_annots_of, mbind, result_bind.
  destruct (foldM (annot_step genes) (slice_from 1 rows) []) as [abc|] eqn:Hloop;
    [|discriminate].
  destruct (annots_list_of abc) as [lst|] eqn:Hlst; [|discriminate].
  intros [= <-]. simpl.
  apply annots_list_of_Ok in Hlst.
  destruct (annot_loop_invariant genes _ [] [] abc Hloop) as [Hfrom Hto].
  { split; [discriminate | intros row []]. }
  simpl in Hfrom, Hto. split; [|split].
  - intros bucket annot Hb Ha.
    destruct (Forall2_In_r _ _ _ _ Hlst Hb) as (k & _ & b & Hk & ->).
    exact (Hfrom k b annot Hk Ha).
  - intros row Hrow.
    destruct (Hto row Hrow) as (k & b & annot & Hk & Ha & Hra).
    destruct (Forall2_In_l _ _ _ _ Hlst (od_get_In_keys _ _ _ Hk))
      as (bucket & Hbucket & b' & Hk' & ->).
    rewrite Hk in Hk'. injection Hk' as <-.
    exists (ChrAnnots k b), annot. now repeat split.
  - intros k g. now apply genes_of_lines_lookup.
Qed.

Lemma C6_witness :
  (forall bucket annot,
      In bucket (annots_list example_annots) -> In annot (annots bucket) ->
      exists row,
        In row (slice_from 1 example_scores)
        /\ annot_of_row {["G1" := Gene "G1" "chr1" "100" "200"]} (chr bucket) row annot)
  /\ (forall row,
         In row (slice_from 1 example_scores) ->
         exists bucket annot,
           In bucket (annots_list example_annots)
           /\ In annot (annots bucket)
           /\ annot_of_row {["G1" := Gene "G1" "chr1" "100" "200"]}
                           (chr bucket) row annot)
  /\ (forall k g,
         ({["G1" := Gene "G1" "chr1" "100" "200"]} : gmap string gene) !! k = Some g ->
         gene_id g = k /\ from_position_line (readlines example_pos_file) g).
Proof.
  apply (C6_length_is_stop_minus_start
           (readlines example_pos_file)
           {["G1" := Gene "G1" "chr1" "100" "200"]}
           [("clusterA", Cluster "clusterA.txt" (Some ["CELLA-1"]))]
           example_scores example_annots).
  - vm_compute. reflexivity.
  - vm_compute. reflexivity.
Defined.

(** ** The output file *)

Lemma reads_only_lift {A : Type} (r : result A) : reads_only (lift r).
Proof.
  intros w. simpl. repeat split. exists []. now rewrite app_nil_r.
Qed.

Lemma reads_only_ret {A : Type} (a : A) : reads_only (mret a : IO A).
Proof.
  intros w. simpl. repeat split. exists []. now rewrite app_nil_r.
Qed.

Lemma reads_only_read_lines (path : string) : reads_only (read_lines path).
Proof.
  intros w. unfold read_lines.
  destruct (files w !! path); simpl; repeat split; now exists [OpenRead path].
Qed.

Lemma reads_only_bind {A B : Type} (m : IO A) (f : A -> IO B) :
  reads_only m -> (forall a, reads_only (f a)) -> reads_only (m ≫= f).
Proof.
  intros Hm Hf w. unfold mbind, IO_bind.
  destruct (Hm w) as (Hfiles & Hunw & evs & Hlog & Hevs).
  destruct (m w) as [[a|e] w1]; simpl in *.
  - destruct (Hf a w1) as (Hfiles' & Hunw' & evs' & Hlog' & Hevs').
    split; [congruence|]. split; [congruence|].
    exists (evs ++ evs'). split.
    + rewrite Hlog', Hlog. now rewrite app_assoc.
    + rewrite forallb_app, Hevs, Hevs'. reflexivity.
  - repeat split; try assumption. now exists evs.
Qed.

Lemma reads_only_foldIO {A B : Type} (f : B -> A -> IO B) (l : list A) :
  (forall b x, reads_only (f b x)) -> forall b, reads_only (foldIO f l b).
Proof.
  intros Hf. induction l as [|x l IH]; intros b; simpl.
  - apply reads_only_ret.
  - apply reads_only_bind; [apply Hf | apply IH].
Qed.

Lemma reads_only_get_clusters clusters_meta : reads_only (get_clusters clusters_meta).
Proof.
  unfold get_clusters. apply reads_only_foldIO. intros clusters name.
  repeat (apply reads_only_bind; [|intros ?]);
    first [apply reads_only_lift | apply reads_only_read_lines].
Qed.

Lemma reads_only_get_genes path : reads_only (get_genes path).
Proof.
  unfold get_genes.
  apply reads_only_bind; [apply reads_only_read_lines | intros; apply reads_only_lift].
Qed.

Lemma reads_only_get_ideogram_annots self : reads_only (get_ideogram_annots self).
Proof.
  unfold get_ideogram_annots, compute_gene_expression_means,
    get_expression_matrix_dict.
  repeat (apply reads_only_bind; [|intros ?]);
    first [apply reads_only_lift | apply reads_only_read_lines].
Qed.

(** C9. A run that ends in an error writes nothing: the files are the
    ones it started with, and the output path has not been opened for
    writing unless the error is the failure of that very [open]. A run
    that succeeds has opened nothing but input files before its last
    [open], the one of the output path, and has written there the text of
    the complete annotation structure that [get_ideogram_annots] returned;
    every other file is as it was. *)
Theorem C9_error_writes_nothing :
  forall (json_dumps : ideogram_annots -> string) (a : args) (w : world),
    match main json_dumps a w with
    | (Err e, w') =>
        files w' = files w
        /\ exists reads,
             forallb is_read reads = true
             /\ (io_log w' = io_log w ++ reads
                 \/ (io_log w' = io_log w ++ reads ++ [OpenWrite (arg_output_file a)]
                     /\ e = PermissionError (arg_output_file a)))
    | (Ok self, w') =>
        exists reads annots w1 w2,
          forallb is_read reads = true
          /\ io_log w' = io_log w ++ reads ++ [OpenWrite (arg_output_file a)]
          /\ files w1 = files w
          /\ get_ideogram_annots self w1 = (Ok annots, w2)
          /\ files w' = <[arg_output_file a := json_dumps annots]> (files w)
    end.
Proof.
  intros json_dumps a w. unfold main, mbind, IO_bind, lift.
  destruct (get_clusters_meta (arg_cluster_names a) (arg_cluster_paths a))
    as [clusters_meta|e].
  2:{ split; [reflexivity|]. exists []. split; [reflexivity|].
      left. now rewrite app_nil_r. }
  unfold init, mbind, IO_bind.
  destruct (reads_only_get_clusters clusters_meta w) as (Hf1 & Hu1 & evs1 & Hl1 & Hr1).
  destruct (get_clusters clusters_meta w) as [[clusters|e] w1]; simpl in Hf1, Hu1, Hl1.
  2:{ split; [assumption|]. exists evs1. split; [assumption|]. now left. }
  destruct (reads_only_get_genes (arg_gen_pos_file a) w1)
    as (Hf2 & Hu2 & evs2 & Hl2 & Hr2).
  destruct (get_genes (arg_gen_pos_file a) w1) as [[genes|e] w2];
    simpl in Hf2, Hu2, Hl2.
  2:{ split; [congruence|]. exists (evs1 ++ evs2).
      rewrite forallb_app, Hr1, Hr2. split; [reflexivity|].
      left. rewrite Hl2, Hl1. now rewrite app_assoc. }
  unfold write_ideogram_annots, mbind, IO_bind.
  set (self := Self (arg_infercnv_output a) (arg_infercnv_delimiter a) clusters
                    (arg_output_file a) (arg_gen_pos_file a) genes).
  destruct (reads_only_get_ideogram_annots self w2) as (Hf3 & Hu3 & evs3 & Hl3 & Hr3).
  destruct (get_ideogram_annots self w2) as [[annots|e] w3] eqn:Hannots;
    simpl in Hf3, Hu3, Hl3.
  2:{ split; [congruence|]. exists (evs1 ++ evs2 ++ evs3).
      rewrite !forallb_app, Hr1, Hr2, Hr3. split; [reflexivity|].
      left. rewrite Hl3, Hl2, Hl1. now rewrite !app_assoc. }
  assert (Hlog : io_log w3 ++ [OpenWrite (arg_output_file a)]
                 = io_log w ++ (evs1 ++ evs2 ++ evs3) ++ [OpenWrite (arg_output_file a)]).
  { rewrite Hl3, Hl2, Hl1. now rewrite <- !app_assoc. }
  assert (Hreads : forallb is_read (evs1 ++ evs2 ++ evs3) = true).
  { now rewrite !forallb_app, Hr1, Hr2, Hr3. }
  unfold open_w. simpl output_file.
  destruct (decide (arg_output_file a ∈ unwritable w3)) as [Hin|Hnotin].
  - split; [simpl; congruence|]. exists (evs1 ++ evs2 ++ evs3).
    split; [assumption|]. right. simpl. now split.
  - simpl. exists (evs1 ++ evs2 ++ evs3), annots, w2, w3.
    split; [assumption|]. split; [assumption|]. split; [congruence|].
    split; [assumption|].
    rewrite insert_insert_eq. congruence.
Qed.

(** ** The scenario of the specification *)

(** C3. On the position line [G1 chr1 100 200], the header
    ["PREVIZ.CELLA.1" "PREVIZ.CELLB.1"], the row ["G1" 2.0 4.0] and the
    cluster [clusterA] with the member [CELLA-1], the run succeeds; the
    score row of [G1] is [["G1", 3.0, 4.0]], and the annotation
    [["G1", 100, 100, 3.0, 4.0]] is the only one of the only bucket, the
    one of [chr1]; the text of that structure is what the output file holds. *)
Theorem C3_scenario :
  forall json_dumps : ideogram_annots -> string,
    exists self w',
      main json_dumps example_args example_world = (Ok self, w')
      /\ clusters self = [("clusterA", Cluster "clusterA.txt" (Some ["CELLA-1"]))]
      /\ fst (compute_gene_expression_means self example_world) = Ok example_scores
      /\ fst (get_ideogram_annots self example_world) = Ok example_annots
      /\ files w' !! "out.json" = Some (json_dumps example_annots).
Proof.
  intros json_dumps. eexists. eexists.
  split; [vm_compute; reflexivity|].
  repeat split; vm_compute; reflexivity.
Qed.

(** ** The cell-index map *)

Lemma cells_loop_spec (l : list string) :
  forall (k : nat) (acc cells : gmap string Z),
    foldM (fun (cells_dict : gmap string Z) '(i, cell) =>
             cell ← normalize_cell cell; Ok (<[cell := i]> cells_dict))
          (combine (map Z.of_nat (seq k (length l))) l) acc = Ok cells ->
    exists names,
      map_result normalize_cell l = Ok names
      /\ forall c i,
           cells !! c = Some i <->
           ((exists j, i = Z.of_nat (k + j) /\ nth_error names j = Some c
                       /\ forall j', (j < j')%nat -> nth_error names j' <> Some c)
            \/ (acc !! c = Some i /\ ~ In c names)).
Proof.
  induction l as [|x l IH]; intros k acc cells H; simpl in H.
  - injection H as <-. exists []. split; [reflexivity|]. intros c i. split.
    + intros Hc. right. split; [assumption | intros []].
    + intros [(j & _ & Hj & _)|[Hc _]]; [now destruct j | assumption].
  - unfold mbind, result_bind in H.
    destruct (normalize_cell x) as [n0|] eqn:Hx; [|discriminate].
    destruct (IH (S k) _ cells H) as (names & Hnames & Hspec).
    exists (n0 :: names). split; [simpl; now rewrite Hx, Hnames|].
    intros c i. rewrite Hspec. split.
    + intros [(j & -> & Hj & Hlast)|[Hc Hnot]].
      * left. exists (S j). split; [f_equal; lia|]. split; [assumption|].
        intros [|j'] Hlt; [lia|]. simpl. apply Hlast. lia.
      * destruct (decide (n0 = c)) as [->|Hne].
        -- rewrite lookup_insert_eq in Hc. injection Hc as <-.
           left. exists O. split; [f_equal; lia|]. split; [reflexivity|].
           intros [|j'] Hlt; [lia|]. simpl. intros Hj'.
           apply Hnot. eapply nth_error_In. eassumption.
        -- rewrite lookup_insert_ne in Hc by assumption.
           right. split; [assumption|]. intros [Heq|Hin]; [congruence | contradiction].
    + intros [(j & -> & Hj & Hlast)|[Hc Hnot]].
      * destruct j as [|j].
        -- simpl in Hj. injection Hj as ->. right. split.
           ++ rewrite lookup_insert_eq. f_equal. f_equal. lia.
           ++ intros Hin. apply In_nth_error in Hin as [j' Hj'].
              apply (Hlast (S j')); [lia | exact Hj'].
        -- left. exists j. split; [f_equal; lia|]. split; [exact Hj|].
           intros j' Hlt. apply (Hlast (S j')). lia.
      * right. assert (n0 <> c) by (intros ->; apply Hnot; now left).
        rewrite lookup_insert_ne by assumption.
        split; [assumption|]. intros Hin. apply Hnot. now right.
Qed.

Lemma map_result_nth {A B : Type} (g : A -> result B) (l : list A) (ys : list B) :
  map_result g l = Ok ys ->
  length ys = length l
  /\ forall j y, nth_error ys j = Some y ->
                 exists x, nth_error l j = Some x /\ g x = Ok y.
Proof.
  intros H. apply map_result_Ok in H.
  induction H as [|x y l ys Hxy _ [IHlen IH]]; simpl.
  - split; [reflexivity|]. now intros [|j].
  - split; [now rewrite IHlen|]. intros [|j] y' Hj; simpl in *.
    + injection Hj as <-. eauto.
    + now apply IH.
Qed.

Lemma map_result_nth_l {A B : Type} (g : A -> result B) (l : list A) (ys : list B) :
  map_result g l = Ok ys ->
  forall j x, nth_error l j = Some x ->
              exists y, nth_error ys j = Some y /\ g x = Ok y.
Proof.
  intros H. apply map_result_Ok in H.
  induction H as [|x y l ys Hxy _ IH]; intros [|j] x' Hj; simpl in *;
    try discriminate.
  - injection Hj as <-. eauto.
  - now apply IH.
Qed.

Lemma map_result_all_Ok {A B : Type} (g : A -> result B) (l : list A) :
  Forall (fun x => exists y, g x = Ok y) l ->
  exists ys, map_result g l = Ok ys /\ length ys = length l.
Proof.
  induction 1 as [|x l [y Hy] _ (ys & Hys & Hlen)]; simpl.
  - now exists [].
  - rewrite Hy, Hys. exists (y :: ys). simpl. now rewrite Hlen.
Qed.

Lemma list_getitem_in_range {A : Type} (l : list A) (i : Z) :
  - Z.of_nat (length l) <= i < Z.of_nat (length l) ->
  exists v, list_getitem l i = Ok v
            /\ nth_error l (Z.to_nat (if i <? 0 then i + Z.of_nat (length l) else i))
               = Some v.
Proof.
  intros Hi. unfold list_getitem.
  set (j := if i <? 0 then i + Z.of_nat (length l) else i).
  assert (Hj : 0 <= j < Z.of_nat (length l)).
  { subst j. destruct (Z.ltb_spec i 0); lia. }
  destruct (Z.ltb_spec j 0); [lia|]. destruct (Z.leb_spec (Z.of_nat (length l)) j); [lia|].
  simpl. destruct (nth_error l (Z.to_nat j)) as [v|] eqn:Hv; [eauto|].
  apply nth_error_None in Hv. lia.
Qed.

Lemma list_getitem_last {A : Type} (row : list A) :
  row <> [] ->
  exists front v, row = front ++ [v] /\ list_getitem row (0 - 1) = Ok v.
Proof.
  intros Hne. destruct row as [|x row] using rev_ind; [congruence|].
  exists row, x. split; [reflexivity|].
  destruct (list_getitem_in_range (row ++ [x]) (0 - 1)) as (v & Hv & Hnth).
  { rewrite length_app. simpl. lia. }
  rewrite Hv. f_equal.
  rewrite length_app in Hnth. simpl in Hnth.
  rewrite nth_error_app2 in Hnth by lia.
  replace (Z.to_nat (0 - 1 + Z.of_nat (length row + 1)) - length row)%nat
    with O in Hnth by lia.
  simpl in Hnth. congruence.
Qed.

Lemma cluster_expressions_one cells (row : list float) c i v :
  cells !! c = Some i ->
  list_getitem row (i - 1) = Ok v ->
  cluster_expressions cells row [c] = Ok [v].
Proof.
  intros Hc Hv. unfold cluster_expressions, dict_getitem. simpl.
  rewrite Hc. unfold mbind, result_bind. now rewrite Hv.
Qed.

Lemma cluster_expressions_all cells (row : list float) members :
  Forall (fun c => exists i v, cells !! c = Some i
                               /\ list_getitem row (i - 1) = Ok v) members ->
  exists vs, cluster_expressions cells row members = Ok vs
             /\ length vs = length members.
Proof.
  intros H. rewrite cluster_expressions_map. apply map_result_all_Ok.
  eapply Forall_impl; [exact H|].
  intros c (i & v & Hc & Hv). exists v.
  unfold dict_getitem, mbind, result_bind. now rewrite Hc.
Qed.

(** C2. The cell-index map holds true zero-based header positions, so with
    the subtraction of one the cell of the first header token contributes
    the last value of a gene's row, whatever the row; and the lookup
    succeeds for every member cell of the map on the rows of the data model,
    which have one value for each header token.  What is asked of the data
    model is stated where it is used: that no later token names the cell
    (cells are unique within a matrix), and that the row is not empty and
    has at least as many values as the index (rows are aligned with the
    header). *)
Theorem C2_cell_index_is_position_and_in_range :
  forall cells_list cells,
    cells_dict_of cells_list = Ok cells ->
    cells_index_safe cells_list cells.
Proof.
  intros cells_list cells H. unfold cells_dict_of, enumerate in H.
  apply (cells_loop_spec cells_list 0 ∅) in H as (names & Hnames & Hspec).
  destruct (map_result_nth _ _ _ Hnames) as [Hlen Hnth].
  assert (Ha : forall c i, cells !! c = Some i ->
                 exists j, i = Z.of_nat j /\ nth_error names j = Some c
                           /\ forall j', (j < j')%nat -> nth_error names j' <> Some c).
  { intros c i Hc. apply Hspec in Hc as [(j & -> & Hj & Hlast)|[Hc _]].
    - now exists j.
    - rewrite lookup_empty in Hc. discriminate. }
  assert (Hrange : forall c i, cells !! c = Some i ->
                     0 <= i < Z.of_nat (length cells_list)
                     /\ (exists tok, nth_error cells_list (Z.to_nat i) = Some tok
                                     /\ normalize_cell tok = Ok c)
                     /\ (forall j tok, (Z.to_nat i < j)%nat ->
                                       nth_error cells_list j = Some tok ->
                                       normalize_cell tok <> Ok c)).
  { intros c i Hc. destruct (Ha c i Hc) as (j & -> & Hj & Hlast). split; [|split].
    - assert (j < length names)%nat by (apply nth_error_Some; congruence). lia.
    - rewrite Nat2Z.id. now apply Hnth.
    - rewrite Nat2Z.id. intros j' tok Hlt Htok Hnorm.
      destruct (map_result_nth_l _ _ _ Hnames j' tok Htok) as (y & Hy & Hg).
      apply (Hlast j' Hlt). congruence. }
  assert (Hpos : forall j tok c,
             nth_error cells_list j = Some tok ->
             normalize_cell tok = Ok c ->
             (forall j' tok', (j < j')%nat -> nth_error cells_list j' = Some tok' ->
                              normalize_cell tok' <> Ok c) ->
             cells !! c = Some (Z.of_nat j)).
  { intros j tok c Htok Hc Hlater. apply Hspec. left. exists j.
    split; [reflexivity|].
    destruct (map_result_nth_l _ _ _ Hnames j tok Htok) as (y & Hy & Hg).
    split; [congruence|].
    intros j' Hlt Hj'. destruct (Hnth j' c Hj') as (t & Ht & Htc).
    exact (Hlater j' t Hlt Ht Htc). }
  assert (Hget : forall c i (row : list float),
             cells !! c = Some i -> row <> [] -> i <= Z.of_nat (length row) ->
             exists v, list_getitem row (i - 1) = Ok v
                       /\ cluster_expressions cells row [c] = Ok [v]
                       /\ (0 < i -> nth_error row (Z.to_nat (i - 1)) = Some v)).
  { intros c i row Hc Hne Hi. destruct (Hrange c i Hc) as [Hi0 _].
    assert (0 < Z.of_nat (length row)) by (destruct row; [congruence | simpl; lia]).
    destruct (list_getitem_in_range row (i - 1)) as (v & Hv & Hnthv); [lia|].
    exists v. split; [exact Hv|]. split.
    - eapply cluster_expressions_one; eassumption.
    - intros Hpos0. destruct (Z.ltb_spec (i - 1) 0); [lia | exact Hnthv]. }
  assert (Hall : forall (row : list float) members,
             row <> [] -> (length cells_list <= length row + 1)%nat ->
             Forall (fun c => is_Some (cells !! c)) members ->
             exists vs, cluster_expressions cells row members = Ok vs
                        /\ length vs = length members).
  { intros row members Hne Hrow Hmem. apply cluster_expressions_all.
    eapply Forall_impl; [exact Hmem|].
    intros c [i Hc]. destruct (Hrange c i Hc) as [Hi _].
    destruct (Hget c i row Hc Hne) as (v & Hv & _); [lia|].
    now exists i, v. }
  split; [exact Hrange|]. split; [exact Hpos|]. split; [|split; [exact Hget|split]].
  - intros tok rest c -> Htok Hrest.
    assert (H0 : cells !! c = Some 0).
    { apply (Hpos O tok c); [reflexivity | exact Htok|].
      intros [|j'] tok' Hlt Hj'; [lia|]. simpl in Hj'.
      apply Hrest. eapply nth_error_In. exact Hj'. }
    split; [exact H0|].
    intros row Hne. destruct (list_getitem_last row Hne) as (front & v & -> & Hv).
    exists front, v. split; [reflexivity|]. split; [exact Hv|].
    eapply cluster_expressions_one; eassumption.
  - exact Hall.
  - intros row members Hrow Hmem.
    destruct members as [|c members].
    + exists []. split; reflexivity.
    + apply Hall; [|lia|exact Hmem].
      inversion Hmem as [|? ? [i Hc] _]; subst.
      destruct (Hrange c i Hc) as [Hi _].
      intros ->. simpl in Hrow. lia.
Qed.

Lemma C2_witness :
  cells_index_safe ["PREVIZ.CELLA.1"; "PREVIZ.CELLB.1"] example_cells.
Proof.
  apply (C2_cell_index_is_position_and_in_range
           ["PREVIZ.CELLA.1"; "PREVIZ.CELLB.1"] example_cells).
  vm_compute. reflexivity.
Defined.

(** Neither condition can be left out, as the loader checks neither.  In a
    matrix whose row is shorter than its header the cell of the third header
    token has index 2, and the lookup at 1 in a row of one value raises
    [IndexError]; and when the second header token names the cell of the
    first, the index of the cell is 1 and it contributes the first value of
    the row. *)
Remark lookup_outside_the_data_model :
  ~ (forall delimiter lines matrix cell gene row,
        expression_matrix_of_lines delimiter lines = Ok matrix ->
        is_Some (em_cells matrix !! cell) ->
        od_get gene (em_genes matrix) = Some row ->
        exists vs, cluster_expressions (em_cells matrix) row [cell] = Ok vs)
  /\ ~ (forall delimiter lines matrix header tok rest cell gene row,
          expression_matrix_of_lines delimiter lines = Ok matrix ->
          list_getitem lines 0 = Ok header ->
          py_split delimiter (py_strip header) = Ok (tok :: rest) ->
          normalize_cell tok = Ok cell ->
          od_get gene (em_genes matrix) = Some row ->
          exists front v,
            row = front ++ [v]
            /\ cluster_expressions (em_cells matrix) row [cell] = Ok [v]).
Proof.
  split; intros H.
  - destruct (expression_matrix_of_lines tab ragged_matrix_lines) as [matrix|] eqn:Hm;
      [|vm_compute in Hm; discriminate].
    destruct (H tab ragged_matrix_lines matrix "CELLC-1" "G1" [float_2] Hm)
      as [vs Hvs].
    + vm_compute in Hm. injection Hm as <-. vm_compute. eauto.
    + vm_compute in Hm. injection Hm as <-. reflexivity.
    + vm_compute in Hm. injection Hm as <-. vm_compute in Hvs. discriminate.
  - destruct (expression_matrix_of_lines tab repeated_header_lines) as [matrix|] eqn:Hm;
      [|vm_compute in Hm; discriminate].
    destruct (H tab repeated_header_lines matrix
                ("PREVIZ.CELLA.1" +:+ tab +:+ "PREVIZ.CELLA.1" +:+ newline)
                "PREVIZ.CELLA.1" ["PREVIZ.CELLA.1"] "CELLA-1" "G1"
                [float_2; float_4] Hm)
      as (front & v & Hrow & Hvs).
    + reflexivity.
    + vm_compute. reflexivity.
    + vm_compute. reflexivity.
    + vm_compute in Hm. injection Hm as <-. reflexivity.
    + vm_compute in Hm. injection Hm as <-. vm_compute in Hvs.
      injection Hvs as <-.
      change [float_2; float_4] with ([float_2] ++ [float_4]) in Hrow.
      apply app_inj_tail in Hrow as [_ Hv]. discriminate.
Qed.

(** * Further properties of the loaders and of the assembly *)

(** ** Cluster membership files *)

Lemma list_getitem_0 {A : Type} (l : list A) (x : A) :
  list_getitem l 0 = Ok x <-> exists rest, l = x :: rest.
Proof.
  destruct l as [|y l].
  - split; [discriminate | now intros [rest H]].
  - unfold list_getitem. simpl length.
    destruct (Z.leb_spec (Z.of_nat (S (length l))) 0) as [Hle|_]; [lia|].
    simpl. split.
    + intros [= ->]. eauto.
    + now intros [rest [= -> _]].
Qed.

(** X1. [cells_of_lines] returns, for the lines after the third, the first
    whitespace-separated token of each line, in order and with repeats; it
    succeeds exactly when each of those lines has a token. *)
Theorem X1_cluster_cells_are_first_tokens :
  forall lines cells,
    cells_of_lines lines = Ok cells <->
    Forall2 (fun line cell => exists rest, py_split_ws line = cell :: rest)
            (slice_from 3 lines) cells.
Proof.
  intros lines cells. unfold cells_of_lines.
  rewrite (foldM_collect (fun line => list_getitem (py_split_ws line) 0)).
  unfold mbind, result_bind. simpl app.
  destruct (map_result _ (slice_from 3 lines)) as [ys|e] eqn:Hys.
  - apply map_result_Ok in Hys. split.
    + intros [= <-]. eapply Forall2_impl; [exact Hys|].
      intros line cell. apply list_getitem_0.
    + intros H. f_equal.
      assert (Hc : Forall2 (fun line cell => list_getitem (py_split_ws line) 0 = Ok cell)
                           (slice_from 3 lines) cells).
      { eapply Forall2_impl; [exact H|]. intros line cell. apply list_getitem_0. }
      apply map_result_Ok in Hys, Hc. congruence.
  - split; [discriminate|]. intros H.
    assert (Hc : map_result (fun line => list_getitem (py_split_ws line) 0)
                            (slice_from 3 lines) = Ok cells).
    { apply map_result_Ok. eapply Forall2_impl; [exact H|].
      intros line cell. apply list_getitem_0. }
    congruence.
Qed.

Lemma map_result_Err {A B : Type} (g : A -> result B) (l : list A) (e : exn) :
  map_result g l = Err e <->
  exists before x after,
    l = before ++ x :: after
    /\ Forall (fun y => exists v, g y = Ok v) before
    /\ g x = Err e.
Proof.
  induction l as [|y l IH]; simpl.
  - split; [discriminate|]. intros (before & x & after & H & _). now destruct before.
  - destruct (g y) as [v|e'] eqn:Hy.
    + split.
      * intros H. destruct (map_result g l) as [vs|e''] eqn:Hl; [discriminate|].
        injection H as ->.
        destruct (proj1 IH eq_refl) as (before & x & after & -> & Hb & Hx).
        exists (y :: before), x, after. repeat split; [|assumption].
        constructor; [eauto | assumption].
      * intros (before & x & after & H & Hb & Hx).
        destruct before as [|b before]; simpl in H; injection H as -> ->.
        -- congruence.
        -- inversion Hb; subst.
           assert (Hl : map_result g (before ++ x :: after) = Err e)
             by (apply IH; eauto 6).
           now rewrite Hl.
    + split.
      * intros [= <-]. exists [], y, l. repeat split; [constructor | assumption].
      * intros (before & x & after & H & Hb & Hx).
        destruct before as [|b before]; simpl in H; injection H as -> ->.
        -- congruence.
        -- inversion Hb as [|? ? [v Hv] _]; subst. congruence.
Qed.

Lemma list_getitem_0_Err {A : Type} (l : list A) (e : exn) :
  list_getitem l 0 = Err e <-> l = [] /\ e = IndexError "list index out of range".
Proof.
  destruct l as [|y l].
  - split; [now intros [= <-] | now intros [_ ->]].
  - split; [|now intros [H _]]. intros H.
    assert (Hy : list_getitem (y :: l) 0 = Ok y) by (apply list_getitem_0; eauto).
    congruence.
Qed.

Lemma cells_of_lines_map lines :
  cells_of_lines lines
  = map_result (fun line => list_getitem (py_split_ws line) 0) (slice_from 3 lines).
Proof.
  unfold cells_of_lines.
  rewrite (foldM_collect (fun line => list_getitem (py_split_ws line) 0)).
  unfold mbind, result_bind. now destruct (map_result _ (slice_from 3 lines)).
Qed.

(** X2. The only way [cells_of_lines] fails is an [IndexError], and it
    fails exactly when a line after the third has no token (a blank line,
    for instance one that ends the file). *)
Theorem X2_blank_cluster_line_raises_IndexError :
  forall lines e,
    cells_of_lines lines = Err e <->
    (e = IndexError "list index out of range"
     /\ exists line, In line (slice_from 3 lines) /\ py_split_ws line = []).
Proof.
  intros lines e. rewrite cells_of_lines_map. split.
  - intros H. apply map_result_Err in H as (before & x & after & Hl & _ & Hx).
    apply list_getitem_0_Err in Hx as [Hx ->]. split; [reflexivity|].
    exists x. split; [rewrite Hl; apply in_or_app; right; now left | assumption].
  - intros [-> (line & Hin & Hline)].
    destruct (map_result_Err_In (fun line => list_getitem (py_split_ws line) 0)
                _ line (IndexError "list index out of range") Hin) as [e' He'].
    { apply list_getitem_0_Err. now split. }
    rewrite He'. f_equal.
    apply map_result_Err in He' as (before & x & after & _ & _ & Hx).
    now apply list_getitem_0_Err in Hx as [_ ->].
Qed.

(** A line that holds a no-break space only has no token either. *)
Example cluster_line_of_a_no_break_space :
  cells_of_lines ["NAME X Y" +:+ newline; "TYPE numeric numeric" +:+ newline;
                  "clusterA" +:+ newline; "CELLA-1 0.5 1.5" +:+ newline;
                  nbsp +:+ newline]
  = Err (IndexError "list index out of range").
Proof. reflexivity. Qed.

Example cluster_cell_before_an_em_space :
  cells_of_lines ["NAME X Y" +:+ newline; "TYPE numeric numeric" +:+ newline;
                  "clusterA" +:+ newline;
                  "CELLA-1" +:+ em_space +:+ "0.5 1.5" +:+ newline]
  = Ok ["CELLA-1"].
Proof. reflexivity. Qed.

(** ** The position file *)

Lemma genes_loop_last (lines : list string) :
  forall (acc genes : gmap string gene),
    foldM (fun (genes : gmap string gene) line =>
             let columns := py_split_ws (py_strip line) in
             match columns with
             | [id; chr; start; stop] => Ok (<[id := Gene id chr start stop]> genes)
             | _ => Err (unpack_error (length columns))
             end) lines acc = Ok genes ->
    forall k g,
      genes !! k = Some g <->
      ((exists before line after,
           lines = before ++ line :: after
           /\ position_columns line = [k; gene_chr g; gene_start g; gene_stop g]
           /\ gene_id g = k
           /\ Forall (not_about k) after)
       \/ (acc !! k = Some g /\ Forall (not_about k) lines)).
Proof.
  induction lines as [|line lines IH]; intros acc genes H k g; simpl in H.
  - injection H as <-. split.
    + intros Hk. right. split; [assumption | constructor].
    + intros [(before & line & after & Hl & _)|[Hk _]]; [now destruct before | assumption].
  - destruct (py_split_ws (py_strip line))
      as [|id [|chr [|start [|stop [|extra columns]]]]] eqn:Hcols;
      try discriminate.
    rewrite (IH _ genes H k g). split.
    + intros [(before & l & after & -> & Hl & Hid & Hafter)|[Hk Hrest]].
      * left. exists (line :: before), l, after. now repeat split.
      * destruct (decide (id = k)) as [->|Hne].
        -- rewrite lookup_insert_eq in Hk. injection Hk as <-.
           left. exists [], line, lines. now repeat split.
        -- rewrite lookup_insert_ne in Hk by assumption.
           right. split; [assumption|]. constructor; [|assumption].
           intros c rest Hc. unfold position_columns in Hc. congruence.
    + intros [(before & l & after & Hl & Hcl & Hid & Hafter)|[Hk Hrest]].
      * destruct before as [|b before]; simpl in Hl; injection Hl as -> ->.
        -- right. unfold position_columns in Hcl. rewrite Hcols in Hcl.
           injection Hcl as -> -> -> ->. split; [|assumption].
           rewrite lookup_insert_eq. destruct g as [gi gc gs gt]; simpl in *.
           now subst.
        -- left. exists before, l, after. now repeat split.
      * inversion Hrest as [|? ? Hline Hlines]; subst.
        assert (id <> k) by (apply (Hline id [chr; start; stop]); exact Hcols).
        right. split; [|assumption]. now rewrite lookup_insert_ne.
Qed.

(** X3. In the gene table built from the position file, the entry of a
    gene identifier is the last line whose first column is that identifier:
    a repeated identifier silently keeps its last line. *)
Theorem X3_gene_table_keeps_last_line :
  forall lines genes,
    genes_of_lines lines = Ok genes ->
    forall k g,
      genes !! k = Some g <->
      exists before line after,
        lines = before ++ line :: after
        /\ position_columns line = [k; gene_chr g; gene_start g; gene_stop g]
        /\ gene_id g = k
        /\ Forall (not_about k) after.
Proof.
  intros lines genes H k g. rewrite (genes_loop_last lines ∅ genes H k g).
  split; [|now left].
  intros [Hl|[Hk _]]; [assumption|]. rewrite lookup_empty in Hk. discriminate.
Qed.

Lemma X3_witness :
  ({["G1" := Gene "G1" "chr2" "5" "9"]} : gmap string gene) !! "G1"
  = Some (Gene "G1" "chr2" "5" "9") <->
  exists before line after,
    ["G1 chr1 100 200"; "G1 chr2 5 9"] = before ++ line :: after
    /\ position_columns line = ["G1"; "chr2"; "5"; "9"]
    /\ "G1" = "G1"
    /\ Forall (not_about "G1") after.
Proof.
  apply (X3_gene_table_keeps_last_line ["G1 chr1 100 200"; "G1 chr2 5 9"]
           {["G1" := Gene "G1" "chr2" "5" "9"]} eq_refl
           "G1" (Gene "G1" "chr2" "5" "9")).
Defined.

Lemma genes_loop_fields (lines : list string) :
  forall acc : gmap string gene,
    match foldM (fun (genes : gmap string gene) line =>
                   let columns := py_split_ws (py_strip line) in
                   match columns with
                   | [id; chr; start; stop] =>
                       Ok (<[id := Gene id chr start stop]> genes)
                   | _ => Err (unpack_error (length columns))
                   end) lines acc with
    | Ok _ => Forall (fun line => length (position_columns line) = 4%nat) lines
    | Err e =>
        exists before line after,
          lines = before ++ line :: after
          /\ Forall (fun line => length (position_columns line) = 4%nat) before
          /\ length (position_columns line) <> 4%nat
          /\ e = unpack_error (length (position_columns line))
    end.
Proof.
  induction lines as [|line lines IH]; intros acc; simpl; [constructor|].
  fold (position_columns line).
  destruct (position_columns line)
    as [|id [|chr [|start [|stop [|extra columns]]]]] eqn:Hcols;
    try (exists [], line, lines; rewrite Hcols;
         repeat split; [constructor | simpl; lia]).
  specialize (IH (<[id := Gene id chr start stop]> acc)).
  destruct (foldM _ lines _) as [genes|e].
  - constructor; [now rewrite Hcols | assumption].
  - destruct IH as (before & l & after & -> & Hb & Hl & ->).
    exists (line :: before), l, after. repeat split; try assumption.
    constructor; [now rewrite Hcols | assumption].
Qed.

(** X4. [get_genes] accepts the position file exactly when every line has
    four whitespace-separated fields; otherwise it raises the [ValueError]
    of the unpacking at the first line that has not, a blank line included. *)
Theorem X4_position_lines_need_four_fields :
  forall lines,
    match genes_of_lines lines with
    | Ok _ => Forall (fun line => length (position_columns line) = 4%nat) lines
    | Err e =>
        exists before line after,
          lines = before ++ line :: after
          /\ Forall (fun line => length (position_columns line) = 4%nat) before
          /\ length (position_columns line) <> 4%nat
          /\ e = unpack_error (length (position_columns line))
    end.
Proof. intros lines. apply genes_loop_fields. Qed.

(** The fields of a line may be separated by any white space of Unicode. *)
Example position_line_with_unicode_spaces :
  match genes_of_lines ["G1" +:+ nbsp +:+ "chr1" +:+ em_space +:+ "100 200"
                        +:+ newline] with
  | Ok genes => genes !! "G1" = Some (Gene "G1" "chr1" "100" "200")
  | Err _ => False
  end.
Proof. vm_compute. reflexivity. Qed.

Example position_line_of_spaces_only :
  genes_of_lines [ideographic_space +:+ nbsp +:+ newline] = Err (unpack_error 0).
Proof. reflexivity. Qed.

(** ** Insertion-ordered dictionaries *)

Lemma od_keys_set {V : Type} (k : string) (v : V) (d : odict V) :
  od_keys (od_set k v d) = add_key (od_keys d) k.
Proof.
  unfold add_key. induction d as [|[k0 v0] d IH]; simpl; [reflexivity|].
  destruct (String.eqb k k0) eqn:Hk; simpl.
  - apply String.eqb_eq in Hk. now subst.
  - rewrite IH. now destruct (existsb (String.eqb k) (od_keys d)).
Qed.

Lemma existsb_eqb_In (k : string) (l : list string) :
  existsb (String.eqb k) l = true <-> In k l.
Proof.
  induction l as [|x l IH]; simpl; [split; [discriminate | intros []]|].
  destruct (String.eqb k x) eqn:Hk; simpl.
  - apply String.eqb_eq in Hk. split; [now left | reflexivity].
  - apply String.eqb_neq in Hk. rewrite IH. split; [now right|].
    intros [H|H]; [congruence | assumption].
Qed.

Lemma add_keys_spec (l : list string) :
  forall acc,
    NoDup acc ->
    NoDup (fold_left add_key l acc)
    /\ forall k, In k (fold_left add_key l acc) <-> In k acc \/ In k l.
Proof.
  induction l as [|x l IH]; intros acc Hacc; simpl.
  - split; [assumption|]. intros k. tauto.
  - assert (Hx : NoDup (add_key acc x)
                 /\ forall k, In k (add_key acc x) <-> In k acc \/ x = k).
    { unfold add_key. destruct (existsb (String.eqb x) acc) eqn:Hex.
      - apply existsb_eqb_In in Hex. split; [assumption|].
        intros k. split; [tauto|]. intros [H|<-]; assumption.
      - split.
        + apply NoDup_app. split; [assumption|]. split.
          * intros k Hk Hkx. apply list_elem_of_In in Hk, Hkx.
            destruct Hkx as [<-|[]]. apply existsb_eqb_In in Hk. congruence.
          * apply NoDup_singleton.
        + intros k. rewrite in_app_iff. simpl. tauto. }
    destruct Hx as [Hnd Hin]. destruct (IH _ Hnd) as [IHnd IHin].
    split; [assumption|]. intros k. rewrite IHin, Hin. tauto.
Qed.

Lemma first_seen_NoDup (l : list string) : NoDup (first_seen l).
Proof.
  assert (Hnil : NoDup (@nil string)) by constructor.
  exact (proj1 (add_keys_spec l [] Hnil)).
Qed.

Lemma first_seen_In (l : list string) (k : string) : In k (first_seen l) <-> In k l.
Proof.
  assert (Hnil : NoDup (@nil string)) by constructor.
  unfold first_seen. destruct (add_keys_spec l [] Hnil) as [_ H].
  rewrite H. simpl. tauto.
Qed.

Lemma foldM_map_fold {A B C : Type} (g : A -> result B) (h : C -> B -> C)
    (l : list A) (acc : C) :
  foldM (fun acc x => y ← g x; Ok (h acc y)) l acc
  = (ys ← map_result g l; Ok (fold_left h ys acc)).
Proof.
  revert acc. induction l as [|x l IH]; intros acc; simpl; [reflexivity|].
  unfold mbind, result_bind in *. destruct (g x) as [y|e]; [|reflexivity].
  rewrite IH. now destruct (map_result g l).
Qed.

Lemma od_fold_set_keys {V : Type} (kvs : list (string * V)) :
  forall d0,
    od_keys (fold_left (fun d kv => od_set (fst kv) (snd kv) d) kvs d0)
    = fold_left add_key (map fst kvs) (od_keys d0).
Proof.
  induction kvs as [|[k v] kvs IH]; intros d0; simpl; [reflexivity|].
  now rewrite IH, od_keys_set.
Qed.

Lemma od_fold_set_get {V : Type} (kvs : list (string * V)) (k : string) (v : V) :
  forall d0,
    od_get k (fold_left (fun d kv => od_set (fst kv) (snd kv) d) kvs d0) = Some v <->
    ((exists before after,
         kvs = before ++ (k, v) :: after /\ ~ In k (map fst after))
     \/ (od_get k d0 = Some v /\ ~ In k (map fst kvs))).
Proof.
  induction kvs as [|[k1 v1] kvs IH]; intros d0; simpl.
  - split.
    + intros H. right. split; [assumption | intros []].
    + intros [(before & after & H & _)|[H _]]; [now destruct before | assumption].
  - rewrite IH, od_get_set. split.
    + intros [(before & after & -> & Hafter)|[Hk Hnot]].
      * left. now exists ((k1, v1) :: before), after.
      * destruct (String.eqb k k1) eqn:Hk1.
        -- apply String.eqb_eq in Hk1. subst k1. injection Hk as ->.
           left. now exists [], kvs.
        -- apply String.eqb_neq in Hk1. right. split; [assumption|].
           intros [H|H]; [congruence | contradiction].
    + intros [(before & after & H & Hafter)|[Hk Hnot]].
      * destruct before as [|b before]; simpl in H.
        -- injection H as -> -> ->. right. now rewrite String.eqb_refl.
        -- injection H as <- ->. left. now exists before, after.
      * right. destruct (String.eqb k k1) eqn:Hk1.
        -- apply String.eqb_eq in Hk1. subst k1. exfalso. apply Hnot. now left.
        -- split; [assumption|]. intros H. apply Hnot. now right.
Qed.

(** ** The rows of the matrix *)

Lemma gene_rows_of_fold delimiter lines :
  gene_rows_of delimiter lines
  = (parsed ← map_result (row_of_line delimiter) (slice_from 1 lines);
     Ok (fold_left (fun d kv => od_set (fst kv) (snd kv) d) parsed [])).
Proof.
  unfold gene_rows_of. rewrite <- foldM_map_fold. apply foldM_ext.
  intros genes line. unfold row_of_line, mbind, result_bind.
  destruct (py_split delimiter (py_strip line)) as [columns|]; [|reflexivity].
  destruct (list_getitem columns 0) as [c0|]; [|reflexivity].
  now destruct (map_result py_float (slice_from 1 columns)).
Qed.

(** X5. The gene rows of the matrix come out in the order in which the
    genes first appear in the file, each gene once; a gene that has several
    rows keeps the place of its first row and the values of its last. *)
Theorem X5_matrix_rows_first_place_last_values :
  forall delimiter lines rows,
    gene_rows_of delimiter lines = Ok rows ->
    exists parsed,
      map_result (row_of_line delimiter) (slice_from 1 lines) = Ok parsed
      /\ od_keys rows = first_seen (map fst parsed)
      /\ NoDup (od_keys rows)
      /\ forall gene vals,
           od_get gene rows = Some vals <->
           exists before after,
             parsed = before ++ (gene, vals) :: after
             /\ ~ In gene (map fst after).
Proof.
  intros delimiter lines rows. rewrite gene_rows_of_fold.
  unfold mbind, result_bind.
  destruct (map_result _ (slice_from 1 lines)) as [parsed|]; [|discriminate].
  intros [= <-]. exists parsed. split; [reflexivity|].
  assert (Hkeys : od_keys (fold_left (fun d kv => od_set (fst kv) (snd kv) d) parsed [])
                  = first_seen (map fst parsed)) by apply od_fold_set_keys.
  split; [exact Hkeys|]. split; [rewrite Hkeys; apply first_seen_NoDup|].
  intros gene vals. rewrite od_fold_set_get. split; [|now left].
  intros [H|[H _]]; [assumption | discriminate].
Qed.

Lemma X5_witness :
  exists parsed,
    map_result (row_of_line ",")
               (slice_from 1 ["PREVIZ.A.1"; "G1,2.0"; "G2,3.0"; "G1,4.0"]) = Ok parsed
    /\ od_keys [("G1", [float_4]); ("G2", [float_3])] = first_seen (map fst parsed)
    /\ NoDup (od_keys [("G1", [float_4]); ("G2", [float_3])])
    /\ forall gene vals,
         od_get gene [("G1", [float_4]); ("G2", [float_3])] = Some vals <->
         exists before after,
           parsed = before ++ (gene, vals) :: after
           /\ ~ In gene (map fst after).
Proof.
  apply (X5_matrix_rows_first_place_last_values ","
           ["PREVIZ.A.1"; "G1,2.0"; "G2,3.0"; "G1,4.0"]
           [("G1", [float_4]); ("G2", [float_3])]).
  vm_compute. reflexivity.
Defined.

(** ** The table of scores *)

Lemma od_keys_length {V : Type} (d : odict V) : length (od_keys d) = length d.
Proof. unfold od_keys. apply length_map. Qed.

Lemma expression_means_of_shape :
  forall clusters matrix rows,
    expression_means_of clusters matrix = Ok rows ->
    length rows = S (length (em_genes matrix))
    /\ nth_error rows 0 = Some (scores_header clusters)
    /\ Forall (fun row => length row = (2 + length clusters)%nat) rows
    /\ Forall2 (fun gene row =>
                  exists mean_all ms,
                    row = VStr gene :: VFloat mean_all :: map VFloat ms
                    /\ length ms = length clusters)
               (od_keys (em_genes matrix)) (slice_from 1 rows).
Proof.
  intros clusters matrix rows H.
  apply expression_means_of_Ok in H as (data & Hdata & ->).
  apply map_result_Ok in Hdata.
  assert (Hrows : Forall2 (fun gene row =>
                             exists mean_all ms,
                               row = VStr gene :: VFloat mean_all :: map VFloat ms
                               /\ length ms = length clusters)
                          (od_keys (em_genes matrix)) data).
  { eapply Forall2_impl; [exact Hdata|]. intros gene row Hrow.
    apply gene_scores_Ok in Hrow as (l & a & ms & _ & _ & Hms & ->).
    exists a, ms. split; [reflexivity|].
    destruct (map_result_nth _ _ _ Hms) as [Hlen _].
    now rewrite Hlen, od_keys_length. }
  split; [|split; [reflexivity|split; [|exact Hrows]]].
  - simpl. f_equal. rewrite <- od_keys_length. symmetry.
    eapply Forall2_length. exact Hrows.
  - constructor.
    + unfold scores_header. rewrite length_map. simpl. now rewrite od_keys_length.
    + clear Hdata. induction Hrows as [|gene row genes data (a & ms & -> & Hlen) _ IH];
        constructor; [|assumption].
      simpl. now rewrite length_map, Hlen.
Qed.

(** X6. The table that [compute_gene_expression_means] returns is
    rectangular: a header row [name, all, cluster names...] and one row per
    gene of the matrix, in the order of the matrix, each holding the gene
    identifier followed by one mean for all cells and one mean per cluster. *)
Theorem X6_score_table_shape :
  forall clusters matrix rows,
    expression_means_of clusters matrix = Ok rows ->
    length rows = S (length (em_genes matrix))
    /\ nth_error rows 0 = Some (scores_header clusters)
    /\ Forall (fun row => length row = (2 + length clusters)%nat) rows
    /\ Forall2 (fun gene row =>
                  exists mean_all ms,
                    row = VStr gene :: VFloat mean_all :: map VFloat ms
                    /\ length ms = length clusters)
               (od_keys (em_genes matrix)) (slice_from 1 rows).
Proof. exact expression_means_of_shape. Qed.

Lemma X6_witness :
  length example_scores = S (length (em_genes example_matrix))
  /\ nth_error example_scores 0
     = Some (scores_header [("clusterA", Cluster "clusterA.txt" (Some ["CELLA-1"]))])
  /\ Forall (fun row =>
               length row
               = (2 + length [("clusterA", Cluster "clusterA.txt" (Some ["CELLA-1"]))])%nat)
            example_scores
  /\ Forall2 (fun gene row =>
                exists mean_all ms,
                  row = VStr gene :: VFloat mean_all :: map VFloat ms
                  /\ length ms
                     = length [("clusterA", Cluster "clusterA.txt" (Some ["CELLA-1"]))])
             (od_keys (em_genes example_matrix)) (slice_from 1 example_scores).
Proof.
  apply (X6_score_table_shape
           [("clusterA", Cluster "clusterA.txt" (Some ["CELLA-1"]))] example_matrix).
  vm_compute. reflexivity.
Defined.

(** X7. Every annotation that the assembly emits has exactly as many
    fields as the [keys] list that goes with it: name, start, length, the
    mean over all cells and one mean per cluster. *)
Theorem X7_annotations_match_keys :
  forall genes clusters matrix rows result,
    expression_means_of clusters matrix = Ok rows ->
    ideogram_annots_of genes clusters rows = Ok result ->
    keys result = ["name"; "start"; "length"; "all"] ++ od_keys clusters
    /\ forall bucket annot,
         In bucket (annots_list result) -> In annot (annots bucket) ->
         length annot = length (keys result).
Proof.
  intros genes clusters matrix rows result Hrows Hresult.
  destruct (expression_means_of_shape _ _ _ Hrows) as (_ & _ & Hshape & _).
  assert (Hkeys : keys result = ["name"; "start"; "length"; "all"] ++ od_keys clusters).
  { unfold ideogram_annots_of, mbind, result_bind in Hresult.
    destruct (foldM _ _ _) as [abc|]; [|discriminate].
    destruct (annots_list_of abc) as [lst|]; [|discriminate].
    now injection Hresult as <-. }
  split; [exact Hkeys|]. intros bucket annot Hb Ha.
  unfold ideogram_annots_of, mbind, result_bind in Hresult.
  destruct (foldM (annot_step genes) (slice_from 1 rows) []) as [abc|] eqn:Hloop;
    [|discriminate].
  destruct (annots_list_of abc) as [lst|] eqn:Hlst; [|discriminate].
  apply annots_list_of_Ok in Hlst.
  assert (Hnil : (forall k b a, od_get k (@nil (string * list (list pyval))) = Some b ->
                                In a b ->
                                exists row, In row [] /\ annot_of_row genes k row a)
                 /\ (forall row, In row [] ->
                                 exists k b a,
                                   od_get k (@nil (string * list (list pyval))) = Some b
                                   /\ In a b /\ annot_of_row genes k row a)).
  { split; [discriminate | intros row []]. }
  destruct (annot_loop_invariant genes _ [] [] abc Hloop Hnil) as [Hfrom _].
  injection Hresult as <-. simpl in Hb, Ha. clear Hkeys.
  destruct (Forall2_In_r _ _ _ _ Hlst Hb) as (k & _ & b & Hk & ->).
  destruct (Hfrom k b annot Hk Ha) as (row & Hrow & gid & rest & g & st & sp & -> & _ & _ & _ & _ & ->).
  assert (Hlen : length (VStr gid :: rest) = (2 + length clusters)%nat).
  { apply (proj1 (List.Forall_forall _ _) Hshape).
    simpl in Hrow. destruct rows as [|r0 rows]; [destruct Hrow | now right]. }
  simpl in Hlen |- *. rewrite od_keys_length. lia.
Qed.

Lemma X7_witness :
  keys example_annots
  = ["name"; "start"; "length"; "all"]
    ++ od_keys [("clusterA", Cluster "clusterA.txt" (Some ["CELLA-1"]))]
  /\ forall bucket annot,
       In bucket (annots_list example_annots) -> In annot (annots bucket) ->
       length annot = length (keys example_annots).
Proof.
  apply (X7_annotations_match_keys
           {["G1" := Gene "G1" "chr1" "100" "200"]}
           [("clusterA", Cluster "clusterA.txt" (Some ["CELLA-1"]))]
           example_matrix example_scores example_annots).
  - vm_compute. reflexivity.
  - vm_compute. reflexivity.
Defined.

(** ** The buckets of the assembly *)

Lemma od_set_set {V : Type} (k : string) (v v' : V) (d : odict V) :
  od_set k v (od_set k v' d) = od_set k v d.
Proof.
  induction d as [|[k0 v0] d IH]; simpl.
  - now rewrite String.eqb_refl.
  - destruct (String.eqb k k0) eqn:Hk; simpl.
    + now rewrite String.eqb_refl.
    + now rewrite Hk, IH.
Qed.

Lemma annot_step_row_annot genes annots_by_chr row :
  annot_step genes annots_by_chr row
  = (ca ← row_annot genes row; Ok (od_append (fst ca) (snd ca) annots_by_chr)).
Proof.
  unfold annot_step, row_annot, od_append, od_getitem, mbind, result_bind.
  destruct (list_getitem row 0) as [v|]; [|reflexivity].
  destruct (row_gene_id v) as [gene_id|]; [|reflexivity].
  destruct (dict_getitem genes gene_id) as [g|]; [|reflexivity].
  destruct (py_int (gene_start g)) as [start|]; [|reflexivity].
  destruct (py_int (gene_stop g)) as [stop|]; [|reflexivity].
  simpl fst. simpl snd.
  destruct (od_get (gene_chr g) annots_by_chr) as [b|] eqn:Hb.
  - now rewrite Hb.
  - rewrite od_get_set, String.eqb_refl. simpl. now rewrite od_set_set.
Qed.

Lemma od_fold_append_keys {V : Type} (cas : list (string * V)) :
  forall d0,
    od_keys (fold_left (fun d ca => od_append (fst ca) (snd ca) d) cas d0)
    = fold_left add_key (map fst cas) (od_keys d0).
Proof.
  induction cas as [|[k x] cas IH]; intros d0; simpl; [reflexivity|].
  rewrite IH. unfold od_append. now rewrite od_keys_set.
Qed.

Lemma od_fold_append_get {V : Type} (cas : list (string * V)) (k : string) :
  forall d0,
    od_get k (fold_left (fun d ca => od_append (fst ca) (snd ca) d) cas d0)
    = match filed_under k cas with
      | [] => od_get k d0
      | new => Some (default [] (od_get k d0) ++ new)
      end.
Proof.
  induction cas as [|[k1 x1] cas IH]; intros d0; simpl; [reflexivity|].
  rewrite IH. unfold od_append at 1 2. rewrite od_get_set.
  unfold filed_under. simpl List.filter. rewrite (String.eqb_sym k1 k).
  destruct (String.eqb k k1) eqn:Hk; simpl.
  - apply String.eqb_eq in Hk. subst k1.
    destruct (map snd (List.filter _ cas)); simpl; [reflexivity|].
    now rewrite <- app_assoc.
  - reflexivity.
Qed.

(** X8. The assembly groups the annotations by chromosome: the buckets
    come in the order in which the chromosomes are first met among the score
    rows, one bucket per chromosome, and the bucket of a chromosome holds
    the annotations of exactly the rows whose gene lies on it, in the order
    of the rows; no row is lost or filed twice. *)
Theorem X8_buckets_group_rows_by_chromosome :
  forall genes clusters expression_means result,
    ideogram_annots_of genes clusters expression_means = Ok result ->
    exists cas,
      map_result (row_annot genes) (slice_from 1 expression_means) = Ok cas
      /\ map chr (annots_list result) = first_seen (map fst cas)
      /\ NoDup (map chr (annots_list result))
      /\ Forall (fun bucket => annots bucket = filed_under (chr bucket) cas
                               /\ annots bucket <> [])
                (annots_list result).
Proof.
  intros genes clusters rows result. unfold ideogram_annots_of.
  rewrite (foldM_ext _ (fun acc row => ca ← row_annot genes row;
                                       Ok (od_append (fst ca) (snd ca) acc)))
    by (intros; apply annot_step_row_annot).
  rewrite foldM_map_fold. unfold mbind, result_bind.
  destruct (map_result (row_annot genes) (slice_from 1 rows)) as [cas|]; [|discriminate].
  set (abc := fold_left (fun d ca => od_append (fst ca) (snd ca) d) cas []).
  destruct (annots_list_of abc) as [lst|] eqn:Hlst; [|discriminate].
  intros [= <-]. simpl. exists cas. split; [reflexivity|].
  apply annots_list_of_Ok in Hlst.
  assert (Hkeys : map chr lst = od_keys abc).
  { clear -Hlst. induction Hlst as [|k bucket ks lst (b & _ & ->) _ IH]; simpl;
      [reflexivity | now rewrite IH]. }
  assert (Hfirst : od_keys abc = first_seen (map fst cas))
    by apply od_fold_append_keys.
  split; [congruence|]. split; [rewrite Hkeys, Hfirst; apply first_seen_NoDup|].
  clear Hkeys Hfirst. induction Hlst as [|k bucket ks lst (b & Hb & ->) _ IH];
    constructor; [|assumption].
  simpl. subst abc. rewrite od_fold_append_get in Hb. simpl in Hb.
  destruct (filed_under k cas) as [|a l]; [discriminate|].
  injection Hb as <-. split; [reflexivity | discriminate].
Qed.

Lemma X8_witness :
  exists cas,
    map_result (row_annot {["G1" := Gene "G1" "chr1" "100" "200"]})
               (slice_from 1 example_scores) = Ok cas
    /\ map chr (annots_list example_annots) = first_seen (map fst cas)
    /\ NoDup (map chr (annots_list example_annots))
    /\ Forall (fun bucket => annots bucket = filed_under (chr bucket) cas
                             /\ annots bucket <> [])
              (annots_list example_annots).
Proof.
  apply (X8_buckets_group_rows_by_chromosome
           {["G1" := Gene "G1" "chr1" "100" "200"]}
           [("clusterA", Cluster "clusterA.txt" (Some ["CELLA-1"]))]
           example_scores example_annots).
  vm_compute. reflexivity.
Defined.

(** ** The cluster arguments *)

Lemma list_getitem_nat {A : Type} (l : list A) (n : nat) (x : A) :
  nth_error l n = Some x -> list_getitem l (Z.of_nat n) = Ok x.
Proof.
  intros H. assert (Hn : (n < length l)%nat) by (apply nth_error_Some; congruence).
  assert (E1 : (Z.of_nat n <? 0) = false) by (apply Z.ltb_ge; lia).
  assert (E2 : (Z.of_nat (length l) <=? Z.of_nat n) = false) by (apply Z.leb_gt; lia).
  unfold list_getitem. cbv zeta. rewrite E1. cbv iota. rewrite E1, E2.
  simpl. now rewrite Nat2Z.id, H.
Qed.

Lemma skipn_nth_error {A : Type} (l : list A) (n : nat) (x : A) :
  nth_error l n = Some x -> skipn n l = x :: skipn (S n) l.
Proof.
  revert n. induction l as [|y l IH]; intros [|n] H; simpl in *; try discriminate.
  - now injection H as <-.
  - now apply IH.
Qed.

Lemma clusters_meta_loop (paths : list string) (l : list string) :
  forall (k : nat) (acc : odict cluster),
    (k + length l <= length paths)%nat ->
    foldM (fun clusters_meta '(i, name) =>
             p ← list_getitem paths i;
             Ok (od_set name (Cluster p None) clusters_meta))
          (combine (map Z.of_nat (seq k (length l))) l) acc
    = Ok (fold_left (fun d kv => od_set (fst kv) (snd kv) d)
                    (meta_entries l (skipn k paths)) acc).
Proof.
  induction l as [|name l IH]; intros k acc Hk; simpl in *; [reflexivity|].
  destruct (nth_error paths k) as [p|] eqn:Hp;
    [|apply nth_error_None in Hp; lia].
  rewrite (list_getitem_nat _ _ _ Hp). unfold mbind, result_bind.
  rewrite (skipn_nth_error _ _ _ Hp). unfold meta_entries. simpl.
  rewrite IH by lia. reflexivity.
Qed.

Lemma get_clusters_meta_fold names paths :
  length names = length paths ->
  get_clusters_meta names paths
  = Ok (fold_left (fun d kv => od_set (fst kv) (snd kv) d)
                  (meta_entries names paths) []).
Proof.
  intros Hlen. unfold get_clusters_meta, enumerate.
  rewrite (proj2 (Nat.eqb_eq _ _) Hlen). simpl.
  now rewrite (clusters_meta_loop paths names 0 []) by lia.
Qed.

Lemma meta_entries_keys names paths :
  length names = length paths -> map fst (meta_entries names paths) = names.
Proof.
  unfold meta_entries. revert paths.
  induction names as [|n names IH]; intros [|p paths] Hlen; simpl in *;
    try discriminate; [reflexivity|].
  f_equal. apply IH. lia.
Qed.

(** X9. When there are as many cluster names as cluster paths,
    [get_clusters_meta] succeeds: it keeps each name once, in the order in
    which the names are first given, without a member list, and a name that
    is given several times gets the path given with its last occurrence. *)
Theorem X9_clusters_meta_keeps_last_path :
  forall names paths,
    length names = length paths ->
    exists clusters_meta,
      get_clusters_meta names paths = Ok clusters_meta
      /\ od_keys clusters_meta = first_seen names
      /\ NoDup (od_keys clusters_meta)
      /\ forall name c,
           od_get name clusters_meta = Some c <->
           exists before after,
             meta_entries names paths = before ++ (name, c) :: after
             /\ ~ In name (map fst after).
Proof.
  intros names paths Hlen. eexists. split; [now apply get_clusters_meta_fold|].
  assert (Hkeys : od_keys (fold_left (fun d kv => od_set (fst kv) (snd kv) d)
                                     (meta_entries names paths) [])
                  = first_seen names).
  { rewrite od_fold_set_keys. now rewrite meta_entries_keys. }
  split; [exact Hkeys|]. split; [rewrite Hkeys; apply first_seen_NoDup|].
  intros name c. rewrite od_fold_set_get. split; [|now left].
  intros [H|[H _]]; [assumption | discriminate].
Qed.

Lemma X9_witness :
  exists clusters_meta,
    get_clusters_meta ["a"; "b"; "a"] ["1.txt"; "2.txt"; "3.txt"] = Ok clusters_meta
    /\ od_keys clusters_meta = first_seen ["a"; "b"; "a"]
    /\ NoDup (od_keys clusters_meta)
    /\ forall name c,
         od_get name clusters_meta = Some c <->
         exists before after,
           meta_entries ["a"; "b"; "a"] ["1.txt"; "2.txt"; "3.txt"]
           = before ++ (name, c) :: after
           /\ ~ In name (map fst after).
Proof.
  apply (X9_clusters_meta_keeps_last_path ["a"; "b"; "a"] ["1.txt"; "2.txt"; "3.txt"]).
  reflexivity.
Defined.

Example get_clusters_meta_repeated_name :
  get_clusters_meta ["a"; "b"; "a"] ["1.txt"; "2.txt"; "3.txt"]
  = Ok [("a", Cluster "3.txt" None); ("b", Cluster "2.txt" None)].
Proof. reflexivity. Qed.

(** ** The cluster files *)

Lemma od_get_app_notin {V : Type} (k : string) (d1 d2 : odict V) :
  ~ In k (od_keys d1) -> od_get k (d1 ++ d2) = od_get k d2.
Proof.
  induction d1 as [|[k1 v1] d1 IH]; simpl; intros Hk; [reflexivity|].
  destruct (String.eqb k k1) eqn:Hk1.
  - apply String.eqb_eq in Hk1. exfalso. apply Hk. now left.
  - apply IH. intros H. apply Hk. now right.
Qed.

Lemma od_set_app_notin {V : Type} (k : string) (v : V) (d1 d2 : odict V) :
  ~ In k (od_keys d1) -> od_set k v (d1 ++ d2) = d1 ++ od_set k v d2.
Proof.
  induction d1 as [|[k1 v1] d1 IH]; simpl; intros Hk; [reflexivity|].
  destruct (String.eqb k k1) eqn:Hk1.
  - apply String.eqb_eq in Hk1. exfalso. apply Hk. now left.
  - f_equal. apply IH. intros H. apply Hk. now right.
Qed.

Lemma cluster_loop_body_eval clusters name c w :
  od_get name clusters = Some c ->
  cluster_loop_body clusters name w
  = match files w !! cluster_path c with
    | None => (Err (FileNotFoundError (cluster_path c)),
               log_event (OpenRead (cluster_path c)) w)
    | Some content =>
        match cells_of_lines (readlines content) with
        | Ok cells =>
            (Ok (od_set name (Cluster (cluster_path c) (Some cells)) clusters),
             log_event (OpenRead (cluster_path c)) w)
        | Err e => (Err e, log_event (OpenRead (cluster_path c)) w)
        end
    end.
Proof.
  intros Hc.
  unfold cluster_loop_body, set_cells, od_getitem, lift, read_lines,
    mbind, IO_bind, result_bind.
  rewrite Hc. rewrite od_get_set, String.eqb_refl. simpl cluster_path.
  destruct (files w !! cluster_path c) as [content|]; [|reflexivity].
  destruct (cells_of_lines (readlines content)) as [cells|]; [|reflexivity].
  now rewrite od_set_set.
Qed.

Lemma get_clusters_loop (todo : odict cluster) :
  forall (seen : odict cluster) (w : world) (clusters : odict cluster) (w' : world),
    NoDup (od_keys (seen ++ todo)) ->
    foldIO cluster_loop_body (od_keys todo) (seen ++ todo) w = (Ok clusters, w') ->
    exists loaded,
      clusters = seen ++ loaded
      /\ Forall2 (cluster_loaded (files w)) todo loaded
      /\ io_log w' = io_log w ++ map (fun e => OpenRead (cluster_path (snd e))) todo
      /\ files w' = files w.
Proof.
  induction todo as [|[name c] todo IH]; intros seen w clusters w' Hnd H; simpl in H.
  - injection H as <- <-. exists []. repeat split; [constructor | now rewrite app_nil_r].
  - unfold mbind, IO_bind in H.
    assert (Hnotin : ~ In name (od_keys seen)).
    { unfold od_keys in Hnd. rewrite map_app in Hnd. simpl in Hnd.
      apply NoDup_app in Hnd as (_ & Hdisj & _). intros Hin.
      apply (Hdisj name); [now apply list_elem_of_In | left]. }
    rewrite (cluster_loop_body_eval _ name c) in H
      by (rewrite od_get_app_notin by assumption; simpl; now rewrite String.eqb_refl).
    destruct (files w !! cluster_path c) as [content|] eqn:Hfile; [|discriminate].
    destruct (cells_of_lines (readlines content)) as [cells|] eqn:Hcells; [|discriminate].
    rewrite od_set_app_notin in H by assumption. simpl in H.
    rewrite String.eqb_refl in H.
    change (seen ++ (name, Cluster (cluster_path c) (Some cells)) :: todo)
      with (seen ++ [(name, Cluster (cluster_path c) (Some cells))] ++ todo) in H.
    rewrite app_assoc in H.
    apply IH in H as (loaded & -> & Hloaded & Hlog & Hfiles).
    + exists ((name, Cluster (cluster_path c) (Some cells)) :: loaded).
      split; [now rewrite <- app_assoc|]. split; [|split].
      * constructor; [|exact Hloaded].
        split; [reflexivity|]. exists content, cells. now repeat split.
      * rewrite Hlog. simpl. now rewrite <- app_assoc.
      * exact Hfiles.
    + unfold od_keys in *. rewrite !map_app in *. simpl in *.
      now rewrite <- app_assoc.
Qed.

Lemma get_clusters_loads :
  forall clusters_meta w clusters w',
    NoDup (od_keys clusters_meta) ->
    get_clusters clusters_meta w = (Ok clusters, w') ->
    Forall2 (cluster_loaded (files w)) clusters_meta clusters
    /\ od_keys clusters = od_keys clusters_meta
    /\ io_log w' = io_log w
                   ++ map (fun e => OpenRead (cluster_path (snd e))) clusters_meta
    /\ files w' = files w.
Proof.
  intros cm w clusters w' Hnd H.
  destruct (get_clusters_loop cm [] w clusters w' Hnd H)
    as (loaded & -> & Hloaded & Hlog & Hfiles).
  simpl. split; [exact Hloaded|]. split; [|now split].
  clear -Hloaded. induction Hloaded as [|e e' cm loaded [He _] _ IH]; simpl;
    [reflexivity | now rewrite He, IH].
Qed.

(** X10. [get_clusters] changes no file and opens, once each and in the
    order of the cluster names, the files of the clusters; it keeps the
    names, their order and the paths, and gives each cluster for members the
    first tokens of the lines of its file after the third. *)
Theorem X10_get_clusters_loads_each_file_once :
  forall clusters_meta w clusters w',
    NoDup (od_keys clusters_meta) ->
    get_clusters clusters_meta w = (Ok clusters, w') ->
    Forall2 (cluster_loaded (files w)) clusters_meta clusters
    /\ od_keys clusters = od_keys clusters_meta
    /\ io_log w' = io_log w
                   ++ map (fun e => OpenRead (cluster_path (snd e))) clusters_meta
    /\ files w' = files w.
Proof. exact get_clusters_loads. Qed.

Lemma X10_witness :
  Forall2 (cluster_loaded (files example_world))
          [("clusterA", Cluster "clusterA.txt" None)]
          [("clusterA", Cluster "clusterA.txt" (Some ["CELLA-1"]))]
  /\ od_keys [("clusterA", Cluster "clusterA.txt" (Some ["CELLA-1"]))]
     = od_keys [("clusterA", Cluster "clusterA.txt" None)]
  /\ io_log (log_event (OpenRead "clusterA.txt") example_world)
     = io_log example_world
       ++ map (fun e => OpenRead (cluster_path (snd e)))
              [("clusterA", Cluster "clusterA.txt" None)]
  /\ files (log_event (OpenRead "clusterA.txt") example_world) = files example_world.
Proof.
  apply (X10_get_clusters_loads_each_file_once
           [("clusterA", Cluster "clusterA.txt" None)] example_world).
  - simpl. apply NoDup_singleton.
  - vm_compute. reflexivity.
Defined.

(** ** The run as a whole *)

Lemma get_clusters_meta_NoDup names paths clusters_meta :
  get_clusters_meta names paths = Ok clusters_meta -> NoDup (od_keys clusters_meta).
Proof.
  intros H.
  destruct (Nat.eq_dec (length names) (length paths)) as [Hlen|Hlen].
  - rewrite (get_clusters_meta_fold _ _ Hlen) in H. injection H as <-.
    rewrite od_fold_set_keys. apply (proj1 (add_keys_spec _ [] (NoDup_nil_2))).
  - unfold get_clusters_meta in H.
    rewrite (proj2 (Nat.eqb_neq _ _) Hlen) in H. discriminate.
Qed.

Lemma get_genes_eval path w :
  get_genes path w
  = match files w !! path with
    | Some content => (genes_of_lines (readlines content),
                       log_event (OpenRead path) w)
    | None => (Err (FileNotFoundError path), log_event (OpenRead path) w)
    end.
Proof.
  unfold get_genes, read_lines, lift, mbind, IO_bind.
  now destruct (files w !! path).
Qed.

Lemma get_ideogram_annots_log self w :
  exists r,
    get_ideogram_annots self w = (r, log_event (OpenRead (infercnv_output self)) w)
    /\ (files w !! infercnv_output self = None ->
        r = Err (FileNotFoundError (infercnv_output self))).
Proof.
  unfold get_ideogram_annots, compute_gene_expression_means,
    get_expression_matrix_dict, read_lines, lift, mbind, IO_bind.
  destruct (files w !! infercnv_output self) as [content|].
  - destruct (expression_matrix_of_lines _ _) as [matrix|]; [|eexists; now split].
    destruct (expression_means_of (clusters self) matrix); eexists; now split.
  - eexists. now split.
Qed.

(** X11. A run that succeeds has opened each input file once, in a fixed
    order: the cluster files in the order of the cluster names, then the
    position file, then the matrix, and last the output file for writing.
    The object it built holds the clusters loaded from those files and the
    gene table of the position file, and every input file was there. *)
Theorem X11_successful_run_reads_inputs_in_order :
  forall (json_dumps : ideogram_annots -> string) a w self w',
    main json_dumps a w = (Ok self, w') ->
    exists clusters_meta positions,
      get_clusters_meta (arg_cluster_names a) (arg_cluster_paths a) = Ok clusters_meta
      /\ io_log w'
         = io_log w
           ++ map (fun e => OpenRead (cluster_path (snd e))) clusters_meta
           ++ [OpenRead (arg_gen_pos_file a); OpenRead (arg_infercnv_output a);
               OpenWrite (arg_output_file a)]
      /\ Forall2 (cluster_loaded (files w)) clusters_meta (clusters self)
      /\ files w !! arg_gen_pos_file a = Some positions
      /\ genes_of_lines (readlines positions) = Ok (genes self)
      /\ is_Some (files w !! arg_infercnv_output a).
Proof.
  intros json_dumps a w self w'. unfold main, lift, mbind, IO_bind.
  destruct (get_clusters_meta (arg_cluster_names a) (arg_cluster_paths a))
    as [cm|] eqn:Hcm; [|discriminate].
  unfold init, mbind, IO_bind.
  destruct (get_clusters cm w) as [[cl|] w1] eqn:Hcl; [|discriminate].
  destruct (get_clusters_loads cm w cl w1
              (get_clusters_meta_NoDup _ _ _ Hcm) Hcl)
    as (Hloaded & _ & Hlog1 & Hfiles1).
  rewrite get_genes_eval, Hfiles1.
  destruct (files w !! arg_gen_pos_file a) as [positions|] eqn:Hpos; [|discriminate].
  destruct (genes_of_lines (readlines positions)) as [genes|] eqn:Hgenes; [|discriminate].
  unfold write_ideogram_annots, mbind, IO_bind.
  match goal with |- context [get_ideogram_annots ?s ?w0] =>
    destruct (get_ideogram_annots_log s w0) as (r & -> & Hr) end.
  simpl in Hr. rewrite Hfiles1 in Hr.
  destruct r as [annots|]; [|discriminate].
  destruct (files w !! arg_infercnv_output a) as [content|] eqn:Hmatrix;
    [|now specialize (Hr eq_refl)].
  unfold open_w, file_write. simpl.
  destruct (decide (arg_output_file a ∈ unwritable w1)); [discriminate|].
  intros [= <- <-]. exists cm, positions. simpl.
  split; [reflexivity|]. split; [|now repeat split].
  rewrite Hlog1. now rewrite <- !app_assoc.
Qed.

Lemma X11_witness :
  exists clusters_meta positions,
    get_clusters_meta (arg_cluster_names example_args) (arg_cluster_paths example_args)
    = Ok clusters_meta
    /\ io_log (snd (main example_json example_args example_world))
       = io_log example_world
         ++ map (fun e => OpenRead (cluster_path (snd e))) clusters_meta
         ++ [OpenRead (arg_gen_pos_file example_args);
             OpenRead (arg_infercnv_output example_args);
             OpenWrite (arg_output_file example_args)]
    /\ Forall2 (cluster_loaded (files example_world)) clusters_meta
               (clusters example_self)
    /\ files example_world !! arg_gen_pos_file example_args = Some positions
    /\ genes_of_lines (readlines positions) = Ok (genes example_self)
    /\ is_Some (files example_world !! arg_infercnv_output example_args).
Proof.
  apply (X11_successful_run_reads_inputs_in_order example_json example_args
           example_world example_self
           (snd (main example_json example_args example_world))).
  vm_compute. reflexivity.
Defined.

(** ** Cluster cells that the matrix does not have *)

Lemma cluster_expressions_Err_Lookup cells gene_exp_list members e :
  cluster_expressions cells gene_exp_list members = Err e -> is_LookupError e = true.
Proof.
  rewrite cluster_expressions_map. intros H.
  apply map_result_Err in H as (before & cell & after & _ & _ & Hcell).
  unfold dict_getitem, list_getitem, mbind, result_bind in Hcell.
  destruct (cells !! cell) as [i|]; [|now injection Hcell as <-].
  cbv zeta in Hcell.
  destruct ((_ <? 0) || _); [now injection Hcell as <-|].
  destruct (nth_error _ _); [discriminate | now injection Hcell as <-].
Qed.

(** X12. A cluster member that the header of the matrix does not name
    makes the cluster loop raise a [LookupError] (a [KeyError] for the cell,
    unless an earlier member already failed): the member is never skipped,
    and with it no score table is returned for a matrix that has a gene. *)
Theorem X12_unknown_cluster_cell_raises :
  forall (cells : gmap string Z) members cell,
    In cell members ->
    cells !! cell = None ->
    (forall gene_exp_list,
        exists e, cluster_expressions cells gene_exp_list members = Err e
                  /\ is_LookupError e = true)
    /\ (forall before after gene_exp_list vs,
           members = before ++ cell :: after ->
           cluster_expressions cells gene_exp_list before = Ok vs ->
           cluster_expressions cells gene_exp_list members = Err (KeyError cell))
    /\ (forall clusters name c gene_expression_lists gene gene_exp_list,
           od_get name clusters = Some c ->
           cluster_cells c = Some members ->
           od_get gene gene_expression_lists = Some gene_exp_list ->
           exists e, expression_means_of clusters
                       (EmDict cells gene_expression_lists) = Err e).
Proof.
  intros cells members cell Hin Hcell.
  assert (Hfail : forall row, exists e, cluster_expressions cells row members = Err e).
  { intros row. rewrite cluster_expressions_map.
    apply (map_result_Err_In _ _ cell (KeyError cell) Hin).
    unfold dict_getitem, mbind, result_bind. now rewrite Hcell. }
  split; [|split].
  - intros row. destruct (Hfail row) as [e He]. exists e. split; [assumption|].
    eapply cluster_expressions_Err_Lookup; eassumption.
  - intros before after row vs -> Hbefore. rewrite cluster_expressions_map in *.
    apply map_result_Err. exists before, cell, after. split; [reflexivity|]. split.
    + apply map_result_Ok in Hbefore. clear -Hbefore.
      induction Hbefore; constructor; eauto.
    + unfold dict_getitem, mbind, result_bind. now rewrite Hcell.
  - intros clusters name c genes gene row Hc Hmem Hrow.
    assert (Hmean : exists e, cluster_mean cells clusters row name = Err e).
    { unfold cluster_mean, od_getitem, cells_of, mbind, result_bind.
      rewrite Hc, Hmem. destruct (Hfail row) as [e ->]. eauto. }
    destruct Hmean as [e Hmean].
    assert (Hg : exists e, gene_scores cells clusters genes gene = Err e).
    { destruct (gene_scores cells clusters genes gene) as [r|e'] eqn:Hr; [|eauto].
      apply gene_scores_Ok in Hr as (l & a & ms & Hl & _ & Hms & _).
      rewrite Hrow in Hl. injection Hl as <-.
      destruct (map_result_Err_In _ _ name _ (od_get_In_keys _ _ _ Hc) Hmean)
        as [e' He'].
      congruence. }
    destruct Hg as [e' He'].
    destruct (expression_means_of clusters (EmDict cells genes)) as [rows|e''] eqn:Hr;
      [|eauto].
    apply expression_means_of_Ok in Hr as (data & Hdata & _). simpl in Hdata.
    destruct (map_result_Err_In _ _ gene _ (od_get_In_keys _ _ _ Hrow) He')
      as [e3 He3].
    congruence.
Qed.

Lemma X12_witness :
  (forall gene_exp_list,
      exists e, cluster_expressions example_cells gene_exp_list ["CELLA-1"; "CELLZ-1"]
                = Err e
                /\ is_LookupError e = true)
  /\ (forall before after gene_exp_list vs,
         ["CELLA-1"; "CELLZ-1"] = before ++ "CELLZ-1" :: after ->
         cluster_expressions example_cells gene_exp_list before = Ok vs ->
         cluster_expressions example_cells gene_exp_list ["CELLA-1"; "CELLZ-1"]
         = Err (KeyError "CELLZ-1"))
  /\ (forall clusters name c gene_expression_lists gene gene_exp_list,
         od_get name clusters = Some c ->
         cluster_cells c = Some ["CELLA-1"; "CELLZ-1"] ->
         od_get gene gene_expression_lists = Some gene_exp_list ->
         exists e, expression_means_of clusters
                     (EmDict example_cells gene_expression_lists) = Err e).
Proof.
  apply (X12_unknown_cluster_cell_raises example_cells ["CELLA-1"; "CELLZ-1"] "CELLZ-1").
  - simpl. tauto.
  - vm_compute. reflexivity.
Defined.

(** ** The identifiers of the cells *)

Lemma char_in_app (a b : string) (c : ascii) :
  char_in (a +:+ b) c = char_in a c || char_in b c.
Proof.
  induction a as [|x a IH]; simpl; [reflexivity|].
  now rewrite IH, orb_assoc.
Qed.

Lemma prefix_dot (c : ascii) (s : string) :
  String.prefix "." (String c s) = Ascii.eqb c ".".
Proof.
  change (String.prefix "." (String c s))
    with (if ascii_dec "." c then String.prefix EmptyString s else false).
  destruct (ascii_dec "." c) as [<-|Hc].
  - now destruct s.
  - symmetry. apply Ascii.eqb_neq. congruence.
Qed.

Lemma split_aux_dot_cons (c : ascii) (s : string) :
  split_aux "." O (String c s)
  = if Ascii.eqb c "."
    then (EmptyString, fst (split_aux "." O s) :: snd (split_aux "." O s))
    else (String c (fst (split_aux "." O s)), snd (split_aux "." O s)).
Proof.
  change (split_aux "." O (String c s))
    with (if String.prefix "." (String c s)
          then let '(w, ws) := split_aux "." O s in (EmptyString, w :: ws)
          else let '(w, ws) := split_aux "." O s in (String c w, ws)).
  rewrite prefix_dot. now destruct (split_aux "." O s).
Qed.

Lemma split_dot_pieces (s : string) :
  char_in (fst (split_aux "." O s)) "." = false
  /\ Forall (fun piece => char_in piece "." = false) (snd (split_aux "." O s)).
Proof.
  induction s as [|c s [IHw IHws]]; [split; [reflexivity | constructor]|].
  rewrite split_aux_dot_cons. destruct (Ascii.eqb c ".") eqn:Hc; cbn [fst snd].
  - split; [reflexivity | now constructor].
  - split; [|assumption].
    change (Ascii.eqb "." c || char_in (fst (split_aux "." O s)) "." = false).
    now rewrite IHw, orb_false_r, Ascii.eqb_sym.
Qed.

Lemma concat_no_char (sep : string) (c : ascii) (pieces : list string) :
  char_in sep c = false ->
  Forall (fun piece => char_in piece c = false) pieces ->
  char_in (String.concat sep pieces) c = false.
Proof.
  intros Hsep. induction 1 as [|x l Hx Hl IH]; simpl; [reflexivity|].
  destruct l as [|y l]; [assumption|].
  change (char_in (x +:+ sep +:+ String.concat sep (y :: l)) c = false).
  now rewrite !char_in_app, Hx, Hsep, IH.
Qed.

Lemma normalize_cell_no_dot (tok cell : string) :
  normalize_cell tok = Ok cell -> char_in cell "." = false.
Proof.
  unfold normalize_cell, mbind, result_bind.
  destruct (py_split "PREVIZ." (py_strip_chars dquote tok)) as [parts|]; [|discriminate].
  destruct (list_getitem parts 1) as [p|]; [|discriminate].
  intros [= <-]. unfold py_replace.
  destruct (split_dot_pieces p) as [Hw Hws].
  destruct (split_aux "." O p) as [w ws]. simpl in Hw, Hws.
  apply concat_no_char; [reflexivity | now constructor].
Qed.

(** X13. No cell identifier of the cell-index map contains a dot: the
    loader turns every dot of a header token into a dash. A cluster member
    written with a dot is therefore never found, and the cluster loop raises
    on it. *)
Theorem X13_cell_identifiers_have_no_dot :
  forall cells_list cells,
    cells_dict_of cells_list = Ok cells ->
    (forall cell i, cells !! cell = Some i -> char_in cell "." = false)
    /\ (forall members cell gene_exp_list,
           In cell members ->
           char_in cell "." = true ->
           exists e, cluster_expressions cells gene_exp_list members = Err e).
Proof.
  intros cells_list cells H. unfold cells_dict_of, enumerate in H.
  apply (cells_loop_spec cells_list 0 ∅) in H as (names & Hnames & Hspec).
  assert (Hdot : forall cell i, cells !! cell = Some i -> char_in cell "." = false).
  { intros cell i Hc. apply Hspec in Hc as [(j & _ & Hj & _)|[Hc _]].
    - destruct (map_result_nth _ _ _ Hnames) as [_ Hnth].
      destruct (Hnth j cell Hj) as (tok & _ & Htok).
      eapply normalize_cell_no_dot. eassumption.
    - rewrite lookup_empty in Hc. discriminate. }
  split; [exact Hdot|].
  intros members cell row Hin Hcell. rewrite cluster_expressions_map.
  apply (map_result_Err_In _ _ cell (KeyError cell) Hin).
  unfold dict_getitem, mbind, result_bind.
  destruct (cells !! cell) as [i|] eqn:Hi; [|reflexivity].
  apply Hdot in Hi. congruence.
Qed.

Lemma X13_witness :
  (forall cell i, example_cells !! cell = Some i -> char_in cell "." = false)
  /\ (forall members cell gene_exp_list,
         In cell members ->
         char_in cell "." = true ->
         exists e, cluster_expressions example_cells gene_exp_list members = Err e).
Proof.
  apply (X13_cell_identifiers_have_no_dot ["PREVIZ.CELLA.1"; "PREVIZ.CELLB.1"]
                                           example_cells).
  vm_compute. reflexivity.
Defined.

(** ** Inputs on which the aggregator cannot miss *)

Lemma od_get_In {V : Type} (k : string) (v : V) (d : odict V) :
  od_get k d = Some v -> In (k, v) d.
Proof.
  induction d as [|[k1 v1] d IH]; simpl; [discriminate|].
  destruct (String.eqb k k1) eqn:Hk.
  - apply String.eqb_eq in Hk. intros [= <-]. subst. now left.
  - intros H. right. now apply IH.
Qed.

Lemma od_get_of_key {V : Type} (k : string) (d : odict V) :
  In k (od_keys d) -> exists v, od_get k d = Some v.
Proof.
  induction d as [|[k1 v1] d IH]; simpl; [intros []|].
  destruct (String.eqb k k1) eqn:Hk; [eauto|].
  apply String.eqb_neq in Hk. intros [H|H]; [congruence | now apply IH].
Qed.

Lemma float_of_fraction_Err (q : Qc) (e : exn) :
  float_of_fraction q = Err e -> exists msg, e = OverflowError msg.
Proof.
  unfold float_of_fraction. destruct (Qnum q); [discriminate| |];
    destruct (float_of_ratio _ _ _); try discriminate; intros [= <-]; eauto.
Qed.

Lemma py_round_Err (x : float) (ndigits : Z) (e : exn) :
  py_round x ndigits = Err e -> exists msg, e = OverflowError msg.
Proof.
  unfold py_round. destruct x as [s|s| |s m ex]; try discriminate.
  destruct (323 <? ndigits); [discriminate|].
  destruct (ndigits <? -308); [discriminate|].
  cbv zeta. destruct (_ * _) as [|p|p]; try discriminate.
  destruct (float_of_ratio _ _ _); try discriminate. intros [= <-]. eauto.
Qed.

Lemma rounded_mean_Err (l : list float) (e : exn) :
  l <> [] -> rounded_mean l = Err e -> exists msg, e = OverflowError msg.
Proof.
  intros Hl. unfold rounded_mean, mbind, result_bind.
  destruct (mean l) as [m|e'] eqn:Hm; [apply py_round_Err|].
  intros [= <-]. unfold mean in Hm.
  destruct (Z.ltb_spec (Z.of_nat (length l)) 1) as [Hlt|_].
  - destruct l; [congruence | simpl in Hlt; lia].
  - destruct (py_sum l) as [total [t|]]; [discriminate|].
    eapply float_of_fraction_Err. eassumption.
Qed.

Lemma cells_dict_index_range cells_list cells c i :
  cells_dict_of cells_list = Ok cells -> cells !! c = Some i ->
  0 <= i < Z.of_nat (length cells_list).
Proof.
  intros H Hc. unfold cells_dict_of, enumerate in H.
  apply (cells_loop_spec cells_list 0 ∅) in H as (names & Hnames & Hspec).
  destruct (map_result_nth _ _ _ Hnames) as [Hlen _].
  apply Hspec in Hc as [(j & -> & Hj & _)|[Hc _]].
  - assert (j < length names)%nat by (apply nth_error_Some; congruence). lia.
  - rewrite lookup_empty in Hc. discriminate.
Qed.

(** X14. On inputs that fit together the aggregator raises no lookup or
    data error: when every gene row is non-empty and has at least as many
    values as the header has tokens, and every cluster has a non-empty
    member list whose cells the header names, the only exception that
    [compute_gene_expression_means] can still raise after the matrix is
    read is the [OverflowError] of the mean or of the rounding. *)
Theorem X14_aligned_inputs_raise_no_lookup_error :
  forall cells_list cells clusters gene_expression_lists,
    cells_dict_of cells_list = Ok cells ->
    Forall (fun kv => snd kv <> []
                      /\ (length cells_list <= length (snd kv))%nat)
           gene_expression_lists ->
    Forall (fun kv => exists members,
                        cluster_cells (snd kv) = Some members
                        /\ members <> []
                        /\ Forall (fun cell => is_Some (cells !! cell)) members)
           clusters ->
    match expression_means_of clusters (EmDict cells gene_expression_lists) with
    | Ok _ => True
    | Err e => exists msg, e = OverflowError msg
    end.
Proof.
  intros cells_list cells clusters genes Hcells Hgenes Hclusters.
  destruct (expression_means_of clusters (EmDict cells genes)) as [rows|e] eqn:H;
    [exact I|].
  unfold expression_means_of in H.
  rewrite (foldM_collect (gene_scores cells clusters genes)) in H.
  unfold mbind, result_bind in H. simpl em_genes in H.
  destruct (map_result _ (od_keys genes)) as [data|e'] eqn:Hdata; [discriminate|].
  injection H as ->.
  apply map_result_Err in Hdata as (before & gene & after & Hkeys & _ & Hgene).
  assert (Hin : In gene (od_keys genes))
    by (rewrite Hkeys; apply in_or_app; right; now left).
  destruct (od_get_of_key _ _ Hin) as [row Hrow].
  destruct (proj1 (List.Forall_forall _ _) Hgenes _ (od_get_In _ _ _ Hrow))
    as [Hne Hlen]. simpl in Hne, Hlen.
  unfold gene_scores, od_getitem, mbind, result_bind in Hgene. rewrite Hrow in Hgene.
  destruct (rounded_mean row) as [mean_all|e'] eqn:Hall.
  2:{ injection Hgene as <-. eapply rounded_mean_Err; eassumption. }
  rewrite cluster_loop_means in Hgene. unfold mbind, result_bind in Hgene.
  destruct (map_result _ (od_keys clusters)) as [ms|e'] eqn:Hms; [discriminate|].
  injection Hgene as ->.
  apply map_result_Err in Hms as (before' & name & after' & Hnames & _ & Hname).
  assert (Hin' : In name (od_keys clusters))
    by (rewrite Hnames; apply in_or_app; right; now left).
  destruct (od_get_of_key _ _ Hin') as [c Hc].
  destruct (proj1 (List.Forall_forall _ _) Hclusters _ (od_get_In _ _ _ Hc))
    as (members & Hmem & Hmne & Hall'). simpl in Hmem.
  unfold cluster_mean, od_getitem, cells_of, mbind, result_bind in Hname.
  rewrite Hc, Hmem, cluster_expressions_map in Hname.
  destruct (map_result_all_Ok
              (fun cell => i ← dict_getitem cells cell; list_getitem row (i - 1))
              members) as (vs & Hvs & Hvlen).
  { eapply Forall_impl; [exact Hall'|]. intros cell [i Hi]. simpl in Hi.
    pose proof (cells_dict_index_range _ _ _ _ Hcells Hi) as Hrange.
    destruct (list_getitem_in_range row (i - 1)) as (v & Hv & _).
    { destruct row; [congruence | simpl in *; lia]. }
    exists v. unfold dict_getitem, mbind, result_bind. now rewrite Hi. }
  rewrite Hvs in Hname.
  apply (rounded_mean_Err vs); [|assumption].
  intros ->. destruct members; [congruence | discriminate].
Qed.

Lemma X14_witness :
  match expression_means_of example_clusters (EmDict example_cells example_rows) with
  | Ok _ => True
  | Err e => exists msg, e = OverflowError msg
  end.
Proof.
  apply (X14_aligned_inputs_raise_no_lookup_error
           ["PREVIZ.CELLA.1"; "PREVIZ.CELLB.1"] example_cells
           example_clusters example_rows).
  - vm_compute. reflexivity.
  - constructor; [|constructor]. simpl. split; [discriminate | lia].
  - constructor; [|constructor]. exists ["CELLB-1"]. split; [reflexivity|].
    split; [discriminate|]. constructor; [|constructor]. now exists 1.
Defined.

(** ** The errors of the matrix loader *)

Lemma foldM_Err {A B : Type} (f : B -> A -> result B) (l : list A) (e : exn) :
  forall b, foldM f l b = Err e -> exists x b', In x l /\ f b' x = Err e.
Proof.
  induction l as [|x l IH]; intros b H; simpl in H; [discriminate|].
  destruct (f b x) as [b1|e'] eqn:Hx.
  - destruct (IH b1 H) as (y & b' & Hy & Hf). exists y, b'. split; [now right | assumption].
  - injection H as <-. exists x, b. split; [now left | assumption].
Qed.

Lemma py_split_Err (sep s : string) (e : exn) :
  py_split sep s = Err e -> sep = EmptyString /\ e = ValueError "empty separator".
Proof.
  unfold py_split. destruct sep; [now intros [= <-]|].
  now destruct (split_aux _ _ _).
Qed.

Lemma py_split_nonempty (sep s : string) (parts : list string) :
  py_split sep s = Ok parts -> exists p ps, parts = p :: ps.
Proof.
  unfold py_split. destruct sep; [discriminate|].
  destruct (split_aux _ _ _) as [w ws]. intros [= <-]. eauto.
Qed.

Lemma normalize_cell_Err (tok : string) (e : exn) :
  normalize_cell tok = Err e -> e = IndexError "list index out of range".
Proof.
  unfold normalize_cell, mbind, result_bind.
  destruct (py_split "PREVIZ." (py_strip_chars dquote tok)) as [parts|e'] eqn:Hs.
  - unfold list_getitem. cbv zeta.
    destruct (_ || _); [now intros [= <-]|].
    destruct (nth_error _ _); [discriminate | now intros [= <-]].
  - apply py_split_Err in Hs as [Hs _]. discriminate.
Qed.

(** X15. The matrix loader fails in four ways only: on a file without
    lines ([IndexError]), on an empty delimiter ([ValueError]), on a header
    token that lacks the [PREVIZ.] marker ([IndexError]), and on a value of
    a gene row that [float] does not accept ([ValueError]). *)
Theorem X15_matrix_loader_errors :
  forall delimiter lines e,
    expression_matrix_of_lines delimiter lines = Err e ->
    (lines = [] /\ e = IndexError "list index out of range")
    \/ (delimiter = EmptyString /\ e = ValueError "empty separator")
    \/ (exists header cells_list tok,
           list_getitem lines 0 = Ok header
           /\ py_split delimiter (py_strip header) = Ok cells_list
           /\ In tok cells_list
           /\ normalize_cell tok = Err e
           /\ e = IndexError "list index out of range")
    \/ (exists line columns tok,
           In line (slice_from 1 lines)
           /\ py_split delimiter (py_strip line) = Ok columns
           /\ In tok (slice_from 1 columns)
           /\ py_float tok = Err e).
Proof.
  intros delimiter lines e. unfold expression_matrix_of_lines, mbind, result_bind.
  destruct (list_getitem lines 0) as [header|e0] eqn:Hheader.
  2:{ intros [= <-]. left. now apply list_getitem_0_Err in Hheader. }
  destruct (py_split delimiter (py_strip header)) as [cells_list|e0] eqn:Hsplit.
  2:{ intros [= <-]. right. left. now apply py_split_Err in Hsplit. }
  destruct (cells_dict_of cells_list) as [cells|e0] eqn:Hcells.
  2:{ intros [= <-]. right. right. left.
      unfold cells_dict_of in Hcells.
      apply foldM_Err in Hcells as ([i tok] & b & Hin & Htok).
      unfold mbind, result_bind in Htok.
      destruct (normalize_cell tok) as [c|e1] eqn:Hn; [discriminate|].
      injection Htok as <-.
      exists header, cells_list, tok. split; [reflexivity|]. split; [exact Hsplit|].
      split; [|split; [assumption | eapply normalize_cell_Err; eassumption]].
      unfold enumerate in Hin. eapply in_combine_r. eassumption. }
  rewrite gene_rows_of_fold. unfold mbind, result_bind.
  destruct (map_result (row_of_line delimiter) (slice_from 1 lines))
    as [parsed|e0] eqn:Hrows; [discriminate|].
  intros [= <-].
  apply map_result_Err in Hrows as (before & line & after & Hlines & _ & Hline).
  assert (Hin : In line (slice_from 1 lines))
    by (rewrite Hlines; apply in_or_app; right; now left).
  unfold row_of_line, mbind, result_bind in Hline.
  destruct (py_split delimiter (py_strip line)) as [columns|e1] eqn:Hcols.
  2:{ injection Hline as <-. right. left. now apply py_split_Err in Hcols. }
  destruct (py_split_nonempty _ _ _ Hcols) as (c0 & cols & ->).
  assert (H0 : list_getitem (c0 :: cols) 0 = Ok c0) by (apply list_getitem_0; eauto).
  rewrite H0 in Hline.
  destruct (map_result py_float (slice_from 1 (c0 :: cols))) as [vals|e1] eqn:Hvals;
    [discriminate|].
  injection Hline as <-.
  apply map_result_Err in Hvals as (b & tok & a & Htoks & _ & Htok).
  right. right. right. exists line, (c0 :: cols), tok.
  split; [assumption|]. split; [exact Hcols|]. split; [|assumption].
  rewrite Htoks. apply in_or_app. right. now left.
Qed.

Lemma X15_witness :
  ([dquote +:+ "CELLA.1" +:+ dquote] = []
   /\ IndexError "list index out of range" = IndexError "list index out of range")
  \/ (tab = EmptyString
      /\ IndexError "list index out of range" = ValueError "empty separator")
  \/ (exists header cells_list tok,
         list_getitem [dquote +:+ "CELLA.1" +:+ dquote] 0 = Ok header
         /\ py_split tab (py_strip header) = Ok cells_list
         /\ In tok cells_list
         /\ normalize_cell tok = Err (IndexError "list index out of range")
         /\ IndexError "list index out of range" = IndexError "list index out of range")
  \/ (exists line columns tok,
         In line (slice_from 1 [dquote +:+ "CELLA.1" +:+ dquote])
         /\ py_split tab (py_strip line) = Ok columns
         /\ In tok (slice_from 1 columns)
         /\ py_float tok = Err (IndexError "list index out of range")).
Proof.
  apply (X15_matrix_loader_errors tab [dquote +:+ "CELLA.1" +:+ dquote]
           (IndexError "list index out of range")).
  vm_compute. reflexivity.
Defined.
